(** * Bunny CDN package: image transcoding and cache purge

    A shallow embedding of [cdn/image_utils.py] (format selection and the
    [compress_image] pipeline) and of [cdn/bunny.py] ([purge_cache]),
    followed by the properties of the specification that concern them;
    then the rest of the package, [cdn/bunny.py] (the Storage API) and
    [cdn/helpers.py], with the properties their code shows.

    Python values are modelled as follows.
    - [int] is [Z]; [str] and [bytes] are [string]; [None]-able arguments
      are [option].
    - [float] is IEEE 754 binary64, through the Standard Library's
      specification of floating-point arithmetic (module [PyFloat]); the
      module [Rounding] holds the description of its rounding that the
      proofs use.
    - Pillow is an external library: its images are records of the
      attributes the code reads ([mode], [size], [info]) together with a
      symbolic description of the pixel data; each library call is
      recorded in a call log and may raise (module [PIL]).
    - [requests.post] is an effect on the network, threaded as explicit
      state (module [bunny]); so are [requests.put], [requests.delete] and
      [instance.save] (modules [bunny_storage] and [helpers]). The requests
      made are read off a world that records them (module [Wire]).
    Logging has no effect on results and is left out; the statistics of
    lines 100-107 are computed from [len(data)] and the integer
    [file_obj.size], guarded against a zero divisor, and raise nothing. *)

From Stdlib Require Import ZArith QArith Qround Qpower Lia Lqa Bool List.
From Stdlib Require Import String Ascii DecimalString Permutation SpecFloat.
Import ListNotations.

(* ================================================================== *)
(** ** Python strings and truthiness *)

Module Py.
Local Open Scope string_scope.

(** [str.upper()] on one character. Only a-z are mapped: the results are
    only compared with "JPEG" and "WEBP", and no string that contains a
    character outside ASCII upper-cases to one of these. *)
Definition upper_ascii (c : ascii) : ascii :=
  let n := nat_of_ascii c in
  if ((97 <=? n) && (n <=? 122))%nat then ascii_of_nat (n - 32) else c.

Fixpoint upper (s : string) : string :=
  match s with
  | EmptyString => EmptyString
  | String c rest => String (upper_ascii c) (upper rest)
  end.

(** [x in (a, b, ...)] and [x in {a, b, ...}] on strings. *)
Definition str_in (x : string) (xs : list string) : bool :=
  existsb (String.eqb x) xs.

(** [str(n)] for an [int], as used by the f-strings. *)
Definition str_of_int (n : Z) : string :=
  NilZero.string_of_int (Z.to_int n).

(** Truth value of an [int | None], of a [str] and of a [str | None]. *)
Definition truthy_int (n : option Z) : bool :=
  match n with
  | None => false
  | Some k => negb (k =? 0)%Z
  end.

Definition truthy_str (s : string) : bool := negb (s =? "").

Definition truthy_opt_str (s : option string) : bool :=
  match s with
  | None => false
  | Some t => truthy_str t
  end.

End Py.

(* ================================================================== *)
(** ** Python floats

    A [float] is an IEEE 754 binary64 number: the Standard Library's
    specification of floating-point arithmetic at precision 53 and
    maximal exponent 1024. *)

Module PyFloat.

Definition float : Type := spec_float.

(** [float(n)], also applied to the [int] operand of a mixed operation:
    the nearest binary64 number, [OverflowError] beyond the range. *)
Definition of_int (n : Z) : string + float :=
  match binary_normalize 53 1024 n 0 false with
  | S754_infinity _ => inl "int too large to convert to float"%string
  | f => inr f
  end.

Definition is_zero (f : float) : bool :=
  match f with
  | S754_zero _ => true
  | _ => false
  end.

(** [a / b]: [ZeroDivisionError] on a zero divisor. *)
Definition truediv (a b : float) : string + float :=
  if is_zero b then inl "float division by zero"%string
  else inr (SFdiv 53 1024 a b).

(** [a * b] *)
Definition mul (a b : float) : float := SFmul 53 1024 a b.

(** [int(x)]: truncation towards zero; [OverflowError] on an infinity,
    [ValueError] on a NaN. *)
Definition to_int (x : float) : string + Z :=
  match x with
  | S754_zero _ => inr 0%Z
  | S754_finite s m e =>
      inr (cond_Zopp s
             (match e with
              | Zneg p => Z.quot (Zpos m) (2 ^ Zpos p)
              | _ => Zpos m * 2 ^ e
              end))%Z
  | S754_infinity _ => inl "cannot convert float infinity to integer"%string
  | S754_nan => inl "cannot convert float NaN to integer"%string
  end.

End PyFloat.

(* ================================================================== *)
(** ** Rounding to nearest, ties to even

    The arithmetic of binary64 described on rationals: what the results
    of [PyFloat] are compared with. *)

Module Rounding.
Local Open Scope Q_scope.

(** Nearest integer to [y], ties to the even one. *)
Definition round_half_even (y : Q) : Z :=
  let f := Qfloor y in
  match Qcompare (y - inject_Z f) (1 # 2) with
  | Lt => f
  | Gt => (f + 1)%Z
  | Eq => if Z.even f then f else (f + 1)%Z
  end.

(** For [0 < x], the exponent [k] with [2^k <= x < 2^(k+1)]. *)
Definition binade (x : Q) : Z :=
  let k := (Z.log2 (Qnum x) - Z.log2 (Zpos (Qden x)))%Z in
  if Qle_bool (2 ^ k) x then k else (k - 1)%Z.

(** Rounding of a positive rational to a 53-bit significand. *)
Definition RNpos (x : Q) : Q :=
  let e := (binade x - 52)%Z in
  inject_Z (round_half_even (x * 2 ^ (- e))) * 2 ^ e.

(** Round to nearest, ties to even, with an unbounded exponent. *)
Definition RN (x : Q) : Q :=
  match Qcompare x 0 with
  | Eq => 0
  | Gt => RNpos x
  | Lt => - RNpos (- x)
  end.

(** Unit roundoff of binary64. *)
Definition eps : Q := 2 ^ (-53).

(** Value of a binary64 number (zero for the non-finite ones). *)
Definition B2Q (f : spec_float) : Q :=
  match f with
  | S754_finite s m e =>
      (if s then -1 else 1) * (inject_Z (Zpos m) * 2 ^ e)
  | _ => 0
  end.

(** A positive normal number with its exponent in a given range. *)
Definition normal (f : spec_float) (lo hi : Z) : Prop :=
  exists m e, f = S754_finite false m e /\
              Zpos (digits2_pos m) = 53%Z /\ (lo <= e <= hi)%Z.

(** The value [x], scaled to the exponent [e], sits at the integer [m]
    plus a fraction described by the round bit [r] and the sticky bit
    [s]: none, below one half, one half, above one half. *)
Definition located (x : Q) (m : Z) (r s : bool) (e : Z) : Prop :=
  match r, s with
  | false, false => x * 2 ^ (- e) - inject_Z m == 0
  | false, true =>
      0 < x * 2 ^ (- e) - inject_Z m /\ x * 2 ^ (- e) - inject_Z m < 1 # 2
  | true, false => x * 2 ^ (- e) - inject_Z m == 1 # 2
  | true, true =>
      (1 # 2) < x * 2 ^ (- e) - inject_Z m /\ x * 2 ^ (- e) - inject_Z m < 1
  end.

Definition Loc (x : Q) (mrs : shr_record) (e : Z) : Prop :=
  located x (shr_m mrs) (shr_r mrs) (shr_s mrs) e /\ (0 <= shr_m mrs)%Z.

End Rounding.

(* ================================================================== *)
(** ** Pillow *)

Module PIL.
Local Open Scope string_scope.
Local Open Scope Z_scope.

(** [Image.Resampling] *)
Inductive resampling := NEAREST | BOX | BILINEAR | HAMMING | BICUBIC | LANCZOS.

(** [Image.Transpose] *)
Inductive transpose :=
| FLIP_LEFT_RIGHT | FLIP_TOP_BOTTOM | ROTATE_90 | ROTATE_180 | ROTATE_270
| TRANSPOSE | TRANSVERSE.

(** Pixel data, described by the operations that produced it. *)
Inductive raster :=
| Decoded (source : string)
| Transposed (method : transpose) (r : raster)
| Converted (to_mode : string) (r : raster)
| Resampled (size : Z * Z) (filter : resampling) (r : raster)
| Solid (mode : string) (size : Z * Z) (color : Z * Z * Z)
| Pasted (onto : raster) (src : raster) (mask : raster)
| Band (index : nat) (r : raster).

(** An [Image.Image]: the attributes read by the package, the EXIF
    orientation tag (0x0112) when present, and the pixel data. *)
Record image := {
  mode : string;
  width : Z;
  height : Z;
  orientation : option Z;
  info : list (string * string);
  pixels : raster
}.

Definition size (im : image) : Z * Z := (width im, height im).

(** The file-like object handed to [Image.open]: its bytes and its
    [size] attribute when it has one (a Django upload does). *)
Record file_obj := {
  content : string;
  size_attr : option Z
}.

(** Keyword arguments of [Image.save]. *)
Record save_kwargs := {
  kw_quality : option Z;
  kw_method : option Z;
  kw_optimize : option bool;
  kw_progressive : option bool
}.

Definition no_kwargs : save_kwargs :=
  {| kw_quality := None; kw_method := None;
     kw_optimize := None; kw_progressive := None |}.

(** The library calls made by the package, with their arguments. *)
Inductive pil_call :=
| CallOpen (f : file_obj)
| CallExifTranspose (im : image)
| CallConvert (im : image) (to_mode : string)
| CallResize (im : image) (new_size : Z * Z) (resample : resampling)
| CallNew (new_mode : string) (new_size : Z * Z) (color : Z * Z * Z)
| CallSplit (im : image)
| CallPaste (onto : image) (src : image) (mask : image)
| CallSave (im : image) (format : string) (kw : save_kwargs).

(** What the package does not control: the decoder behind [Image.open]
    (a codec diagnostic, or the decoded image), the exception a later call
    may raise, and the bytes the encoder writes. *)
Record backend := {
  decode : file_obj -> string + image;
  fault : pil_call -> option string;
  encode : image -> string -> save_kwargs -> string
}.

(** Computations that append to the call log and either raise (the text of
    the exception, [str(e)]) or return. *)
Definition Lib (A : Type) : Type :=
  list pil_call -> list pil_call * (string + A).

Definition ret {A} (a : A) : Lib A := fun log => (log, inr a).

Definition raise {A} (e : string) : Lib A := fun log => (log, inl e).

Definition bind {A B} (m : Lib A) (k : A -> Lib B) : Lib B :=
  fun log =>
    match m log with
    | (log', inl e) => (log', inl e)
    | (log', inr a) => k a log'
    end.

Definition lift {A} (r : string + A) : Lib A := fun log => (log, r).

Declare Scope lib_scope.
Delimit Scope lib_scope with lib.
Notation "x <- m ;; k" := (bind m (fun x => k))
  (at level 61, m at next level, right associativity) : lib_scope.

Section Library.
Variable B : backend.

(** A call is logged, then raises or returns its result. *)
Definition invoke {A} (c : pil_call) (r : A) : Lib A :=
  fun log =>
    (log ++ [c],
     match fault B c with
     | Some e => inl e
     | None => inr r
     end)%list.

(** [Image.open(fp)] *)
Definition Image_open (f : file_obj) : Lib image :=
  fun log => ((log ++ [CallOpen f])%list, decode B f).

(** The transposition [ImageOps.exif_transpose] selects for an orientation
    tag. *)
Definition transpose_method (o : Z) : option transpose :=
  match o with
  | 2 => Some FLIP_LEFT_RIGHT
  | 3 => Some ROTATE_180
  | 4 => Some FLIP_TOP_BOTTOM
  | 5 => Some TRANSPOSE
  | 6 => Some ROTATE_270
  | 7 => Some TRANSVERSE
  | 8 => Some ROTATE_90
  | _ => None
  end.

Definition swaps_axes (m : transpose) : bool :=
  match m with
  | ROTATE_90 | ROTATE_270 | TRANSPOSE | TRANSVERSE => true
  | _ => false
  end.

(** [Image.transpose(method)]: same mode, axes exchanged by the four
    quarter-turn methods. *)
Definition transposed (m : transpose) (im : image) : image :=
  {| mode := mode im;
     width := if swaps_axes m then height im else width im;
     height := if swaps_axes m then width im else height im;
     orientation := None;
     info := info im;
     pixels := Transposed m (pixels im) |}.

(** The image [ImageOps.exif_transpose] returns: transposed according to
    the tag, which is then removed, or a copy when nothing is to be done. *)
Definition oriented (im : image) : image :=
  match orientation im with
  | Some o =>
      match transpose_method o with
      | Some m => transposed m im
      | None => im
      end
  | None => im
  end.

Definition exif_transpose (im : image) : Lib image :=
  invoke (CallExifTranspose im) (oriented im).

(** [im.convert(mode)] *)
Definition convert (im : image) (to_mode : string) : Lib image :=
  invoke (CallConvert im to_mode)
    {| mode := to_mode; width := width im; height := height im;
       orientation := orientation im; info := info im;
       pixels := Converted to_mode (pixels im) |}.

(** [im.resize(size, resample)] *)
Definition resize (im : image) (new_size : Z * Z) (resample : resampling)
  : Lib image :=
  invoke (CallResize im new_size resample)
    {| mode := mode im; width := fst new_size; height := snd new_size;
       orientation := orientation im; info := info im;
       pixels := Resampled new_size resample (pixels im) |}.

(** [Image.new(mode, size, color)] *)
Definition Image_new (new_mode : string) (new_size : Z * Z)
  (color : Z * Z * Z) : Lib image :=
  invoke (CallNew new_mode new_size color)
    {| mode := new_mode; width := fst new_size; height := snd new_size;
       orientation := None; info := [];
       pixels := Solid new_mode new_size color |}.

(** Number of bands of a mode. *)
Definition band_count (m : string) : nat :=
  if Py.str_in m ["RGBA"; "CMYK"; "RGBX"; "RGBa"] then 4
  else if Py.str_in m ["RGB"; "YCbCr"; "LAB"; "HSV"] then 3
  else if Py.str_in m ["LA"; "La"; "PA"] then 2
  else 1.

(** [im.split()]: one single-band image per band. *)
Definition bands (im : image) : list image :=
  map (fun i =>
         {| mode := "L"; width := width im; height := height im;
            orientation := None; info := [];
            pixels := Band i (pixels im) |})
      (seq 0 (band_count (mode im))).

Definition split (im : image) : Lib (list image) :=
  invoke (CallSplit im) (bands im).

(** [t[-1]] on a tuple. *)
Definition last_item {A} (t : list A) : Lib A :=
  match rev t with
  | x :: _ => ret x
  | [] => raise "tuple index out of range"
  end.

(** [onto.paste(src, mask=mask)]: updates [onto] in place; the updated
    image is returned here. *)
Definition paste (onto src mask : image) : Lib image :=
  invoke (CallPaste onto src mask)
    {| mode := mode onto; width := width onto; height := height onto;
       orientation := orientation onto; info := info onto;
       pixels := Pasted (pixels onto) (pixels src) (pixels mask) |}.

(** [im.info.pop(key, None)] *)
Definition info_pop (key : string) (im : image) : image :=
  {| mode := mode im; width := width im; height := height im;
     orientation := orientation im;
     info := filter (fun kv => negb (fst kv =? key)%string) (info im);
     pixels := pixels im |}.

(** [im.save(out, format=fmt, **kw)] followed by [out.getvalue()] *)
Definition save (im : image) (fmt : string) (kw : save_kwargs) : Lib string :=
  invoke (CallSave im fmt kw) (encode B im fmt kw).

End Library.

End PIL.

(* ================================================================== *)
(** ** cdn/image_utils.py *)

Module image_utils.
Import PIL.
Local Open Scope string_scope.
Local Open Scope Z_scope.
Local Open Scope lib_scope.

Definition SUPPORTED_OUTPUTS : list string := ["WEBP"; "JPEG"].

(** [_choose_output_format(src_mode, want)], lines 20-28. *)
Definition _choose_output_format (src_mode want : string) : string * string :=
  let has_alpha := Py.str_in src_mode ["RGBA"; "LA"; "P"] in
  if (Py.upper want =? "JPEG")%string && has_alpha then ("WEBP", ".webp")
  else if negb (Py.str_in (Py.upper want) SUPPORTED_OUTPUTS)
  then ("WEBP", ".webp")
  else if (Py.upper want =? "JPEG")%string then ("JPEG", ".jpg")
  else ("WEBP", ".webp").

(** The two exceptions [compress_image] raises. In the vocabulary of the
    specification, [ValueError] is the validation error, and [IOError] is
    the decode error (raised around [Image.open]) or the encode error
    (raised around the rest of the pipeline). *)
Inductive exn :=
| ValueError (msg : string)
| IOError (msg : string).

Section Pipeline.
Variable B : backend.

(** "Convert paletted images to RGBA", lines 59-61. *)
Definition convert_palette (img : image) : Lib image :=
  if (mode img =? "P")%string then convert B img "RGBA" else ret img.

(** [max_width / float(img.width)], line 65. *)
Definition resize_ratio (max_width width : Z) : string + PyFloat.float :=
  match PyFloat.of_int width with
  | inl e => inl e
  | inr w =>
      match PyFloat.of_int max_width with
      | inl e => inl e
      | inr mw => PyFloat.truediv mw w
      end
  end.

(** [int(img.height * ratio)], line 66. *)
Definition scaled_height (height : Z) (ratio : PyFloat.float) : string + Z :=
  match PyFloat.of_int height with
  | inl e => inl e
  | inr h => PyFloat.to_int (PyFloat.mul h ratio)
  end.

(** [new_size = (max_width, int(img.height * ratio))], lines 65-66. *)
Definition new_size (max_width : Z) (img : image) : Lib (Z * Z) :=
  ratio <- lift (resize_ratio max_width (width img)) ;;
  h <- lift (scaled_height (height img) ratio) ;;
  ret (max_width, h).

(** "Resize if needed", lines 63-68. *)
Definition resize_if_needed (max_width : option Z) (img : image) : Lib image :=
  match max_width with
  | Some mw =>
      if Py.truthy_int max_width && (width img >? mw) then
        sz <- new_size mw img ;;
        resize B img sz LANCZOS
      else ret img
  | None => ret img
  end.

(** "Handle alpha channel for JPEG", lines 73-80. *)
Definition flatten_for_jpeg (fmt : string) (img : image) : Lib image :=
  if (fmt =? "JPEG")%string && Py.str_in (mode img) ["RGBA"; "LA"] then
    bg <- Image_new B "RGB" (size img) (255, 255, 255) ;;
    channels <- split B img ;;
    mask <- last_item channels ;;
    paste B bg img mask
  else if (fmt =? "JPEG")%string && negb (mode img =? "RGB")%string then
    convert B img "RGB"
  else ret img.

(** "Prepare save options", lines 83-89. *)
Definition save_options (fmt : string) (quality : Z) : save_kwargs :=
  if (fmt =? "WEBP")%string then
    {| kw_quality := Some quality; kw_method := Some 6;
       kw_optimize := Some true; kw_progressive := None |}
  else if (fmt =? "JPEG")%string then
    {| kw_quality := Some quality; kw_method := None;
       kw_optimize := Some true; kw_progressive := Some true |}
  else no_kwargs.

(** "Strip metadata for privacy and smaller file size", lines 92-94. *)
Definition strip (strip_metadata : bool) (img : image) : image :=
  if strip_metadata then info_pop "icc_profile" (info_pop "exif" img)
  else img.

(** Line 109. *)
Definition content_type_of (fmt : string) : string :=
  if (fmt =? "WEBP")%string then "image/webp" else "image/jpeg".

(** The body of the second [try] block, lines 57-110. *)
Definition transcode (img0 : image) (max_width : option Z) (quality : Z)
  (output_format : string) (strip_metadata : bool)
  : Lib (string * string * string) :=
  img <- exif_transpose B img0 ;;
  img <- convert_palette img ;;
  img <- resize_if_needed max_width img ;;
  let '(fmt, ext) := _choose_output_format (mode img) output_format in
  img <- flatten_for_jpeg fmt img ;;
  let kw := save_options fmt quality in
  let img := strip strip_metadata img in
  data <- save B img fmt kw ;;
  ret (data, content_type_of fmt, ext).

(** [compress_image(file_obj, *, max_width, quality, output_format,
    strip_metadata)], lines 30-114. The result is the log of the library
    calls made, and the exception raised or the tuple
    [(data, content_type, ext)] returned. *)
Definition compress_image (file : file_obj) (max_width : option Z)
  (quality : Z) (output_format : string) (strip_metadata : bool)
  : list pil_call * (exn + string * string * string) :=
  if (quality <? 1) || (quality >? 100) then
    ([], inl (ValueError ("Quality must be between 1 and 100, got "
                            ++ Py.str_of_int quality)))
  else if match max_width with
          | Some mw => mw <? 1
          | None => false
          end then
    ([], inl (ValueError ("max_width must be positive, got "
                            ++ match max_width with
                               | Some mw => Py.str_of_int mw
                               | None => "None"
                               end)))
  else
    match Image_open B file [] with
    | (log, inl e) => (log, inl (IOError ("Cannot open image file: " ++ e)))
    | (log, inr img) =>
        match transcode img max_width quality output_format
                strip_metadata log with
        | (log', inl e) =>
            (log', inl (IOError ("Image compression failed: " ++ e)))
        | (log', inr r) => (log', inr r)
        end
    end.

End Pipeline.

(** Defaults of the keyword arguments, line 33-36. *)
Definition default_max_width : option Z := None.
Definition default_quality : Z := 75.
Definition default_output_format : string := "WEBP".
Definition default_strip_metadata : bool := true.

End image_utils.

(* ================================================================== *)
(** ** cdn/bunny.py *)

Module bunny.
Local Open Scope string_scope.
Local Open Scope Z_scope.

(** The Django settings [purge_cache] reads. *)
Record settings := {
  BUNNY_PULL_ZONE_ID : option string;
  BUNNY_API_KEY : option string
}.

(** What [requests.post] does: it returns a response with a status code,
    or raises a [RequestException], or raises some other [Exception]. *)
Inductive post_result :=
| Response (status_code : Z)
| RaisesRequestException (msg : string)
| RaisesException (msg : string).

(** The dict [{"success": [...], "failed": [...]}]. *)
Record purge_result := {
  success : list string;
  failed : list string
}.

(** [resp.raise_for_status()]: an [HTTPError], which is a
    [RequestException], for the 4xx and 5xx codes. *)
Definition raise_for_status (status_code : Z) : option string :=
  if (400 <=? status_code) && (status_code <? 600)
  then Some ("HTTPError " ++ Py.str_of_int status_code)
  else None.

(** [f"https://api.bunny.net/pullzone/{settings.BUNNY_PULL_ZONE_ID}/purgeCache"],
    line 126, and the [AccessKey] header, line 127. *)
Definition api_url (s : settings) : string :=
  "https://api.bunny.net/pullzone/"
  ++ match BUNNY_PULL_ZONE_ID s with
     | Some z => z
     | None => "None"
     end
  ++ "/purgeCache".

Definition access_key (s : settings) : string :=
  match BUNNY_API_KEY s with
  | Some k => k
  | None => "None"
  end.

(** Both settings are set, lines 118 and 122. *)
Definition configured (s : settings) : bool :=
  Py.truthy_opt_str (BUNNY_PULL_ZONE_ID s)
  && Py.truthy_opt_str (BUNNY_API_KEY s).

Section Network.
Variable net : Type.

(** [requests.post(api, headers={"AccessKey": key}, json={"url": url},
    timeout=30)] in a given state of the network. *)
Variable requests_post : string -> string -> string -> net -> post_result * net.

(** The [try] statement of one iteration, lines 136-146: [true] when the
    URL is appended to [success], [false] when it is appended to
    [failed]. *)
Definition purge_one (api key url : string) (w : net) : bool * net :=
  match requests_post api key url w with
  | (Response code, w') =>
      match raise_for_status code with
      | None => (true, w')
      | Some _ => (false, w')
      end
  | (RaisesRequestException _, w') => (false, w')
  | (RaisesException _, w') => (false, w')
  end.

(** The [for] loop, lines 132-146, with its two accumulators. *)
Fixpoint purge_loop (api key : string) (urls : list string)
  (success failed : list string) (w : net) : purge_result * net :=
  match urls with
  | [] => ({| success := success; failed := failed |}, w)
  | url :: rest =>
      if negb (Py.truthy_str url) then purge_loop api key rest success failed w
      else
        match purge_one api key url w with
        | (true, w') => purge_loop api key rest (success ++ [url]) failed w'
        | (false, w') => purge_loop api key rest success (failed ++ [url]) w'
        end
  end.

(** [purge_cache(urls)], lines 112-148. *)
Definition purge_cache (s : settings) (urls : list string) (w : net)
  : purge_result * net :=
  match urls with
  | [] => ({| success := []; failed := [] |}, w)
  | _ :: _ =>
      if negb (Py.truthy_opt_str (BUNNY_PULL_ZONE_ID s)) then
        ({| success := []; failed := urls |}, w)
      else if negb (Py.truthy_opt_str (BUNNY_API_KEY s)) then
        ({| success := []; failed := urls |}, w)
      else
        let api := api_url s in
        let key := access_key s in
        purge_loop api key urls [] [] w
  end.

(** The requests the loop makes, one per non-empty URL and in order, each
    with its own verdict: the per-URL report [purge_cache] is compared
    with. *)
Fixpoint purge_attempts (api key : string) (urls : list string) (w : net)
  : list (string * bool) :=
  match urls with
  | [] => []
  | url :: rest =>
      if negb (Py.truthy_str url) then purge_attempts api key rest w
      else
        let '(ok, w') := purge_one api key url w in
        (url, ok) :: purge_attempts api key rest w'
  end.

End Network.

End bunny.

(* ================================================================== *)
(** ** Sample inputs

    A small codec that recognises a few byte streams, never raises after
    decoding and writes a one-line description of what it was asked to
    encode. It gives the end-to-end scenarios something to run on. *)

Module Samples.
Import PIL.
Local Open Scope string_scope.
Local Open Scope Z_scope.

Definition picture (m : string) (w h : Z) (o : option Z) (src : string) : image :=
  {| mode := m; width := w; height := h; orientation := o;
     info := [("exif", "Exif"); ("dpi", "72")]; pixels := Decoded src |}.

Definition upload (bytes : string) : file_obj :=
  {| content := bytes; size_attr := Some (Z.of_nat (String.length bytes)) |}.

Definition sample_decode (f : file_obj) : string + image :=
  if (content f =? "PNG rgba 2000x1000")%string
  then inr (picture "RGBA" 2000 1000 None (content f))
  else if (content f =? "JPEG rgb 400x300")%string
  then inr (picture "RGB" 400 300 None (content f))
  else if (content f =? "JPEG rgb 8x7")%string
  then inr (picture "RGB" 8 7 None (content f))
  else if (content f =? "JPEG rgb 300x400 rotated")%string
  then inr (picture "RGB" 300 400 (Some 6) (content f))
  else if (content f =? "GIF p 64x64")%string
  then inr (picture "P" 64 64 None (content f))
  else if (content f =? "PNG l 640x480")%string
  then inr (picture "L" 640 480 None (content f))
  else inl "cannot identify image file".

Definition sample_encode (im : image) (fmt : string) (kw : save_kwargs)
  : string :=
  fmt ++ " " ++ Py.str_of_int (width im) ++ "x" ++ Py.str_of_int (height im).

Definition sample_backend : backend :=
  {| decode := sample_decode; fault := fun _ => None; encode := sample_encode |}.

(** The same codec with two of Pillow's own failures: pixel data that
    stops short is detected when the image is first loaded, and an empty
    target size is refused by [resize]. *)
Definition strict_decode (f : file_obj) : string + image :=
  if (content f =? "JPEG rgb 400x300 truncated")%string
  then inr (picture "RGB" 400 300 None (content f))
  else sample_decode f.

Definition strict_fault (c : pil_call) : option string :=
  match c with
  | CallExifTranspose im =>
      match pixels im with
      | Decoded src =>
          if (src =? "JPEG rgb 400x300 truncated")%string
          then Some "image file is truncated (0 bytes not processed)"
          else None
      | _ => None
      end
  | CallResize _ (w, h) _ =>
      if (w <? 1) || (h <? 1) then Some "height and width must be > 0"
      else None
  | _ => None
  end.

Definition strict_backend : backend :=
  {| decode := strict_decode; fault := strict_fault; encode := sample_encode |}.

(** A network on which the purge of every URL containing no space
    succeeds, one request at a time; the state counts the requests. *)
Fixpoint has_space (s : string) : bool :=
  match s with
  | EmptyString => false
  | String c rest => (Ascii.eqb c " "%char) || has_space rest
  end.

Definition sample_post (api key url : string) (n : nat)
  : bunny.post_result * nat :=
  (if has_space url then bunny.Response 400 else bunny.Response 200, S n).

Definition sample_settings : bunny.settings :=
  {| bunny.BUNNY_PULL_ZONE_ID := Some "12345";
     bunny.BUNNY_API_KEY := Some "secret" |}.

End Samples.

(* ================================================================== *)
(** ** Vocabulary of the properties *)

Module Spec.
Import PIL.
Local Open Scope Z_scope.

(** The height [new_size] computes for an image of height [h] and width
    [w] limited to [mw]: [int(h * (mw / float(w)))]; 0 stands for the
    cases where the computation raises. *)
Definition resized_height (h mw w : Z) : Z :=
  match image_utils.resize_ratio mw w with
  | inr ratio =>
      match image_utils.scaled_height h ratio with
      | inr z => z
      | inl _ => 0
      end
  | inl _ => 0
  end.


(** Dimensions that binary64 represents exactly. *)
Definition fits_float (im : image) : Prop :=
  0 <= width im < 2 ^ 53 /\ 0 <= height im < 2 ^ 53.

(** Options that pass the validation of [compress_image]. *)
Definition valid_options (max_width : option Z) (quality : Z) : Prop :=
  1 <= quality <= 100 /\
  match max_width with
  | Some mw => 1 <= mw
  | None => True
  end.

(** A library that raises in no call made after decoding. *)
Definition no_fault (B : backend) : Prop := forall c, fault B c = None.

(** The calls of the white-background compositing branch. *)
Definition composite_call (c : pil_call) : bool :=
  match c with
  | CallNew _ _ _ | CallSplit _ | CallPaste _ _ _ => true
  | _ => false
  end.

(** Partial correctness of a library computation: every call it logs
    satisfies [Q], and a returned value satisfies [P]. *)
Definition triple {A} (Q : pil_call -> Prop) (m : Lib A) (P : A -> Prop)
  : Prop :=
  forall log, Forall Q log ->
    Forall Q (fst (m log)) /\ (forall a, snd (m log) = inr a -> P a).

(** The computation returns, whatever was logged before, a value that
    satisfies [P]. *)
Definition returns {A} (m : Lib A) (P : A -> Prop) : Prop :=
  forall log, exists log' a, m log = (log', inr a) /\ P a.

(** What [compress_image] hands to the encoder for a decoded image, read
    off the pipeline stage by stage: [src] is the image after
    [exif_transpose]. *)
Definition depalettized (m : string) : string :=
  if (m =? "P")%string then "RGBA"%string else m.

Definition selected (src : image) (want : string) : string * string :=
  image_utils._choose_output_format (depalettized (mode src)) want.

Definition output_mode (src : image) (want : string) : string :=
  if (fst (selected src want) =? "JPEG")%string then "RGB"%string
  else depalettized (mode src).

Definition resizes (max_width : option Z) (src : image) : bool :=
  match max_width with
  | Some mw => Py.truthy_int max_width && (width src >? mw)
  | None => false
  end.

Definition output_size (max_width : option Z) (src : image) : Z * Z :=
  match max_width with
  | Some mw =>
      if Py.truthy_int max_width && (width src >? mw)
      then (mw, resized_height (height src) mw (width src))
      else size src
  | None => size src
  end.

(** The calls [compress_image] may make on an image whose oriented form
    is [src]: no compositing call, and [save] only on a buffer of the
    mode and size above, in the selected format, with the options of that
    format. *)
Definition expected_call (src : image) (max_width : option Z) (quality : Z)
  (want : string) (c : pil_call) : Prop :=
  match c with
  | CallSave im fmt kw =>
      fmt = fst (selected src want) /\
      kw = image_utils.save_options fmt quality /\
      mode im = output_mode src want /\
      size im = output_size max_width src
  | _ => composite_call c = false
  end.

(** The pixel data the specification asks to hand to a JPEG encoder: an
    alpha-bearing buffer composited over opaque white with its last band
    as the mask, any other non-RGB buffer converted to RGB. *)
Definition flattened_pixels (img : image) : raster :=
  if Py.str_in (mode img) ["RGBA"; "LA"]%string then
    Pasted (Solid "RGB" (size img) (255, 255, 255)) (pixels img)
      (Band (band_count (mode img) - 1) (pixels img))
  else if (mode img =? "RGB")%string then pixels img
  else Converted "RGB" (pixels img).

(** The bytes are not a readable image: [Image.open] raises, or the
    header is accepted and the first access to the pixel data, made by
    [exif_transpose], raises. *)
Definition undecodable (B : backend) (file : file_obj) (diagnostic : string)
  : Prop :=
  decode B file = inl diagnostic \/
  exists img, decode B file = inr img /\
              fault B (CallExifTranspose img) = Some diagnostic.

End Spec.

(* ================================================================== *)
(** ** Python strings on paths and URLs *)

Module PyStr.
Local Open Scope string_scope.

(** [s.lstrip(c)] for a one-character string [c]. *)
Fixpoint lstrip (c : ascii) (s : string) : string :=
  match s with
  | EmptyString => EmptyString
  | String a rest => if Ascii.eqb a c then lstrip c rest else s
  end.

(** [s.rstrip(c)] *)
Fixpoint rstrip (c : ascii) (s : string) : string :=
  match s with
  | EmptyString => EmptyString
  | String a rest =>
      match rstrip c rest with
      | EmptyString =>
          if Ascii.eqb a c then EmptyString else String a EmptyString
      | kept => String a kept
      end
  end.

(** [s.strip(c)] *)
Definition strip (c : ascii) (s : string) : string := lstrip c (rstrip c s).

(** [c in s] *)
Fixpoint contains (c : ascii) (s : string) : bool :=
  match s with
  | EmptyString => false
  | String a rest => Ascii.eqb a c || contains c rest
  end.

(** [a or b] on strings. *)
Definition or_else (a b : string) : string :=
  if Py.truthy_str a then a else b.

(** An attribute read with [getattr(obj, name, default)]: the object has
    no such attribute, or the attribute is [None], or it holds a value. *)
Inductive attr (A : Type) : Type :=
| Absent
| IsNone
| Value (a : A).

Arguments Absent {A}.
Arguments IsNone {A}.
Arguments Value {A} a.

End PyStr.

(* ================================================================== *)
(** ** cdn/bunny.py: the Storage API

    [upload], [upload_bytes] and [delete]. [requests.put] and
    [requests.delete] are effects on the network, threaded as explicit
    state like [requests.post] above; [urllib.parse.urljoin],
    [os.path.splitext] and [mimetypes.guess_extension] are functions of
    the standard library, left uninterpreted. *)

Module bunny_storage.
Import PyStr.
Local Open Scope string_scope.
Local Open Scope Z_scope.

(** The Django settings the Storage API calls read.
    [BUNNY_OPTIMIZER_DEFAULTS] is read with [getattr] and may be unset. *)
Record settings := {
  BUNNY_STORAGE_ENDPOINT : string;
  BUNNY_STORAGE_ZONE : string;
  BUNNY_STORAGE_PASSWORD : string;
  BUNNY_CDN_BASE_URL : string;
  BUNNY_OPTIMIZER_DEFAULTS : option string
}.

(** Lines 12-15. *)
Definition STORAGE_BASE (s : settings) : string :=
  rstrip "/" (BUNNY_STORAGE_ENDPOINT s) ++ "/"
  ++ strip "/" (BUNNY_STORAGE_ZONE s) ++ "/".

(** An exception leaving the module, with [str(e)]. The classes are the
    ones the [except] clauses of the package tell apart:
    [requests.exceptions.RequestException], which derives from [IOError];
    any other [IOError]; any other [Exception]. *)
Inductive exn :=
| RequestException (msg : string)
| OtherIOError (msg : string)
| OtherException (msg : string).

(** What [requests.put] does: it returns a response with a status code, or
    raises. *)
Inductive put_result :=
| PutResponse (status_code : Z)
| PutRaises (e : exn).

(** The dict [{"path": path, "url": cdn_url}]. *)
Record uploaded := {
  path : string;
  url : string
}.

(** The file object handed to [upload]: its [name] and [content_type]
    attributes and what [read()] returns. *)
Record uploaded_file := {
  name : attr string;
  content_type : attr string;
  read : string
}.

Section Network.
Variable net : Type.

(** [requests.put(url, data=data, headers={"AccessKey": key,
    "Content-Type": content_type}, timeout=60)] *)
Variable requests_put :
  string -> string -> string -> option string -> net -> put_result * net.

(** [requests.delete(url, headers={"AccessKey": key}, timeout=30)] *)
Variable requests_delete : string -> string -> net -> bunny.post_result * net.

(** [urljoin(base, url)] *)
Variable urljoin : string -> string -> string.

(** [os.path.splitext(name)] and [mimetypes.guess_extension(ctype)] *)
Variable splitext : string -> string * string.
Variable guess_extension : string -> option string.

(** [_ext_from(file_obj)], lines 17-23. [os.path.splitext] raises a
    [TypeError] on a [name] that is [None]. *)
Definition _ext_from (file_obj : uploaded_file) : exn + string :=
  match name file_obj with
  | IsNone =>
      inl (OtherException
             "expected str, bytes or os.PathLike object, not NoneType")
  | attr_name =>
      let name := match attr_name with Value n => n | _ => "" end in
      let ctype := match content_type file_obj with
                   | Value c => Some c
                   | _ => None
                   end in
      let ext := snd (splitext name) in
      let ext :=
        match ctype with
        | Some c =>
            if negb (Py.truthy_str ext) && Py.truthy_str c then
              match guess_extension c with
              | Some e => e
              | None => ""
              end
            else ext
        | None => ext
        end in
      inr (or_else ext ".bin")
  end.

(** [_path_for(folder, base_name, file_obj)], lines 25-28. *)
Definition _path_for (folder base_name : string) (file_obj : uploaded_file)
  : exn + string :=
  let folder := strip "/" folder in
  match _ext_from file_obj with
  | inl e => inl e
  | inr ext => inr (folder ++ "/" ++ base_name ++ ext)
  end.

(** The [try] statement of [upload] and [upload_bytes], lines 38-47 and
    74-81: the request, [raise_for_status], and the handler that logs and
    raises the [RequestException] again. *)
Definition put (s : settings) (put_url data : string)
  (content_type : option string) (w : net) : (exn + unit) * net :=
  match requests_put put_url data (BUNNY_STORAGE_PASSWORD s) content_type w with
  | (PutResponse code, w') =>
      match bunny.raise_for_status code with
      | Some e => (inl (RequestException e), w')
      | None => (inr tt, w')
      end
  | (PutRaises e, w') => (inl e, w')
  end.

(** "Build CDN URL, append optimizer defaults if configured", lines 50-54
    and 83-87. *)
Definition cdn_url_for (s : settings) (path : string) : string :=
  let cdn_url := urljoin (rstrip "/" (BUNNY_CDN_BASE_URL s) ++ "/") path in
  let qs := match BUNNY_OPTIMIZER_DEFAULTS s with
            | Some q => q
            | None => ""
            end in
  if Py.truthy_str qs then
    let connector := if contains "?" cdn_url then "&" else "?" in
    cdn_url ++ connector ++ qs
  else cdn_url.

(** [upload(file_obj, *, folder, base_name)], lines 30-56. *)
Definition upload (s : settings) (file_obj : uploaded_file)
  (folder base_name : string) (w : net) : (exn + uploaded) * net :=
  match _path_for folder base_name file_obj with
  | inl e => (inl e, w)
  | inr path =>
      let put_url := STORAGE_BASE s ++ path in
      let header := match content_type file_obj with
                    | Absent => Some "application/octet-stream"
                    | IsNone => None
                    | Value c => Some c
                    end in
      let content := read file_obj in
      match put s put_url content header w with
      | (inl e, w') => (inl e, w')
      | (inr _, w') =>
          (inr {| path := path; url := cdn_url_for s path |}, w')
      end
  end.

(** [upload_bytes(data, *, folder, base_name, content_type, extension)],
    lines 58-89. *)
Definition upload_bytes (s : settings) (data folder base_name content_type
  extension : string) (w : net) : (exn + uploaded) * net :=
  let folder := strip "/" folder in
  let path := folder ++ "/" ++ base_name ++ extension in
  let put_url := STORAGE_BASE s ++ path in
  match put s put_url data (Some content_type) w with
  | (inl e, w') => (inl e, w')
  | (inr _, w') => (inr {| path := path; url := cdn_url_for s path |}, w')
  end.

(** [delete(path)], lines 91-110. *)
Definition delete (s : settings) (path : string) (w : net) : bool * net :=
  if negb (Py.truthy_str path) then (false, w)
  else
    let del_url := STORAGE_BASE s ++ lstrip "/" path in
    match requests_delete del_url (BUNNY_STORAGE_PASSWORD s) w with
    | (bunny.Response code, w') =>
        match bunny.raise_for_status code with
        | None => (true, w')
        | Some _ => (false, w')
        end
    | (bunny.RaisesRequestException _, w') => (false, w')
    | (bunny.RaisesException _, w') => (false, w')
    end.

End Network.

End bunny_storage.

(* ================================================================== *)
(** ** cdn/helpers.py

    The helpers run the transcoding pipeline and the network calls in
    turn: their results carry the log of the Pillow calls where there is
    one, and the state of the world after the requests. A model instance
    is seen through [getattr] and [setattr] on the two fields that hold
    the public id and the URL; [instance.save] is an effect on the world. *)

Module helpers.
Import PIL PyStr.
Local Open Scope string_scope.
Local Open Scope Z_scope.

(** The settings the helpers and the functions they call read. The
    storage settings are defined, [STORAGE_BASE] being computed from them
    when [cdn.bunny] is imported. The two settings of the purge API are
    read by [bunny.purge_cache] as plain attributes, outside any [try]:
    each may be undefined, and reading it then raises [AttributeError].
    [BUNNY_PURGE_ON_OVERWRITE] is read with [getattr] and may be unset. *)
Record settings := {
  storage : bunny_storage.settings;
  BUNNY_PULL_ZONE_ID : attr string;
  BUNNY_API_KEY : attr string;
  BUNNY_PURGE_ON_OVERWRITE : option bool
}.

(** The value of an attribute that is defined. *)
Definition value {A} (a : attr A) : option A :=
  match a with
  | Value v => Some v
  | _ => None
  end.

Definition undefined {A} (a : attr A) : bool :=
  match a with
  | Absent => true
  | _ => false
  end.

(** The settings of the purge API, as [bunny.purge_cache] finds them once
    it has read them. *)
Definition cache (s : settings) : bunny.settings :=
  {| bunny.BUNNY_PULL_ZONE_ID := value (BUNNY_PULL_ZONE_ID s);
     bunny.BUNNY_API_KEY := value (BUNNY_API_KEY s) |}.

(** [serializers.ValidationError(detail)], and an exception of
    [instance.save] that the helpers let through. *)
Inductive exn :=
| ValidationError (detail : string)
| SaveError (msg : string).

(** The dict [{"public_id": ..., "secure_url": ..., "url": ...}]. *)
Record image_ref := {
  public_id : string;
  secure_url : string;
  url : string
}.

(** What the [try] block of [upload_image_to_bunny] may raise: an
    exception of [compress_image] or one of [bunny.upload_bytes]. *)
Inductive raised :=
| FromCompress (e : image_utils.exn)
| FromUpload (e : bunny_storage.exn).

(** [isinstance(e, IOError)] *)
Definition is_IOError (e : raised) : bool :=
  match e with
  | FromCompress (image_utils.IOError _) => true
  | FromCompress (image_utils.ValueError _) => false
  | FromUpload (bunny_storage.RequestException _) => true
  | FromUpload (bunny_storage.OtherIOError _) => true
  | FromUpload (bunny_storage.OtherException _) => false
  end.

(** [str(e)] *)
Definition str (e : raised) : string :=
  match e with
  | FromCompress (image_utils.IOError msg) => msg
  | FromCompress (image_utils.ValueError msg) => msg
  | FromUpload (bunny_storage.RequestException msg) => msg
  | FromUpload (bunny_storage.OtherIOError msg) => msg
  | FromUpload (bunny_storage.OtherException msg) => msg
  end.

(** The two [except] clauses of [upload_image_to_bunny], lines 46-51. *)
Definition handler (e : raised) : exn :=
  if is_IOError e then ValidationError ("Failed to process image: " ++ str e)
  else ValidationError ("Failed to upload image: " ++ str e).

(** A model instance: [getattr(instance, name, None)] and
    [setattr(instance, name, value)]. *)
Definition instance : Type := string -> option string.

Definition getattr (inst : instance) (name : string) : option string :=
  inst name.

Definition setattr (inst : instance) (name : string) (value : option string)
  : instance :=
  fun n => if (n =? name)%string then value else inst n.

(** Defaults of the keyword arguments. *)
Definition default_max_width : option Z := Some 800.
Definition default_quality : Z := 75.
Definition default_output_format : string := "WEBP".
Definition default_purge_cache : bool := true.

Section World.
Variable B : backend.
Variable world : Type.
Variable requests_put :
  string -> string -> string -> option string -> world
  -> bunny_storage.put_result * world.
Variable requests_delete :
  string -> string -> world -> bunny.post_result * world.
Variable requests_post :
  string -> string -> string -> world -> bunny.post_result * world.
Variable urljoin : string -> string -> string.

(** [instance.save(update_fields=fields)]: returns, or raises. *)
Variable instance_save : instance -> list string -> world -> option string * world.

(** [upload_image_to_bunny(file, *, folder, public_id, max_width, quality,
    output_format)], lines 12-51. *)
Definition upload_image_to_bunny (s : settings) (file : file_obj)
  (folder public_id : string) (max_width : option Z) (quality : Z)
  (output_format : string) (w : world)
  : list pil_call * (exn + image_ref) * world :=
  match image_utils.compress_image B file max_width quality output_format
          image_utils.default_strip_metadata with
  | (log, inl e) => (log, inl (handler (FromCompress e)), w)
  | (log, inr (data, content_type, ext)) =>
      match bunny_storage.upload_bytes world requests_put urljoin (storage s)
              data folder public_id content_type ext w with
      | (inl e, w') => (log, inl (handler (FromUpload e)), w')
      | (inr res, w') =>
          (log,
           inr {| public_id := bunny_storage.path res;
                  secure_url := bunny_storage.url res;
                  url := bunny_storage.url res |},
           w')
      end
  end.

(** [bunny.purge_cache(urls)], lines 112-148 of [cdn/bunny.py], as the
    helpers call it. An empty list returns before any setting is read;
    otherwise [settings.BUNNY_PULL_ZONE_ID] is read first (line 118) and,
    when it is set, [settings.BUNNY_API_KEY] (line 122): reading an
    undefined one raises [AttributeError]. With the settings read, the
    call goes on as [bunny.purge_cache] above. *)
Definition purge_cache (s : settings) (urls : list string) (w : world)
  : (string + bunny.purge_result) * world :=
  match urls with
  | [] =>
      let '(result, w') :=
        bunny.purge_cache world requests_post (cache s) urls w in
      (inr result, w')
  | _ :: _ =>
      if undefined (BUNNY_PULL_ZONE_ID s) then
        (inl "'Settings' object has no attribute 'BUNNY_PULL_ZONE_ID'", w)
      else if Py.truthy_opt_str (value (BUNNY_PULL_ZONE_ID s))
              && undefined (BUNNY_API_KEY s) then
        (inl "'Settings' object has no attribute 'BUNNY_API_KEY'", w)
      else
        let '(result, w') :=
          bunny.purge_cache world requests_post (cache s) urls w in
        (inr result, w')
  end.

(** [delete_image_from_bunny(public_id, url, purge_cache)], lines 54-80.
    [bunny.delete] raises nothing; the exception the handler of lines
    78-80 catches is the [AttributeError] of [bunny.purge_cache]. *)
Definition delete_image_from_bunny (s : settings) (public_id url : option string)
  (purge_cache_wanted : bool) (w : world) : bool * world :=
  match public_id with
  | None => (false, w)
  | Some id =>
      if negb (Py.truthy_str id) then (false, w)
      else
        let '(success, w1) :=
          bunny_storage.delete world requests_delete (storage s) id w in
        match url with
        | Some u =>
            if success && purge_cache_wanted && Py.truthy_str u then
              let should_purge := match BUNNY_PURGE_ON_OVERWRITE s with
                                  | Some b => b
                                  | None => true
                                  end in
              if should_purge then
                match purge_cache s [u] w1 with
                | (inr result, w2) => (success, w2)
                | (inl e, w2) => (false, w2)
                end
              else (success, w1)
            else (success, w1)
        | None => (success, w1)
        end
  end.

(** [update_image_in_bunny(instance, image_file, *, public_id_field,
    url_field, folder, base_name, max_width, quality)], lines 83-116. The
    instance is updated in place; its final state is returned. *)
Definition update_image_in_bunny (s : settings) (inst : instance)
  (image_file : file_obj) (public_id_field url_field folder base_name : string)
  (max_width : option Z) (quality : Z) (w : world)
  : list pil_call * (exn + unit) * instance * world :=
  let old_public_id := getattr inst public_id_field in
  let old_url := getattr inst url_field in
  let w1 :=
    if Py.truthy_opt_str old_public_id
    then snd (delete_image_from_bunny s old_public_id old_url
                default_purge_cache w)
    else w in
  match upload_image_to_bunny s image_file folder base_name max_width quality
          default_output_format w1 with
  | (log, inl e, w2) => (log, inl e, inst, w2)
  | (log, inr res, w2) =>
      let inst := setattr inst public_id_field (Some (public_id res)) in
      let inst :=
        setattr inst url_field (Some (or_else (secure_url res) (url res))) in
      match instance_save inst [public_id_field; url_field] w2 with
      | (Some e, w3) => (log, inl (SaveError e), inst, w3)
      | (None, w3) => (log, inr tt, inst, w3)
      end
  end.

(** [clear_image_from_bunny(instance, *, public_id_field, url_field)],
    lines 119-136. *)
Definition clear_image_from_bunny (s : settings) (inst : instance)
  (public_id_field url_field : string) (w : world)
  : (exn + unit) * instance * world :=
  let public_id := getattr inst public_id_field in
  let url := getattr inst url_field in
  let w1 :=
    if Py.truthy_opt_str public_id
    then snd (delete_image_from_bunny s public_id url default_purge_cache w)
    else w in
  let inst := setattr inst public_id_field None in
  let inst := setattr inst url_field None in
  match instance_save inst [public_id_field; url_field] w1 with
  | (Some e, w2) => (inl (SaveError e), inst, w2)
  | (None, w2) => (inr tt, inst, w2)
  end.

(** The [for] loop of [bulk_delete_images_from_bunny], lines 144-151, with
    its two accumulators. *)
Fixpoint bulk_loop (s : settings)
  (media_pairs : list (option string * option string))
  (success failed : list string) (w : world) : bunny.purge_result * world :=
  match media_pairs with
  | [] => ({| bunny.success := success; bunny.failed := failed |}, w)
  | (public_id, url) :: rest =>
      match public_id with
      | None => bulk_loop s rest success failed w
      | Some id =>
          if negb (Py.truthy_str id) then bulk_loop s rest success failed w
          else
            match delete_image_from_bunny s public_id url default_purge_cache
                    w with
            | (true, w') => bulk_loop s rest (success ++ [id]) failed w'
            | (false, w') => bulk_loop s rest success (failed ++ [id]) w'
            end
      end
  end.

(** [bulk_delete_images_from_bunny(media_pairs)], lines 139-154. *)
Definition bulk_delete_images_from_bunny (s : settings)
  (media_pairs : list (option string * option string)) (w : world)
  : bunny.purge_result * world :=
  bulk_loop s media_pairs [] [] w.

End World.

End helpers.

(* ================================================================== *)
(** ** Requests on the wire

    A world that keeps, beside its own state, the list of the requests
    made and of the saves: what the properties about the order and the
    number of requests are stated on. *)

Module Wire.
Local Open Scope string_scope.

Inductive request :=
| PUT (url data access_key : string) (content_type : option string)
| DELETE (url access_key : string)
| POST (api access_key url : string)
| SAVE (values : list (string * option string)).

Section Recording.
Variable world : Type.

Definition recorded : Type := world * list request.

Definition recording_put
  (requests_put : string -> string -> string -> option string -> world
                  -> bunny_storage.put_result * world)
  (url data key : string) (content_type : option string) (st : recorded)
  : bunny_storage.put_result * recorded :=
  let '(r, w') := requests_put url data key content_type (fst st) in
  (r, (w', (snd st ++ [PUT url data key content_type])%list)).

Definition recording_delete
  (requests_delete : string -> string -> world -> bunny.post_result * world)
  (url key : string) (st : recorded) : bunny.post_result * recorded :=
  let '(r, w') := requests_delete url key (fst st) in
  (r, (w', (snd st ++ [DELETE url key])%list)).

Definition recording_post
  (requests_post : string -> string -> string -> world
                   -> bunny.post_result * world)
  (api key url : string) (st : recorded) : bunny.post_result * recorded :=
  let '(r, w') := requests_post api key url (fst st) in
  (r, (w', (snd st ++ [POST api key url])%list)).

Definition recording_save
  (instance_save : helpers.instance -> list string -> world
                   -> option string * world)
  (inst : helpers.instance) (fields : list string) (st : recorded)
  : option string * recorded :=
  let '(r, w') := instance_save inst fields (fst st) in
  (r, (w', (snd st ++ [SAVE (map (fun f => (f, inst f)) fields)])%list)).

End Recording.

(** [n * "/"] *)
Fixpoint slashes (n : nat) : string :=
  match n with
  | O => EmptyString
  | S k => String "/" (slashes k)
  end.

Definition is_DELETE (r : request) : bool :=
  match r with
  | DELETE _ _ => true
  | _ => false
  end.

Definition is_PUT (r : request) : bool :=
  match r with
  | PUT _ _ _ _ => true
  | _ => false
  end.

Definition is_POST (r : request) : bool :=
  match r with
  | POST _ _ _ => true
  | _ => false
  end.

Definition is_SAVE (r : request) : bool :=
  match r with
  | SAVE _ => true
  | _ => false
  end.

(** The public ids of a list of pairs that are neither [None] nor empty:
    the ones [bulk_delete_images_from_bunny] does not skip. *)
Fixpoint present_ids (media_pairs : list (option string * option string))
  : list string :=
  match media_pairs with
  | [] => []
  | (Some id, _) :: rest =>
      if Py.truthy_str id then id :: present_ids rest else present_ids rest
  | (None, _) :: rest => present_ids rest
  end.

(** The DELETE request for a public id. *)
Definition DELETE_of (s : bunny_storage.settings) (id : string) : request :=
  DELETE (bunny_storage.STORAGE_BASE s ++ PyStr.lstrip "/" id)
    (bunny_storage.BUNNY_STORAGE_PASSWORD s).

(** The POST request that purges a URL. *)
Definition POST_of (s : bunny.settings) (url : string) : request :=
  POST (bunny.api_url s) (bunny.access_key s) url.

(** [getattr(settings, 'BUNNY_PURGE_ON_OVERWRITE', True)] *)
Definition should_purge (s : helpers.settings) : bool :=
  match helpers.BUNNY_PURGE_ON_OVERWRITE s with
  | Some b => b
  | None => true
  end.

(** A purge would raise: the pull zone id is undefined, or it is set and
    the API key is undefined. *)
Definition settings_missing (s : helpers.settings) : bool :=
  helpers.undefined (helpers.BUNNY_PULL_ZONE_ID s)
  || (Py.truthy_opt_str (helpers.value (helpers.BUNNY_PULL_ZONE_ID s))
      && helpers.undefined (helpers.BUNNY_API_KEY s)).

(** The requests [delete_image_from_bunny] is expected to make for a
    public id and a URL, given the verdict of the storage: none for an
    absent id; otherwise the DELETE request, followed by the POST request
    that purges the URL when the deletion succeeded, a purge was asked
    for, there is a URL, the setting allows it and the purge API is
    configured. *)
Definition purge_requests (s : helpers.settings) (url : option string)
  (wanted : bool) : list request :=
  match url with
  | Some u =>
      if wanted && Py.truthy_str u && should_purge s
         && bunny.configured (helpers.cache s)
      then [POST_of (helpers.cache s) u]
      else []
  | None => []
  end.

Definition deletion_requests (s : helpers.settings)
  (public_id url : option string) (purge_cache verdict : bool)
  : list request :=
  match public_id with
  | Some id =>
      if Py.truthy_str id
      then DELETE_of (helpers.storage s) id
           :: purge_requests s url (verdict && purge_cache)
      else []
  | None => []
  end.

End Wire.

(* ================================================================== *)
(** ** Vocabulary of the properties of [save] *)

Module Saving.
Import PIL.
Local Open Scope string_scope.

(** A call other than [save] and the compositing calls. *)
Definition plain_call (c : pil_call) : Prop :=
  match c with
  | CallSave _ _ _ => False
  | _ => Spec.composite_call c = false
  end.

(** [key in im.info] *)
Definition has_key (key : string) (im : image) : bool :=
  existsb (fun kv => (fst kv =? key)%string) (info im).

(** [save] is handed the metadata of the image [src], less what [strip]
    removes. *)
Definition saves_info_of (strip_metadata : bool) (src : image) (c : pil_call)
  : Prop :=
  match c with
  | CallSave im _ _ => info im = info (image_utils.strip strip_metadata src)
  | _ => True
  end.

End Saving.

(* ================================================================== *)
(** ** A sample storage zone

    A network on which a PUT or a DELETE is refused with status 400 when
    its URL contains a space and answered with 201 or 200 otherwise, and
    on which [instance.save] never raises; the state counts the calls.
    [urljoin] is given on what the samples join: the base is the root of
    a site and ends with a slash, the path has no scheme and no dot
    segment; a path that begins with a slash replaces the root path, any
    other is appended. *)

Module SampleStorage.
Import PyStr.
Local Open Scope string_scope.
Local Open Scope Z_scope.

Definition sample_put (url data key : string) (content_type : option string)
  (n : nat) : bunny_storage.put_result * nat :=
  (if Samples.has_space url then bunny_storage.PutResponse 400
   else bunny_storage.PutResponse 201, S n).

Definition sample_delete (url key : string) (n : nat)
  : bunny.post_result * nat :=
  (if Samples.has_space url then bunny.Response 400 else bunny.Response 200,
   S n).

Definition sample_urljoin (base path : string) : string :=
  match path with
  | String "/" _ => rstrip "/" base ++ path
  | _ => base ++ path
  end.

Definition sample_save (inst : helpers.instance) (fields : list string)
  (n : nat) : option string * nat := (None, S n).

(** [posixpath.splitext] on the names of the samples: a base name without
    a slash and without a leading dot. *)
Fixpoint sample_ext (s : string) : string :=
  match s with
  | EmptyString => EmptyString
  | String c rest =>
      if contains "." rest then sample_ext rest
      else if Ascii.eqb c "." then s else EmptyString
  end.

Definition sample_splitext (s : string) : string * string :=
  (substring 0 (String.length s - String.length (sample_ext s)) s,
   sample_ext s).

Definition sample_guess_extension (ctype : string) : option string :=
  if (ctype =? "image/png")%string then Some ".png"
  else if (ctype =? "image/jpeg")%string then Some ".jpg"
  else if (ctype =? "image/webp")%string then Some ".webp"
  else None.

Definition sample_storage : bunny_storage.settings :=
  {| bunny_storage.BUNNY_STORAGE_ENDPOINT := "https://storage.bunnycdn.com/";
     bunny_storage.BUNNY_STORAGE_ZONE := "/media/";
     bunny_storage.BUNNY_STORAGE_PASSWORD := "storage-key";
     bunny_storage.BUNNY_CDN_BASE_URL := "https://cdn.example";
     bunny_storage.BUNNY_OPTIMIZER_DEFAULTS := Some "width=800" |}.

Definition sample_settings : helpers.settings :=
  {| helpers.storage := sample_storage;
     helpers.BUNNY_PULL_ZONE_ID := Value "12345";
     helpers.BUNNY_API_KEY := Value "secret";
     helpers.BUNNY_PURGE_ON_OVERWRITE := None |}.

(** The same project without the settings of the purge API. *)
Definition settings_without_purge : helpers.settings :=
  {| helpers.storage := sample_storage;
     helpers.BUNNY_PULL_ZONE_ID := Absent;
     helpers.BUNNY_API_KEY := Absent;
     helpers.BUNNY_PURGE_ON_OVERWRITE := None |}.

(** A model instance that holds an image, and one that holds none. *)
Definition with_image : helpers.instance :=
  fun n => if (n =? "image_public_id")%string then Some "avatars/7.webp"
           else if (n =? "image_url")%string
           then Some "https://cdn.example/avatars/7.webp?width=800"
           else None.

Definition without_image : helpers.instance := fun _ => None.

End SampleStorage.

(* ================================================================== *)
(** ** Empty sizes

    [Image.resize] refuses a size with a zero side ("height and width
    must be > 0"): what the properties of the resize step say of the
    library. *)

Module Sizes.
Import PIL.
Local Open Scope Z_scope.






End Sizes.

(* ================================================================== *)
(** * Properties *)

(** ** Rounding *)

Section RoundingFacts.
Import Rounding.
Local Open Scope Q_scope.

Lemma round_half_even_near y :
  y - (1 # 2) <= inject_Z (round_half_even y) <= y + (1 # 2).
Proof.
  unfold round_half_even.
  pose proof (Qfloor_le y) as Hlo.
  pose proof (Qlt_floor y) as Hhi.
  rewrite inject_Z_plus in Hhi. change (inject_Z 1) with 1 in Hhi.
  destruct (Qcompare (y - inject_Z (Qfloor y)) (1 # 2)) eqn:Hc.
  - apply Qeq_alt in Hc.
    destruct (Z.even (Qfloor y));
      [|rewrite inject_Z_plus; change (inject_Z 1) with 1]; lra.
  - apply Qlt_alt in Hc. lra.
  - apply Qgt_alt in Hc. rewrite inject_Z_plus.
    change (inject_Z 1) with 1. lra.
Qed.

Lemma round_half_even_Z y z : y == inject_Z z -> round_half_even y = z.
Proof.
  intros E. unfold round_half_even.
  assert (F : Qfloor y = z) by (rewrite E; apply Qfloor_Z).
  rewrite F.
  assert (C : Qcompare (y - inject_Z z) (1 # 2) = Lt).
  { rewrite <- Qlt_alt. rewrite E. lra. }
  rewrite C. reflexivity.
Qed.

Lemma pow2_pos k : 0 < 2 ^ k.
Proof. apply Qpower_0_lt. reflexivity. Qed.

Lemma pow2_add a b : 2 ^ (a + b) == 2 ^ a * 2 ^ b.
Proof. apply Qpower_plus. discriminate. Qed.

Lemma pow2_inv k : 2 ^ k * 2 ^ (- k) == 1.
Proof.
  rewrite <- pow2_add. replace (k + - k)%Z with 0%Z by lia. reflexivity.
Qed.

Lemma pow2_inj_Z k : (0 <= k)%Z -> inject_Z (2 ^ k) == 2 ^ k.
Proof. intros. apply (Zpower_Qpower 2 k). assumption. Qed.

(** Cancelling a power of two on the right of a product. *)
Lemma cancel_pow2_r (x a c ci : Q) :
  c * ci == 1 -> 0 < ci -> x * c < a -> x < a * ci.
Proof.
  intros I P H.
  assert (H2 : x * c * ci < a * ci) by nra.
  assert (H3 : x * c * ci == x) by (rewrite <- Qmult_assoc, I; ring).
  rewrite H3 in H2. exact H2.
Qed.

Lemma cancel_pow2_l (x a c ci : Q) :
  c * ci == 1 -> 0 < ci -> a <= x * c -> a * ci <= x.
Proof.
  intros I P H.
  assert (H2 : a * ci <= x * c * ci) by nra.
  assert (H3 : x * c * ci == x) by (rewrite <- Qmult_assoc, I; ring).
  rewrite H3 in H2. exact H2.
Qed.

Lemma binade_spec x : 0 < x -> 2 ^ binade x <= x /\ x < 2 ^ (binade x + 1).
Proof.
  intros Hx. destruct x as [n d]. unfold binade. cbn [Qnum Qden].
  assert (Hn : (0 < n)%Z) by (unfold Qlt in Hx; cbn in Hx; lia).
  set (ln := Z.log2 n). set (ld := Z.log2 (Zpos d)).
  destruct (Z.log2_spec n Hn) as [Hn1 Hn2]. fold ln in Hn1, Hn2.
  destruct (Z.log2_spec (Zpos d) eq_refl) as [Hd1 Hd2]. fold ld in Hd1, Hd2.
  assert (Hln : (0 <= ln)%Z) by apply Z.log2_nonneg.
  assert (Hld : (0 <= ld)%Z) by apply Z.log2_nonneg.
  assert (Hdq : 0 < inject_Z (Zpos d)) by reflexivity.
  assert (Hn1q : 2 ^ ln <= inject_Z n)
    by (rewrite <- pow2_inj_Z by lia; rewrite <- Zle_Qle; exact Hn1).
  assert (Hn2q : inject_Z n < 2 ^ (ln + 1))
    by (rewrite <- pow2_inj_Z by lia; rewrite <- Zlt_Qlt;
        replace (ln + 1)%Z with (Z.succ ln) by lia; exact Hn2).
  assert (Hd1q : 2 ^ ld <= inject_Z (Zpos d))
    by (rewrite <- pow2_inj_Z by lia; rewrite <- Zle_Qle; exact Hd1).
  assert (Hd2q : inject_Z (Zpos d) < 2 ^ (ld + 1))
    by (rewrite <- pow2_inj_Z by lia; rewrite <- Zlt_Qlt;
        replace (ld + 1)%Z with (Z.succ ld) by lia; exact Hd2).
  assert (Hx' : inject_Z n == (n # d) * inject_Z (Zpos d)).
  { rewrite (Qmake_Qdiv n d). field. intro H0. rewrite H0 in Hdq. discriminate. }
  assert (Hxpos : 0 < n # d) by exact Hx.
  set (x := n # d) in *.
  assert (Up : x < 2 ^ (ln - ld + 1)).
  { replace (ln - ld + 1)%Z with ((ln + 1) + - ld)%Z by lia.
    rewrite pow2_add.
    apply cancel_pow2_r with (c := 2 ^ ld);
      [apply pow2_inv | apply pow2_pos |].
    pose proof (pow2_pos ld). nra. }
  assert (Lo : 2 ^ (ln - ld - 1) <= x).
  { replace (ln - ld - 1)%Z with (ln + - (ld + 1))%Z by lia.
    rewrite pow2_add.
    apply cancel_pow2_l with (c := 2 ^ (ld + 1));
      [apply pow2_inv | apply pow2_pos |].
    pose proof (pow2_pos (ld + 1)). nra. }
  destruct (Qle_bool (2 ^ (ln - ld)) x) eqn:Hb.
  - apply Qle_bool_iff in Hb. split; assumption.
  - split; [assumption|].
    replace (ln - ld - 1 + 1)%Z with (ln - ld)%Z by lia.
    apply Qnot_le_lt. intro C. apply Qle_bool_iff in C. congruence.
Qed.

(** The relative error of one rounding is at most the unit roundoff. *)
Lemma RNpos_rel x : 0 < x -> x * (1 - eps) <= RNpos x <= x * (1 + eps).
Proof.
  intros Hx. unfold RNpos.
  destruct (binade_spec x Hx) as [Hlo _].
  set (e := (binade x - 52)%Z).
  pose proof (round_half_even_near (x * 2 ^ (- e))) as Hm.
  set (m := inject_Z (round_half_even (x * 2 ^ (- e)))) in *.
  assert (Hb : 2 ^ binade x == 2 ^ e * 2 ^ 53 * (1 # 2)).
  { replace (binade x) with (e + 52)%Z by (unfold e; lia).
    rewrite pow2_add.
    assert (E : 2 ^ 52 == 2 ^ 53 * (1 # 2)) by (vm_compute; reflexivity).
    rewrite E. ring. }
  rewrite Hb in Hlo.
  pose proof (pow2_inv e) as I. pose proof (pow2_pos e) as P.
  assert (He : eps * 2 ^ 53 == 1) by (vm_compute; reflexivity).
  assert (Heps : 0 < eps) by reflexivity.
  revert Hm Hlo I P He Heps.
  generalize (2 ^ e) (2 ^ (- e)) eps (2 ^ 53) m. clear.
  intros P Pi eps T m Hm Hlo I Hp He Heps.
  assert (Hy : x * Pi * P == x)
    by (rewrite <- Qmult_assoc, (Qmult_comm Pi), I; ring).
  assert (H1 : (x * Pi - (1 # 2)) * P <= m * P) by nra.
  assert (H2 : m * P <= (x * Pi + (1 # 2)) * P) by nra.
  assert (H3 : P * (1 # 2) <= x * eps).
  { assert (H4 : P * T * (1 # 2) * eps <= x * eps) by nra.
    assert (H5 : P * T * (1 # 2) * eps == P * (1 # 2) * (eps * T)) by ring.
    rewrite He in H5. nra. }
  split; nra.
Qed.

Lemma RN_pos x : 0 < x -> RN x = RNpos x.
Proof.
  intros H. unfold RN. rewrite Qgt_alt in H. rewrite H. reflexivity.
Qed.

(** Integers below 2^53 are binary64 values: converting them is exact. *)
Lemma RN_int n : (0 < n < 2 ^ 53)%Z -> RN (inject_Z n) == inject_Z n.
Proof.
  intros [Hn0 Hn1].
  assert (Hq : 0 < inject_Z n) by (rewrite Zlt_Qlt in Hn0; exact Hn0).
  rewrite (RN_pos _ Hq). unfold RNpos.
  destruct (binade_spec _ Hq) as [Hlo _].
  set (k := binade (inject_Z n)) in *.
  assert (Hk : (k < 53)%Z).
  { apply (Qpower_lt_compat_l_inv 2); [|reflexivity].
    eapply Qle_lt_trans; [exact Hlo|].
    rewrite Zlt_Qlt in Hn1. exact Hn1. }
  set (e := (k - 52)%Z).
  assert (He : (0 <= - e)%Z) by (unfold e; lia).
  assert (Ey : inject_Z n * 2 ^ (- e) == inject_Z (n * 2 ^ (- e))).
  { rewrite inject_Z_mult, pow2_inj_Z by exact He. reflexivity. }
  rewrite (round_half_even_Z _ _ Ey).
  rewrite inject_Z_mult, pow2_inj_Z by exact He.
  rewrite <- Qmult_assoc, (Qmult_comm (2 ^ (- e))), pow2_inv. ring.
Qed.

Lemma pow2_succ_neg e : 2 ^ (- (e + 1)) == 2 ^ (- e) * (1 # 2).
Proof.
  replace (- (e + 1))%Z with (- e + -1)%Z by lia. rewrite pow2_add. reflexivity.
Qed.

Lemma shr_1_spec m r s :
  (0 <= m)%Z ->
  shr_1 (Build_shr_record m r s)
  = Build_shr_record (m / 2) (Z.odd m) (r || s).
Proof.
  intros Hm. destruct m as [|p|p]; [reflexivity| |lia].
  destruct p as [p|p|]; cbn [shr_1].
  - f_equal. rewrite Pos2Z.inj_xI. 
    replace (2 * Z.pos p + 1)%Z with (1 + Z.pos p * 2)%Z by lia.
    rewrite Z.div_add by lia. reflexivity.
  - f_equal. rewrite Pos2Z.inj_xO.
    rewrite Z.mul_comm, Z.div_mul by lia. reflexivity.
  - reflexivity.
Qed.

Lemma shr_1_located x m r s e :
  (0 <= m)%Z -> located x m r s e ->
  located x (m / 2) (Z.odd m) (r || s) (e + 1).
Proof.
  intros Hm H.
  assert (Em : inject_Z m == 2 * inject_Z (m / 2) + (if Z.odd m then 1 else 0)).
  { rewrite (Z.div_mod m 2) at 1 by lia. rewrite Zmod_odd.
    rewrite inject_Z_plus, inject_Z_mult. destruct (Z.odd m); reflexivity. }
  assert (E1 : x * 2 ^ (- (e + 1)) == x * 2 ^ (- e) * (1 # 2))
    by (rewrite pow2_succ_neg; ring).
  unfold located in *.
  destruct r, s, (Z.odd m); cbn [orb]; rewrite ?E1; lra.
Qed.

Lemma shr_1_Loc x mrs e :
  Loc x mrs e ->
  Loc x (shr_1 mrs) (e + 1) /\ shr_m (shr_1 mrs) = (shr_m mrs / 2)%Z.
Proof.
  destruct mrs as [m r s]. unfold Loc. cbn [shr_m shr_r shr_s].
  intros [H Hm]. rewrite (shr_1_spec m r s Hm). cbn [shr_m shr_r shr_s].
  split; [split|reflexivity].
  - apply shr_1_located; assumption.
  - apply Z.div_pos; lia.
Qed.

Lemma shr_iter_Loc x p :
  forall mrs e,
    Loc x mrs e ->
    Loc x (iter_pos shr_1 p mrs) (e + Zpos p) /\
    shr_m (iter_pos shr_1 p mrs) = (shr_m mrs / 2 ^ Zpos p)%Z.
Proof.
  induction p as [p IH|p IH|]; intros mrs e H; cbn [iter_pos].
  - destruct (shr_1_Loc x mrs e H) as [H1 E1].
    destruct (IH _ _ H1) as [H2 E2].
    destruct (IH _ _ H2) as [H3 E3].
    split.
    + replace (e + Z.pos p~1)%Z with (e + 1 + Z.pos p + Z.pos p)%Z by lia.
      exact H3.
    + rewrite E3, E2, E1.
      rewrite !Z.div_div by lia.
      f_equal.
      replace (Z.pos p~1) with (1 + Z.pos p + Z.pos p)%Z by lia.
      rewrite !Z.pow_add_r by lia. lia.
  - destruct (IH _ _ H) as [H2 E2].
    destruct (IH _ _ H2) as [H3 E3].
    split.
    + replace (e + Z.pos p~0)%Z with (e + Z.pos p + Z.pos p)%Z by lia.
      exact H3.
    + rewrite E3, E2.
      rewrite !Z.div_div by lia.
      f_equal.
      replace (Z.pos p~0) with (Z.pos p + Z.pos p)%Z by lia.
      rewrite !Z.pow_add_r by lia. lia.
  - destruct (shr_1_Loc x mrs e H) as [H1 E1].
    split; [exact H1 | exact E1].
Qed.

(** The number of binary digits of a mantissa. *)
Lemma digits2_size p : digits2_pos p = Pos.size p.
Proof. induction p; cbn; congruence. Qed.

Lemma digits2_bounds p :
  (2 ^ (Zpos (digits2_pos p) - 1) <= Zpos p < 2 ^ Zpos (digits2_pos p))%Z.
Proof.
  rewrite digits2_size.
  pose proof (Pos.size_gt p) as Hgt. pose proof (Pos.size_le p) as Hle.
  assert (H1 : (Zpos p < 2 ^ Zpos (Pos.size p))%Z).
  { rewrite <- Pos2Z.inj_pow. apply Pos2Z.pos_lt_pos. exact Hgt. }
  assert (H2 : (2 ^ Zpos (Pos.size p) <= 2 * Zpos p)%Z).
  { rewrite <- Pos2Z.inj_pow. change (2 * Zpos p)%Z with (Zpos p~0).
    apply Pos2Z.pos_le_pos. exact Hle. }
  split; [|exact H1].
  replace (Zpos (Pos.size p)) with (Zpos (Pos.size p) - 1 + 1)%Z in H2 by lia.
  rewrite Z.pow_add_r in H2 by lia. lia.
Qed.

Lemma digits2_unique p d :
  (2 ^ (d - 1) <= Zpos p < 2 ^ d)%Z -> Zpos (digits2_pos p) = d.
Proof.
  intros [H1 H2]. pose proof (digits2_bounds p) as [H3 H4].
  set (k := Zpos (digits2_pos p)) in *.
  assert (Hd : (0 < d)%Z).
  { destruct (Z_lt_le_dec 0 d); [assumption|].
    assert (2 ^ d <= 1)%Z.
    { destruct (Z.eq_dec d 0) as [->|]; [cbn; lia|].
      rewrite Z.pow_neg_r by lia. lia. }
    lia. }
  destruct (Z_lt_le_dec k d) as [Hlt|Hge].
  - assert (2 ^ k <= 2 ^ (d - 1))%Z by (apply Z.pow_le_mono_r; lia). lia.
  - destruct (Z_lt_le_dec d k) as [Hlt|Hge2]; [|lia].
    assert (2 ^ d <= 2 ^ (k - 1))%Z by (apply Z.pow_le_mono_r; lia). lia.
Qed.

Lemma binade_unique x k : 2 ^ k <= x -> x < 2 ^ (k + 1) -> binade x = k.
Proof.
  intros H1 H2.
  assert (Hx : 0 < x) by (pose proof (pow2_pos k); lra).
  destruct (binade_spec x Hx) as [B1 B2].
  set (b := binade x) in *.
  assert (Hone : 1 <= 2) by discriminate.
  destruct (Z_lt_le_dec b k) as [Hlt|Hge].
  - pose proof (Qpower_le_compat_l 2 (b + 1) k ltac:(lia) Hone). lra.
  - destruct (Z_lt_le_dec k b) as [Hlt|Hle]; [|lia].
    pose proof (Qpower_le_compat_l 2 (k + 1) b ltac:(lia) Hone). lra.
Qed.

Lemma Qfloor_unique y m :
  inject_Z m <= y -> y < inject_Z m + 1 -> Qfloor y = m.
Proof.
  intros H1 H2.
  pose proof (Qfloor_le y) as F1. pose proof (Qlt_floor y) as F2.
  rewrite inject_Z_plus in F2. change (inject_Z 1) with 1 in F2.
  assert (A : inject_Z (Qfloor y) < inject_Z (m + 1)).
  { rewrite inject_Z_plus. change (inject_Z 1) with 1. lra. }
  assert (C : inject_Z m < inject_Z (Qfloor y + 1)).
  { rewrite inject_Z_plus. change (inject_Z 1) with 1. lra. }
  rewrite <- Zlt_Qlt in A, C. lia.
Qed.

Lemma located_range x m r s e :
  located x m r s e ->
  inject_Z m <= x * 2 ^ (- e) /\ x * 2 ^ (- e) < inject_Z m + 1.
Proof. unfold located. destruct r, s; intros H; lra. Qed.

Lemma round_nearest_even_located x m r s e :
  located x m r s e ->
  round_nearest_even m (loc_of_shr_record (Build_shr_record m r s))
  = round_half_even (x * 2 ^ (- e)).
Proof.
  intros H. destruct (located_range _ _ _ _ _ H) as [R1 R2].
  unfold round_half_even. rewrite (Qfloor_unique _ _ R1 R2).
  unfold located in H.
  destruct r, s; cbn [loc_of_shr_record round_nearest_even].
  - assert (C : Qcompare (x * 2 ^ (- e) - inject_Z m) (1 # 2) = Gt)
      by (rewrite <- Qgt_alt; lra).
    rewrite C. reflexivity.
  - assert (C : Qcompare (x * 2 ^ (- e) - inject_Z m) (1 # 2) = Eq)
      by (rewrite <- Qeq_alt; lra).
    rewrite C. reflexivity.
  - assert (C : Qcompare (x * 2 ^ (- e) - inject_Z m) (1 # 2) = Lt)
      by (rewrite <- Qlt_alt; lra).
    rewrite C. reflexivity.
  - assert (C : Qcompare (x * 2 ^ (- e) - inject_Z m) (1 # 2) = Lt)
      by (rewrite <- Qlt_alt; lra).
    rewrite C. reflexivity.
Qed.

Lemma fexp64 e : fexp 53 1024 e = Z.max (e - 53) (-1074).
Proof. reflexivity. Qed.

Lemma shr_Loc x mrs e n :
  (0 <= n)%Z -> Loc x mrs e ->
  Loc x (fst (shr mrs e n)) (e + n) /\
  snd (shr mrs e n) = (e + n)%Z /\
  shr_m (fst (shr mrs e n)) = (shr_m mrs / 2 ^ n)%Z.
Proof.
  intros Hn H. destruct n as [|p|p]; [| |lia]; cbn [shr fst snd].
  - rewrite Z.add_0_r, Z.pow_0_r, Z.div_1_r. auto.
  - destruct (shr_iter_Loc x p mrs e H) as [H1 E1]. auto.
Qed.

Lemma shr_m_of_loc m l : shr_m (shr_record_of_loc m l) = m.
Proof. destruct l as [|[]]; reflexivity. Qed.

Lemma round_half_even_cases y :
  round_half_even y = Qfloor y \/ round_half_even y = (Qfloor y + 1)%Z.
Proof.
  unfold round_half_even.
  destruct (Qcompare (y - inject_Z (Qfloor y)) (1 # 2)); auto.
  destruct (Z.even (Qfloor y)); auto.
Qed.

Lemma scaled_binade x e :
  2 ^ 52 <= x * 2 ^ (- e) -> x * 2 ^ (- e) < 2 ^ 53 -> binade x = (e + 52)%Z.
Proof.
  intros H1 H2.
  pose proof (pow2_inv e) as I. pose proof (pow2_pos e) as P.
  assert (E : x == x * 2 ^ (- e) * 2 ^ e)
    by (rewrite <- Qmult_assoc, (Qmult_comm (2 ^ (- e))), I; ring).
  apply binade_unique.
  - rewrite Z.add_comm, pow2_add.
    revert H1 E P. generalize (x * 2 ^ (- e)) (2 ^ e) (2 ^ 52). intros; nra.
  - replace (e + 52 + 1)%Z with (53 + e)%Z by lia. rewrite pow2_add.
    revert H2 E P. generalize (x * 2 ^ (- e)) (2 ^ e) (2 ^ 53). intros; nra.
Qed.

Lemma binary_round_aux_correct x mx ex lx :
  (53 <= Zpos (digits2_pos mx))%Z ->
  (-1074 <= Zpos (digits2_pos mx) + ex - 53)%Z ->
  (Zpos (digits2_pos mx) + ex <= 1023)%Z ->
  Loc x (shr_record_of_loc (Zpos mx) lx) ex ->
  exists m e,
    binary_round_aux 53 1024 false (Zpos mx) ex lx = S754_finite false m e /\
    inject_Z (Zpos m) * 2 ^ e == RN x /\
    Zpos (digits2_pos m) = 53%Z /\
    (Zpos (digits2_pos mx) + ex - 53 <= e <= Zpos (digits2_pos mx) + ex - 52)%Z.
Proof.
  set (d := Zpos (digits2_pos mx)).
  intros Hd Hlo Hhi HL.
  unfold binary_round_aux, shr_fexp. cbn [Zdigits2]. fold d. rewrite fexp64.
  replace (Z.max (d + ex - 53) (-1074) - ex)%Z with (d - 53)%Z by lia.
  destruct (shr_Loc x _ ex (d - 53) ltac:(lia) HL) as [L1 [E1 M1]].
  rewrite shr_m_of_loc in M1.
  destruct (shr (shr_record_of_loc (Zpos mx) lx) ex (d - 53)) as [mrs' e0].
  cbn [fst snd] in *. subst e0.
  set (e' := (ex + (d - 53))%Z) in *.
  destruct mrs' as [m' r' s']. cbn [shr_m shr_r shr_s] in *.
  destruct L1 as [L1 Hm0]. unfold Loc in L1. cbn [shr_m shr_r shr_s] in L1.
  assert (Hm' : (2 ^ 52 <= m' < 2 ^ 53)%Z).
  { pose proof (digits2_bounds mx) as [B1 B2]. fold d in B1, B2.
    rewrite M1.
    assert (P : (0 < 2 ^ (d - 53))%Z) by (apply Z.pow_pos_nonneg; lia).
    split.
    - apply Z.div_le_lower_bound; [exact P|].
      rewrite <- Z.pow_add_r by lia.
      replace (d - 53 + 52)%Z with (d - 1)%Z by lia. exact B1.
    - apply Z.div_lt_upper_bound; [exact P|].
      rewrite <- Z.pow_add_r by lia.
      replace (d - 53 + 53)%Z with d by lia. exact B2. }
  rewrite (round_nearest_even_located x m' r' s' e' L1).
  destruct (located_range _ _ _ _ _ L1) as [R1 R2].
  pose proof (Qfloor_unique _ _ R1 R2) as Hfl.
  assert (Hy1 : 2 ^ 52 <= x * 2 ^ (- e')).
  { eapply Qle_trans; [|exact R1].
    rewrite <- (pow2_inj_Z 52) by lia. rewrite <- Zle_Qle. lia. }
  assert (Hy2 : x * 2 ^ (- e') < 2 ^ 53).
  { eapply Qlt_le_trans; [exact R2|].
    rewrite <- (pow2_inj_Z 53) by lia.
    change 1 with (inject_Z 1). rewrite <- inject_Z_plus, <- Zle_Qle. lia. }
  pose proof (scaled_binade x e' Hy1 Hy2) as Hbin.
  assert (Hx : 0 < x).
  { pose proof (pow2_pos (- e')). pose proof (pow2_pos 52).
    destruct (Qlt_le_dec 0 x) as [|Hn]; [assumption|]. nra. }
  assert (HRN : RN x == inject_Z (round_half_even (x * 2 ^ (- e'))) * 2 ^ e').
  { rewrite (RN_pos _ Hx). unfold RNpos. rewrite Hbin.
    replace (e' + 52 - 52)%Z with e' by lia. reflexivity. }
  set (m2 := round_half_even (x * 2 ^ (- e'))) in *.
  assert (Hm2 : (2 ^ 52 <= m2 <= 2 ^ 53)%Z).
  { destruct (round_half_even_cases (x * 2 ^ (- e'))) as [E|E];
      fold m2 in E; rewrite Hfl in E; lia. }
  destruct m2 as [|q|q] eqn:Eq2; [lia| |lia].
  destruct (Z.eq_dec (Zpos q) (2 ^ 53)) as [Etop|Ntop].
  - injection Etop as ->. cbn [Zdigits2].
    change (Zpos (digits2_pos 9007199254740992)) with 54%Z.
    rewrite fexp64.
    replace (Z.max (54 + e' - 53) (-1074) - e')%Z with 1%Z by lia.
    cbn [shr_record_of_loc shr iter_pos shr_1 shr_m].
    assert (Hle : (e' + 1 <=? 1024 - 53)%Z = true) by (apply Z.leb_le; lia).
    rewrite Hle.
    eexists. eexists. split; [reflexivity|].
    split; [|split; [reflexivity|unfold e'; lia]].
    rewrite HRN, pow2_add.
    change (inject_Z 9007199254740992) with (inject_Z 4503599627370496 * 2 ^ 1).
    ring.
  - assert (Hdq : Zpos (digits2_pos q) = 53%Z)
      by (apply digits2_unique; change (53 - 1)%Z with 52%Z; lia).
    cbn [Zdigits2]. rewrite Hdq, fexp64.
    replace (Z.max (53 + e' - 53) (-1074) - e')%Z with 0%Z by lia.
    cbn [shr_record_of_loc shr shr_m].
    assert (Hle : (e' <=? 1024 - 53)%Z = true)
      by (apply Z.leb_le; unfold e'; lia).
    rewrite Hle.
    exists q, e'. split; [reflexivity|].
    split; [symmetry; exact HRN|]. split; [exact Hdq | unfold e'; lia].
Qed.

Lemma iter_xO_value m k : Zpos (Pos.iter xO m k) = (Zpos m * 2 ^ Zpos k)%Z.
Proof.
  induction k using Pos.peano_ind.
  - cbn. lia.
  - rewrite Pos.iter_succ, Pos2Z.inj_xO, IHk, Pos2Z.inj_succ, Z.pow_succ_r by lia.
    lia.
Qed.

Lemma iter_xO_digits m k :
  Zpos (digits2_pos (Pos.iter xO m k)) = (Zpos (digits2_pos m) + Zpos k)%Z.
Proof.
  induction k using Pos.peano_ind.
  - cbn. lia.
  - rewrite Pos.iter_succ. cbn [digits2_pos].
    rewrite Pos2Z.inj_succ, IHk, Pos2Z.inj_succ. lia.
Qed.

Lemma normal_value_pos f lo hi : normal f lo hi -> 0 < B2Q f.
Proof.
  intros [m [e [-> _]]]. cbn [B2Q].
  pose proof (pow2_pos e).
  assert (0 < inject_Z (Zpos m)) by reflexivity. nra.
Qed.

(** Integers below 2^53 convert exactly. *)
Lemma binary_normalize_spec n :
  (0 < n < 2 ^ 53)%Z ->
  normal (binary_normalize 53 1024 n 0 false) (-52) 1 /\
  B2Q (binary_normalize 53 1024 n 0 false) == inject_Z n.
Proof.
  intros [Hn0 Hn1]. destruct n as [|p|p]; [lia| |lia].
  unfold binary_normalize, binary_round.
  pose proof (digits2_bounds p) as [B1 B2].
  set (d := Zpos (digits2_pos p)) in *.
  assert (Hd : (1 <= d <= 53)%Z).
  { split; [unfold d; lia|].
    destruct (Z_lt_le_dec 53 d) as [Hgt|]; [|lia].
    assert (2 ^ 53 <= 2 ^ (d - 1))%Z by (apply Z.pow_le_mono_r; lia). lia. }
  rewrite fexp64.
  replace (Z.max (d + 0 - 53) (-1074)) with (d - 53)%Z by lia.
  unfold shl_align.
  assert (Hx : 0 < inject_Z (Zpos p)) by reflexivity.
  destruct (d - 53 - 0)%Z as [|k|k] eqn:Ek; [|lia|].
  - destruct (binary_round_aux_correct (inject_Z (Zpos p)) p 0 loc_Exact)
      as [m [e [E [V [D R]]]]]; fold d; try lia.
    { split; [|cbn; lia]. cbn. change (2 ^ (-0)) with 1. ring. }
    rewrite E. split.
    + exists m, e. split; [reflexivity|]. split; [exact D|]. fold d in R. lia.
    + cbn [B2Q]. rewrite V.
      setoid_replace (1 * RN (inject_Z (Z.pos p)))
        with (RN (inject_Z (Z.pos p))) by ring.
      apply RN_int. lia.
  - pose proof (iter_xO_value p k) as Vk. pose proof (iter_xO_digits p k) as Dk.
    fold d in Dk.
    set (mz := Pos.iter xO p k) in *.
    destruct (binary_round_aux_correct (inject_Z (Zpos p)) mz (d - 53) loc_Exact)
      as [m [e [E [V [D R]]]]]; rewrite ?Dk; try lia.
    { split; [|cbn; lia]. cbn [shr_record_of_loc shr_m shr_r shr_s located].
      rewrite Vk, inject_Z_mult.
      replace (- (d - 53))%Z with (Zpos k) by lia.
      rewrite <- pow2_inj_Z by lia. ring. }
    rewrite E. split.
    + exists m, e. split; [reflexivity|]. split; [exact D|]. lia.
    + cbn [B2Q]. rewrite V.
      setoid_replace (1 * RN (inject_Z (Z.pos p)))
        with (RN (inject_Z (Z.pos p))) by ring.
      apply RN_int. lia.
Qed.

Lemma normal_mantissa m :
  Zpos (digits2_pos m) = 53%Z -> (2 ^ 52 <= Zpos m < 2 ^ 53)%Z.
Proof.
  intros D. pose proof (digits2_bounds m) as B. rewrite D in B.
  change (53 - 1)%Z with 52%Z in B. exact B.
Qed.

Lemma digits_between p lo hi :
  (0 <= lo)%Z -> (2 ^ lo <= Zpos p < 2 ^ hi)%Z ->
  (lo + 1 <= Zpos (digits2_pos p) <= hi)%Z.
Proof.
  intros Hlo [H1 H2]. pose proof (digits2_bounds p) as [B1 B2].
  set (d := Zpos (digits2_pos p)) in *.
  assert (Hd : (1 <= d)%Z) by (unfold d; lia).
  split.
  - destruct (Z_lt_le_dec d (lo + 1)) as [Hlt|]; [|lia].
    assert (2 ^ d <= 2 ^ lo)%Z by (apply Z.pow_le_mono_r; lia). lia.
  - destruct (Z_lt_le_dec hi d) as [Hlt|]; [|lia].
    assert (0 <= hi)%Z.
    { destruct (Z_lt_le_dec hi 0); [|assumption].
      rewrite Z.pow_neg_r in H2 by lia. lia. }
    assert (2 ^ hi <= 2 ^ (d - 1))%Z by (apply Z.pow_le_mono_r; lia). lia.
Qed.

Lemma SFmul_spec a b lo1 hi1 lo2 hi2 :
  normal a lo1 hi1 -> normal b lo2 hi2 ->
  (-1000 <= lo1 + lo2)%Z -> (hi1 + hi2 <= 900)%Z ->
  normal (SFmul 53 1024 a b) (lo1 + lo2 + 52) (hi1 + hi2 + 54) /\
  B2Q (SFmul 53 1024 a b) == RN (B2Q a * B2Q b).
Proof.
  intros [m1 [e1 [-> [D1 R1]]]] [m2 [e2 [-> [D2 R2]]]] Hlo Hhi.
  cbn [SFmul xorb B2Q].
  pose proof (normal_mantissa m1 D1) as M1.
  pose proof (normal_mantissa m2 D2) as M2.
  assert (Hprod : (2 ^ 104 <= Zpos (m1 * m2) < 2 ^ 106)%Z).
  { rewrite Pos2Z.inj_mul.
    change (2 ^ 104)%Z with (2 ^ 52 * 2 ^ 52)%Z.
    change (2 ^ 106)%Z with (2 ^ 53 * 2 ^ 53)%Z. nia. }
  pose proof (digits_between (m1 * m2) 104 106 ltac:(lia) Hprod) as HD.
  destruct (binary_round_aux_correct
              (1 * (inject_Z (Zpos m1) * 2 ^ e1)
               * (1 * (inject_Z (Zpos m2) * 2 ^ e2)))
              (m1 * m2) (e1 + e2) loc_Exact)
    as [m [e [E [V [D R]]]]]; try lia.
  { split; [|cbn; lia]. cbn [shr_record_of_loc shr_m shr_r shr_s located].
    rewrite Pos2Z.inj_mul, inject_Z_mult.
    replace (- (e1 + e2))%Z with (- e1 + - e2)%Z by lia.
    rewrite pow2_add.
    pose proof (pow2_inv e1) as I1. pose proof (pow2_inv e2) as I2.
    revert I1 I2.
    generalize (2 ^ e1) (2 ^ (- e1)) (2 ^ e2) (2 ^ (- e2))
               (inject_Z (Zpos m1)) (inject_Z (Zpos m2)).
    intros P1 Pi1 P2 Pi2 A B I1 I2.
    setoid_replace (1 * (A * P1) * (1 * (B * P2)) * (Pi1 * Pi2) - A * B)
      with (A * B * ((P1 * Pi1) * (P2 * Pi2)) - A * B) by ring.
    rewrite I1, I2. ring. }
  rewrite E. split.
  - exists m, e. split; [reflexivity|]. split; [exact D|]. lia.
  - cbn [B2Q]. rewrite V. ring.
Qed.

Lemma new_location_located x e q m2 r :
  (0 < m2)%Z -> (0 <= r < m2)%Z ->
  x * 2 ^ (- e) == inject_Z q + inject_Z r / inject_Z m2 ->
  located x (shr_m (shr_record_of_loc q (new_location m2 r)))
    (shr_r (shr_record_of_loc q (new_location m2 r)))
    (shr_s (shr_record_of_loc q (new_location m2 r))) e.
Proof.
  intros Hm [Hr0 Hr1] Hy.
  assert (QM : 0 < inject_Z m2) by (rewrite Zlt_Qlt in Hm; exact Hm).
  assert (Erho : inject_Z r / inject_Z m2 * inject_Z m2 == inject_Z r)
    by (field; lra).
  assert (Two : forall a : Z, inject_Z (2 * a) == 2 * inject_Z a)
    by (intros; rewrite inject_Z_mult; reflexivity).
  assert (Case :
    (r = 0%Z /\ new_location m2 r = loc_Exact) \/
    ((2 * r < m2)%Z /\ (0 < r)%Z /\ new_location m2 r = loc_Inexact Lt) \/
    ((2 * r = m2)%Z /\ new_location m2 r = loc_Inexact Eq) \/
    ((m2 < 2 * r)%Z /\ new_location m2 r = loc_Inexact Gt)).
  { unfold new_location.
    destruct (Z.eqb_spec r 0) as [->|Hnz].
    - left. split; [reflexivity|]. destruct (Z.even m2); reflexivity.
    - right. apply Z.eqb_neq in Hnz.
      destruct (Z.even m2) eqn:Ev;
        unfold new_location_even, new_location_odd; rewrite Hnz;
        apply Z.eqb_neq in Hnz.
      + destruct (Z.compare_spec (2 * r) m2) as [Hc|Hc|Hc];
          [right; left | left | right; right]; repeat split; lia.
      + assert (Hodd : Z.odd m2 = true)
          by (rewrite <- Z.negb_even, Ev; reflexivity).
        apply Z.odd_spec in Hodd. destruct Hodd as [k Hk].
        destruct (Z.compare_spec (2 * r + 1) m2) as [Hc|Hc|Hc];
          [left | left | right; right]; repeat split; lia. }
  set (rho := inject_Z r / inject_Z m2) in *.
  destruct Case as [[-> ->] | [[H [H0 ->]] | [[H ->] | [H ->]]]];
    cbn [shr_record_of_loc shr_m shr_r shr_s located]; rewrite Hy.
  - assert (rho == 0) by (unfold rho; change (inject_Z 0) with 0; field; lra).
    lra.
  - rewrite Zlt_Qlt, Two in H. rewrite Zlt_Qlt in H0.
    change (inject_Z 0) with 0 in H0.
    assert (0 < rho) by (apply Qlt_shift_div_l; lra).
    split; [lra|]. nra.
  - assert (H' : inject_Z (2 * r) == inject_Z m2) by (rewrite H; reflexivity).
    rewrite Two in H'. nra.
  - rewrite Zlt_Qlt, Two in H.
    rewrite Zlt_Qlt in Hr1.
    split; nra.
Qed.

Lemma SFdiv_spec a b lo1 hi1 lo2 hi2 :
  normal a lo1 hi1 -> normal b lo2 hi2 ->
  (-900 <= lo1 - hi2)%Z -> (hi1 - lo2 <= 900)%Z ->
  normal (SFdiv 53 1024 a b) (lo1 - hi2 - 53) (hi1 - lo2 - 51) /\
  B2Q (SFdiv 53 1024 a b) == RN (B2Q a / B2Q b).
Proof.
  intros [m1 [e1 [-> [D1 R1]]]] [m2 [e2 [-> [D2 R2]]]] Hlo Hhi.
  cbn [SFdiv xorb B2Q]. unfold SFdiv_core_binary. cbn [Zdigits2].
  rewrite D1, D2, fexp64.
  replace (Z.min (Z.max (53 + e1 - (53 + e2) - 53) (-1074)) (e1 - e2))
    with (e1 - e2 - 53)%Z by lia.
  replace (e1 - e2 - (e1 - e2 - 53))%Z with 53%Z by lia.
  rewrite Z.shiftl_mul_pow2 by lia.
  pose proof (normal_mantissa m1 D1) as M1.
  pose proof (normal_mantissa m2 D2) as M2.
  pose proof (Z_div_mod (Zpos m1 * 2 ^ 53) (Zpos m2) ltac:(lia)) as Hdm.
  destruct (Z.div_eucl (Zpos m1 * 2 ^ 53) (Zpos m2)) as [q r].
  destruct Hdm as [Hdm Hr].
  assert (Hq : (2 ^ 52 <= q < 2 ^ 54)%Z).
  { change (2 ^ 52)%Z with 4503599627370496%Z in *.
    change (2 ^ 53)%Z with 9007199254740992%Z in *.
    change (2 ^ 54)%Z with 18014398509481984%Z in *. nia. }
  destruct q as [|q|q]; [cbn in Hq; lia| |lia].
  pose proof (digits_between q 52 54 ltac:(lia) Hq) as HD.
  set (x := 1 * (inject_Z (Zpos m1) * 2 ^ e1)
            / (1 * (inject_Z (Zpos m2) * 2 ^ e2))).
  destruct (binary_round_aux_correct x q (e1 - e2 - 53)
              (new_location (Zpos m2) r))
    as [m [e [E [V [D R]]]]]; try lia.
  { split; [|rewrite shr_m_of_loc; lia].
    apply new_location_located; [lia | lia |].
    unfold x.
    replace (- (e1 - e2 - 53))%Z with (- e1 + (e2 + 53))%Z by lia.
    rewrite !pow2_add.
    assert (Eq : inject_Z (Zpos q) + inject_Z r / inject_Z (Zpos m2)
                 == inject_Z (Zpos m1) * 2 ^ 53 / inject_Z (Zpos m2)).
    { assert (Hq' : inject_Z (Zpos m1 * 2 ^ 53)
                    == inject_Z (Zpos m2 * Zpos q + r))
        by (rewrite Hdm; reflexivity).
      rewrite inject_Z_plus, !inject_Z_mult in Hq'.
      rewrite (pow2_inj_Z 53) in Hq' by lia.
      assert (0 < inject_Z (Zpos m2)) by reflexivity.
      setoid_replace (inject_Z (Zpos m1) * 2 ^ 53)
        with (inject_Z (Zpos m2) * inject_Z (Zpos q) + inject_Z r) by exact Hq'.
      field. lra. }
    rewrite Eq.
    pose proof (pow2_inv e1) as I1. pose proof (pow2_pos e2) as P2.
    pose proof (pow2_pos e1) as P1.
    assert (0 < inject_Z (Zpos m2)) by reflexivity.
    revert I1 P1 P2 H.
    generalize (2 ^ e1) (2 ^ (- e1)) (2 ^ e2) (2 ^ 53)
               (inject_Z (Zpos m1)) (inject_Z (Zpos m2)).
    intros P1 Pi1 P2 T A B I1 HP1 HP2 HB.
    setoid_replace (1 * (A * P1) / (1 * (B * P2)) * (Pi1 * (P2 * T)))
      with ((P1 * Pi1) * (A * T / B)) by (field; lra).
    rewrite I1. field. lra. }
  rewrite E. split.
  - exists m, e. split; [reflexivity|]. split; [exact D|]. lia.
  - cbn [B2Q]. rewrite V. unfold x. ring.
Qed.

Lemma RN_rel x : 0 < x -> x * (1 - eps) <= RN x <= x * (1 + eps).
Proof. intros Hx. rewrite (RN_pos _ Hx). apply RNpos_rel, Hx. Qed.

Lemma two_roundings (h mw w : Z) (r p : Q) :
  (0 < mw < w)%Z -> (0 < h)%Z -> (h * mw <= 2 ^ 51)%Z ->
  inject_Z mw / inject_Z w * (1 - eps) <= r
  <= inject_Z mw / inject_Z w * (1 + eps) ->
  inject_Z h * r * (1 - eps) <= p <= inject_Z h * r * (1 + eps) ->
  (h * mw - w <= Qfloor p * w <= h * mw)%Z.
Proof.
  intros [Hmw Hlt] Hh HN Hr Hp.
  assert (QH : 0 < inject_Z h) by (rewrite Zlt_Qlt in Hh; exact Hh).
  assert (QM : 0 < inject_Z mw) by (rewrite Zlt_Qlt in Hmw; exact Hmw).
  assert (QW : 0 < inject_Z w)
    by (assert (0 < w)%Z as H0 by lia; rewrite Zlt_Qlt in H0; exact H0).
  assert (QN : inject_Z h * inject_Z mw <= 2 ^ 51).
  { rewrite <- inject_Z_mult. rewrite Zle_Qle in HN. exact HN. }
  assert (Ex1 : inject_Z mw / inject_Z w * inject_Z w == inject_Z mw)
    by (field; lra).
  assert (Hx1 : 0 < inject_Z mw / inject_Z w)
    by (apply Qlt_shift_div_l; lra).
  assert (Heps : 0 < eps) by reflexivity.
  assert (Heps1 : eps * 2 ^ 51 == 1 # 4) by (vm_compute; reflexivity).
  assert (Heps2 : eps <= 1 # 4) by (vm_compute; discriminate).
  assert (Hrpos : 0 < r) by nra.
  assert (Hppos : 0 <= p) by nra.
  pose proof (Qfloor_le p) as F1. pose proof (Qlt_floor p) as F2.
  rewrite inject_Z_plus in F2. change (inject_Z 1) with 1 in F2.
  set (out := Qfloor p) in *.
  revert Hr Hp F1 F2 Ex1 QN QH QM QW Heps Heps1 Heps2 Hrpos Hppos Hx1.
  generalize (inject_Z mw / inject_Z w).
  intros x1 Hr Hp F1 F2 Ex1 QN QH QM QW Heps Heps1 Heps2 Hrpos Hppos Hx1.
  assert (G : inject_Z (h * mw + - w + - (1)) < inject_Z (out * w) /\
              inject_Z (out * w) < inject_Z (h * mw + 1)).
  { rewrite !inject_Z_plus, !inject_Z_opp, !inject_Z_mult.
    change (inject_Z 1) with 1.
    revert Hr Hp F1 F2 Ex1 QN QH QM QW Heps Heps1 Heps2 Hrpos Hppos Hx1.
    generalize (inject_Z h) (inject_Z mw) (inject_Z w) (inject_Z out)
               eps (2 ^ 51).
    clear.
    intros H M W O e T Hr Hp F1 F2 Ex1 QN QH QM QW Heps Heps1 Heps2
           Hrpos Hppos Hx1.
    assert (K1 : H * M * e <= 1 # 4) by nra.
    assert (K2 : r * W <= M * (1 + e)) by nra.
    assert (K3 : M * (1 - e) <= r * W) by nra.
    assert (K4a : p * W <= H * r * (1 + e) * W) by nra.
    assert (P1 : 0 < H * (1 + e)) by nra.
    assert (K4b : H * (1 + e) * (r * W) <= H * (1 + e) * (M * (1 + e)))
      by nra.
    assert (K4 : p * W <= H * M * (1 + e) * (1 + e)) by nra.
    assert (K5a : H * r * (1 - e) * W <= p * W) by nra.
    assert (P2 : 0 < H * (1 - e)) by nra.
    assert (K5b : H * (1 - e) * (M * (1 - e)) <= H * (1 - e) * (r * W))
      by nra.
    assert (K5 : H * M * (1 - e) * (1 - e) <= p * W) by nra.
    assert (K6 : O * W <= p * W) by nra.
    assert (K7 : p * W < (O + 1) * W) by nra.
    split; nra. }
  destruct G as [G1 G2].
  rewrite <- Zlt_Qlt in G1, G2. lia.
Qed.

Lemma of_int_spec n :
  (0 < n < 2 ^ 53)%Z ->
  exists f, PyFloat.of_int n = inr f /\ normal f (-52) 1 /\
            B2Q f == inject_Z n.
Proof.
  intros Hn. destruct (binary_normalize_spec n Hn) as [N V].
  exists (binary_normalize 53 1024 n 0 false).
  split; [|split; assumption].
  unfold PyFloat.of_int. destruct N as [m [e [-> _]]]. reflexivity.
Qed.

Lemma to_int_floor m e :
  PyFloat.to_int (S754_finite false m e)
  = inr (Qfloor (inject_Z (Zpos m) * 2 ^ e)).
Proof.
  unfold PyFloat.to_int. cbn [cond_Zopp]. f_equal.
  destruct e as [|p|p].
  - change (2 ^ 0) with 1. rewrite Qmult_1_r, Qfloor_Z. cbn. lia.
  - rewrite <- pow2_inj_Z by lia. rewrite <- inject_Z_mult, Qfloor_Z. reflexivity.
  - rewrite Z.quot_div_nonneg by lia.
    rewrite Zdiv_Qdiv. apply Qfloor_comp.
    change (Z.neg p) with (- Zpos p)%Z. rewrite Qpower_opp.
    rewrite <- pow2_inj_Z by lia. reflexivity.
Qed.

(** The ratio of the resize step is a normal number within one rounding
    of the exact quotient. *)
Lemma resize_ratio_spec mw w :
  (0 < mw < 2 ^ 53)%Z -> (0 < w < 2 ^ 53)%Z ->
  exists ratio,
    image_utils.resize_ratio mw w = inr ratio /\
    normal ratio (-106) 2 /\
    inject_Z mw / inject_Z w * (1 - eps) <= B2Q ratio
    <= inject_Z mw / inject_Z w * (1 + eps).
Proof.
  intros Hmw Hw.
  destruct (of_int_spec mw Hmw) as [fm [Em [Nm Vm]]].
  destruct (of_int_spec w Hw) as [fw [Ew [Nw Vw]]].
  destruct (SFdiv_spec _ _ _ _ _ _ Nm Nw ltac:(lia) ltac:(lia)) as [Nr Vr].
  exists (SFdiv 53 1024 fm fw).
  unfold image_utils.resize_ratio, PyFloat.truediv. rewrite Ew, Em.
  split; [|split].
  - destruct Nw as [m [e [-> _]]]. reflexivity.
  - exact Nr.
  - pose proof (normal_value_pos _ _ _ Nm) as Pm.
    pose proof (normal_value_pos _ _ _ Nw) as Pw.
    assert (Hq : 0 < B2Q fm / B2Q fw) by (apply Qlt_shift_div_l; lra).
    pose proof (RN_rel _ Hq) as R. rewrite <- Vr in R.
    rewrite Vm, Vw in R. exact R.
Qed.

(** The height of the resize step is the floor of a number within one
    rounding of the exact product. *)
Lemma scaled_height_spec h ratio :
  (0 < h < 2 ^ 53)%Z -> normal ratio (-106) 2 ->
  exists p,
    image_utils.scaled_height h ratio = inr (Qfloor p) /\
    inject_Z h * B2Q ratio * (1 - eps) <= p
    <= inject_Z h * B2Q ratio * (1 + eps).
Proof.
  intros Hh Nr.
  destruct (of_int_spec h Hh) as [fh [Eh [Nh Vh]]].
  destruct (SFmul_spec _ _ _ _ _ _ Nh Nr ltac:(lia) ltac:(lia)) as [Np Vp].
  pose proof (normal_value_pos _ _ _ Nh) as Ph.
  pose proof (normal_value_pos _ _ _ Nr) as Pr.
  assert (Hhr : 0 < B2Q fh * B2Q ratio) by nra.
  pose proof (RN_rel _ Hhr) as Rp. rewrite <- Vp in Rp. rewrite Vh in Rp.
  unfold image_utils.scaled_height, PyFloat.mul. rewrite Eh.
  destruct Np as [m [e [Ep _]]]. rewrite Ep in Rp |- *.
  rewrite to_int_floor.
  exists (inject_Z (Zpos m) * 2 ^ e). split; [reflexivity|].
  cbn [B2Q] in Rp.
  setoid_replace (inject_Z (Z.pos m) * 2 ^ e)
    with (1 * (inject_Z (Z.pos m) * 2 ^ e)) by ring.
  exact Rp.
Qed.

(** The height computed by the resize step is the exact proportional
    height rounded down, or one less: two roundings of relative error
    [eps] cannot move the product by a full unit of [1/w] as long as
    [h * mw] stays below 2^51. *)
Lemma resized_height_bounds h mw w :
  (0 < mw < w)%Z -> (0 < h)%Z -> (w < 2 ^ 53)%Z -> (h * mw <= 2 ^ 51)%Z ->
  (h * mw - w <= Spec.resized_height h mw w * w <= h * mw)%Z.
Proof.
  intros Hmw Hh Hw HN.
  assert (Hh53 : (h < 2 ^ 53)%Z) by nia.
  destruct (resize_ratio_spec mw w ltac:(lia) ltac:(lia))
    as [ratio [Er [Nr Rr]]].
  destruct (scaled_height_spec h ratio ltac:(lia) Nr) as [p [Ep Rp]].
  unfold Spec.resized_height. rewrite Er, Ep.
  apply (two_roundings h mw w (B2Q ratio)); assumption.
Qed.

Lemma resized_height_zero mw w : Spec.resized_height 0 mw w = 0%Z.
Proof.
  unfold Spec.resized_height.
  destruct (image_utils.resize_ratio mw w) as [e|ratio]; [reflexivity|].
  destruct ratio as [s|s| |s m e]; try destruct s; reflexivity.
Qed.

(** For dimensions that binary64 represents exactly the computation of
    the new size raises nowhere. *)
Lemma resized_height_defined h mw w :
  (0 < mw < 2 ^ 53)%Z -> (0 < w < 2 ^ 53)%Z -> (0 <= h < 2 ^ 53)%Z ->
  exists ratio z,
    image_utils.resize_ratio mw w = inr ratio /\
    image_utils.scaled_height h ratio = inr z.
Proof.
  intros Hmw Hw Hh.
  destruct (resize_ratio_spec mw w Hmw Hw) as [ratio [Er [Nr _]]].
  exists ratio.
  destruct (Z.eq_dec h 0) as [->|Hnz].
  - exists 0%Z. split; [exact Er|].
    destruct Nr as [m [e [-> _]]]. reflexivity.
  - destruct (scaled_height_spec h ratio ltac:(lia) Nr) as [p [Ep _]].
    exists (Qfloor p). auto.
Qed.

End RoundingFacts.

(** ** The format selector *)

Section Selector.
Import image_utils.
Local Open Scope string_scope.

Lemma choose_cases src_mode want :
  _choose_output_format src_mode want = ("WEBP", ".webp") \/
  _choose_output_format src_mode want = ("JPEG", ".jpg").
Proof.
  unfold _choose_output_format.
  destruct (Py.upper want =? "JPEG");
    destruct (Py.str_in src_mode ["RGBA"; "LA"; "P"]);
    destruct (Py.str_in (Py.upper want) SUPPORTED_OUTPUTS); cbn; auto.
Qed.

Lemma choose_alpha_jpeg src_mode want :
  Py.str_in src_mode ["RGBA"; "LA"; "P"] = true ->
  Py.upper want = "JPEG" ->
  _choose_output_format src_mode want = ("WEBP", ".webp").
Proof.
  intros Ha Hw. unfold _choose_output_format. rewrite Ha, Hw. reflexivity.
Qed.

Lemma choose_jpeg_inv src_mode want :
  fst (_choose_output_format src_mode want) = "JPEG" ->
  Py.str_in src_mode ["RGBA"; "LA"; "P"] = false /\ Py.upper want = "JPEG".
Proof.
  unfold _choose_output_format.
  destruct (Py.upper want =? "JPEG") eqn:E;
    destruct (Py.str_in src_mode ["RGBA"; "LA"; "P"]);
    destruct (Py.str_in (Py.upper want) SUPPORTED_OUTPUTS); cbn;
    try discriminate; intros _; split; auto; now apply String.eqb_eq.
Qed.

Lemma str_in_sub x (small big : list string) :
  (forall y, In y small -> In y big) ->
  Py.str_in x big = false -> Py.str_in x small = false.
Proof.
  intros Hsub Hbig. unfold Py.str_in in *.
  destruct (existsb (String.eqb x) small) eqn:E; [|reflexivity].
  apply existsb_exists in E. destruct E as [y [Hy Hxy]].
  assert (existsb (String.eqb x) big = true)
    by (apply existsb_exists; exists y; auto).
  congruence.
Qed.

Lemma jpeg_never_alpha src_mode want :
  fst (_choose_output_format src_mode want) = "JPEG" ->
  Py.str_in src_mode ["RGBA"; "LA"] = false.
Proof.
  intros H. apply choose_jpeg_inv in H. destruct H as [H _].
  apply str_in_sub with (big := ["RGBA"; "LA"; "P"]); [|exact H].
  cbn. intuition.
Qed.

End Selector.

(** ** Reasoning about library computations *)

Section Logic.
Import PIL Spec.
Variable B : backend.
Variable Q : pil_call -> Prop.

Lemma triple_ret {A} (a : A) (P : A -> Prop) : P a -> triple Q (ret a) P.
Proof.
  intros Ha log Hlog. cbn. split; [exact Hlog|].
  intros a' E. injection E as <-. exact Ha.
Qed.

Lemma triple_lift {A} (r : string + A) (P : A -> Prop) :
  (forall a, r = inr a -> P a) -> triple Q (lift r) P.
Proof. intros H log Hlog. cbn. split; [exact Hlog|]. exact H. Qed.

Lemma triple_bind {A C} (m : Lib A) (k : A -> Lib C) (P1 : A -> Prop)
  (P2 : C -> Prop) :
  triple Q m P1 -> (forall a, P1 a -> triple Q (k a) P2) ->
  triple Q (bind m k) P2.
Proof.
  intros Hm Hk log Hlog. unfold bind.
  destruct (Hm log Hlog) as [Hl Hp].
  destruct (m log) as [log' [e|a]]; cbn in *.
  - split; [exact Hl|]. discriminate.
  - apply (Hk a (Hp a eq_refl) log' Hl).
Qed.

Lemma triple_invoke {A} (c : pil_call) (r : A) (P : A -> Prop) :
  Q c -> P r -> triple Q (invoke B c r) P.
Proof.
  intros Hc Hr log Hlog. unfold invoke. cbn. split.
  - apply Forall_app. split; [exact Hlog|]. constructor; [exact Hc|constructor].
  - destruct (fault B c); [discriminate|].
    intros a E. injection E as <-. exact Hr.
Qed.

Lemma returns_ret {A} (a : A) (P : A -> Prop) : P a -> returns (ret a) P.
Proof. intros Ha log. exists log, a. auto. Qed.

Lemma returns_lift {A} (r : string + A) (a : A) (P : A -> Prop) :
  r = inr a -> P a -> returns (lift r) P.
Proof. intros -> Ha log. exists log, a. auto. Qed.

Lemma returns_bind {A C} (m : Lib A) (k : A -> Lib C) (P1 : A -> Prop)
  (P2 : C -> Prop) :
  returns m P1 -> (forall a, P1 a -> returns (k a) P2) ->
  returns (bind m k) P2.
Proof.
  intros Hm Hk log.
  destruct (Hm log) as [log1 [a [E Ha]]].
  destruct (Hk a Ha log1) as [log2 [c [E2 Hc]]].
  exists log2, c. unfold bind. rewrite E. auto.
Qed.

Lemma returns_invoke {A} (c : pil_call) (r : A) (P : A -> Prop) :
  no_fault B -> P r -> returns (invoke B c r) P.
Proof.
  intros NF Hr log. exists (log ++ [c]), r. unfold invoke. rewrite NF. auto.
Qed.

End Logic.

(** ** The stages of the pipeline *)

Section Stages.
Import PIL Spec image_utils.
Local Open Scope Z_scope.
Local Open Scope string_scope.
Variable B : backend.
Variable Q : pil_call -> Prop.

(** [Q] holds of every call other than the compositing calls and [save]. *)
Hypothesis Qplain :
  forall c, composite_call c = false ->
            match c with CallSave _ _ _ => False | _ => True end -> Q c.

Lemma exif_transpose_triple img0 :
  triple Q (exif_transpose B img0) (fun img => img = oriented img0).
Proof.
  apply triple_invoke; [apply Qplain; [reflexivity | exact I] | reflexivity].
Qed.

Lemma convert_palette_triple img :
  triple Q (convert_palette B img)
    (fun img' => mode img' = depalettized (mode img) /\ size img' = size img).
Proof.
  unfold convert_palette, depalettized.
  destruct (mode img =? "P").
  - apply triple_invoke; [apply Qplain; [reflexivity | exact I] |].
    split; reflexivity.
  - apply triple_ret. split; reflexivity.
Qed.

Lemma new_size_triple mw img :
  triple Q (new_size mw img)
    (fun sz => sz = (mw, resized_height (height img) mw (width img))).
Proof.
  unfold new_size, resized_height.
  destruct (resize_ratio mw (width img)) as [e|ratio].
  - eapply triple_bind with (P1 := fun _ => False);
      [apply triple_lift; discriminate|].
    intros a [].
  - eapply triple_bind with (P1 := fun r => r = ratio).
    { apply triple_lift. intros a E. injection E as <-. reflexivity. }
    intros r ->.
    destruct (scaled_height (height img) ratio) as [e|z].
    + eapply triple_bind with (P1 := fun _ => False);
        [apply triple_lift; discriminate|].
      intros a [].
    + eapply triple_bind with (P1 := fun h => h = z).
      { apply triple_lift. intros a E. injection E as <-. reflexivity. }
      intros h ->. apply triple_ret. reflexivity.
Qed.

Lemma resize_if_needed_triple max_width img :
  triple Q (resize_if_needed B max_width img)
    (fun img' => mode img' = mode img /\
                 size img' = output_size max_width img /\
                 (resizes max_width img = false -> img' = img)).
Proof.
  unfold resize_if_needed, output_size, resizes.
  destruct max_width as [mw|]; [|apply triple_ret; auto].
  destruct (Py.truthy_int (Some mw) && (width img >? mw)).
  - eapply triple_bind; [apply new_size_triple|].
    intros sz ->.
    apply triple_invoke; [apply Qplain; [reflexivity | exact I] |].
    repeat split. discriminate.
  - apply triple_ret. auto.
Qed.

Lemma flatten_for_jpeg_triple fmt img :
  (fmt =? "JPEG")%string && Py.str_in (mode img) ["RGBA"; "LA"] = false ->
  triple Q (flatten_for_jpeg B fmt img)
    (fun img' => size img' = size img /\
                 mode img' = if (fmt =? "JPEG")%string then "RGB" else mode img).
Proof.
  intros Hno. unfold flatten_for_jpeg. rewrite Hno.
  destruct (fmt =? "JPEG")%string; cbn [andb].
  - destruct (mode img =? "RGB")%string eqn:E; cbn [negb].
    + apply triple_ret. apply String.eqb_eq in E. auto.
    + apply triple_invoke; [apply Qplain; [reflexivity | exact I] |].
      split; reflexivity.
  - apply triple_ret. auto.
Qed.

Lemma strip_mode b img : mode (strip b img) = mode img.
Proof. destruct b; reflexivity. Qed.

Lemma strip_size b img : size (strip b img) = size img.
Proof. destruct b; reflexivity. Qed.

Lemma output_size_ext max_width a b :
  size a = size b -> output_size max_width a = output_size max_width b.
Proof.
  unfold output_size. intros E. rewrite E.
  unfold size in E. injection E as Ew Eh. rewrite Ew, Eh. reflexivity.
Qed.

End Stages.

(** ** What [compress_image] asks of the library *)

Section Runs.
Import PIL Spec image_utils.
Local Open Scope Z_scope.
Local Open Scope string_scope.
Variable B : backend.

Lemma expected_plain src max_width quality want c :
  composite_call c = false ->
  match c with CallSave _ _ _ => False | _ => True end ->
  expected_call src max_width quality want c.
Proof. destruct c; cbn; intros H1 H2; solve [exact H1 | contradiction]. Qed.

Lemma selected_not_composited img want fmt ext :
  _choose_output_format (mode img) want = (fmt, ext) ->
  (fmt =? "JPEG") && Py.str_in (mode img) ["RGBA"; "LA"] = false.
Proof.
  intros Hsel. destruct (fmt =? "JPEG") eqn:E; [|reflexivity].
  apply String.eqb_eq in E. subst fmt. cbn [andb].
  apply jpeg_never_alpha with (want := want). rewrite Hsel. reflexivity.
Qed.

(** Every run of the second [try] block, complete or interrupted by an
    exception, makes expected calls only, and returns the content type
    and extension of the selected format. *)
Lemma transcode_expected img0 max_width quality want strip_metadata :
  triple (expected_call (oriented img0) max_width quality want)
    (transcode B img0 max_width quality want strip_metadata)
    (fun r => exists data,
       r = (data,
            content_type_of (fst (selected (oriented img0) want)),
            snd (selected (oriented img0) want))).
Proof.
  set (src := oriented img0).
  pose proof (expected_plain src max_width quality want) as Qp.
  unfold transcode.
  eapply triple_bind; [apply exif_transpose_triple; exact Qp|].
  intros img ->. fold src.
  eapply triple_bind; [apply convert_palette_triple; exact Qp|].
  intros img1 [Hm1 Hs1].
  eapply triple_bind; [apply resize_if_needed_triple; exact Qp|].
  intros img2 [Hm2 [Hs2 _]].
  assert (Hsel : _choose_output_format (mode img2) want = selected src want)
    by (unfold selected; rewrite Hm2, Hm1; reflexivity).
  destruct (_choose_output_format (mode img2) want) as [fmt ext] eqn:Hch.
  eapply triple_bind;
    [apply flatten_for_jpeg_triple;
     [exact Qp | eapply selected_not_composited; exact Hch]|].
  intros img3 [Hs3 Hm3]. cbv zeta.
  eapply triple_bind with (P1 := fun _ => True).
  - apply triple_invoke; [|exact I]. cbn.
    rewrite strip_mode, strip_size, <- Hsel. cbn [fst].
    repeat split.
    + rewrite Hm3. unfold output_mode. rewrite <- Hsel. cbn [fst].
      destruct (fmt =? "JPEG"); [reflexivity|]. rewrite Hm2. exact Hm1.
    + rewrite Hs3, Hs2. apply output_size_ext. exact Hs1.
  - intros data _. apply triple_ret. exists data. rewrite <- Hsel. reflexivity.
Qed.

Lemma compress_image_valid file max_width quality want strip_metadata :
  valid_options max_width quality ->
  compress_image B file max_width quality want strip_metadata =
  match decode B file with
  | inl e => ([CallOpen file], inl (IOError ("Cannot open image file: " ++ e)))
  | inr img =>
      match transcode B img max_width quality want strip_metadata
              [CallOpen file] with
      | (log', inl e) =>
          (log', inl (IOError ("Image compression failed: " ++ e)))
      | (log', inr r) => (log', inr r)
      end
  end.
Proof.
  intros [Hq Hw]. unfold compress_image, Image_open.
  assert (Eq1 : ((quality <? 1) || (quality >? 100))%Z = false) by lia.
  rewrite Eq1.
  assert (Eq2 : match max_width with
                | Some mw => (mw <? 1)%Z
                | None => false
                end = false) by (destruct max_width; [lia|reflexivity]).
  rewrite Eq2. cbn [app]. destruct (decode B file); reflexivity.
Qed.

(** Once the options are valid and the bytes decode, a call of
    [compress_image] makes expected calls only; it either raises the
    [IOError] of the second [try] block or returns the content type and
    extension of the selected format. *)
Lemma compress_image_expected file max_width quality want strip_metadata img0 :
  valid_options max_width quality ->
  decode B file = inr img0 ->
  Forall (expected_call (oriented img0) max_width quality want)
    (fst (compress_image B file max_width quality want strip_metadata)) /\
  match snd (compress_image B file max_width quality want strip_metadata) with
  | inl e => exists msg, e = IOError ("Image compression failed: " ++ msg)
  | inr (data, ct, ext) =>
      ct = content_type_of (fst (selected (oriented img0) want)) /\
      ext = snd (selected (oriented img0) want)
  end.
Proof.
  intros Hv Hd. rewrite (compress_image_valid _ _ _ _ _ Hv), Hd.
  assert (H0 : Forall (expected_call (oriented img0) max_width quality want)
                 [CallOpen file]) by (constructor; [reflexivity|constructor]).
  destruct (transcode_expected img0 max_width quality want strip_metadata
              _ H0) as [Hl Hr].
  destruct (transcode B img0 max_width quality want strip_metadata
              [CallOpen file]) as [log' [e|r]]; cbn in *.
  - split; [exact Hl|]. exists e. reflexivity.
  - split; [exact Hl|]. destruct (Hr r eq_refl) as [data ->]. auto.
Qed.

Lemma new_size_returns mw img :
  1 <= mw < width img -> fits_float img ->
  returns (new_size mw img) (fun _ => True).
Proof.
  intros Hw [Fw Fh]. unfold new_size.
  destruct (resized_height_defined (height img) mw (width img)
              ltac:(lia) ltac:(lia) Fh) as [ratio [z [Er Ez]]].
  eapply returns_bind with (P1 := fun r => r = ratio).
  { eapply returns_lift; [exact Er | reflexivity]. }
  intros r ->.
  eapply returns_bind with (P1 := fun _ => True).
  { eapply returns_lift; [exact Ez | exact I]. }
  intros h _. apply returns_ret. exact I.
Qed.

Lemma oriented_fits img : fits_float img -> fits_float (oriented img).
Proof.
  intros [Fw Fh]. unfold oriented.
  destruct (orientation img) as [o|]; [|split; assumption].
  destruct (transpose_method o) as [m|]; [|split; assumption].
  unfold fits_float, transposed. cbn [width height].
  destruct (swaps_axes m); split; assumption.
Qed.

Lemma transcode_returns img0 max_width quality want strip_metadata :
  no_fault B ->
  match max_width with Some mw => 1 <= mw | None => True end ->
  fits_float img0 ->
  returns (transcode B img0 max_width quality want strip_metadata)
    (fun _ => True).
Proof.
  intros NF Hw Hfit. unfold transcode.
  eapply returns_bind with (P1 := fits_float).
  { apply returns_invoke; [exact NF | apply oriented_fits, Hfit]. }
  intros img Himg.
  eapply returns_bind with (P1 := fits_float).
  { unfold convert_palette. destruct (mode img =? "P");
      [apply returns_invoke; [exact NF | exact Himg]
      | apply returns_ret; exact Himg]. }
  intros img1 Himg1.
  eapply returns_bind with (P1 := fun _ => True).
  { unfold resize_if_needed.
    destruct max_width as [mw|]; [|apply returns_ret; exact I].
    destruct (Py.truthy_int (Some mw) && (width img1 >? mw)) eqn:E;
      [|apply returns_ret; exact I].
    apply andb_true_iff in E. destruct E as [_ E].
    eapply returns_bind; [apply new_size_returns; [lia | exact Himg1]|].
    intros sz _. apply returns_invoke; [exact NF | exact I]. }
  intros img2 _.
  destruct (_choose_output_format (mode img2) want) as [fmt ext] eqn:Hch.
  eapply returns_bind with (P1 := fun _ => True).
  { unfold flatten_for_jpeg.
    rewrite (selected_not_composited _ _ _ _ Hch).
    destruct ((fmt =? "JPEG") && negb (mode img2 =? "RGB"));
      [apply returns_invoke; [exact NF | exact I] | apply returns_ret; exact I]. }
  intros img3 _. cbv zeta.
  eapply returns_bind with (P1 := fun _ => True);
    [apply returns_invoke; [exact NF | exact I]|].
  intros data _. apply returns_ret. exact I.
Qed.

Lemma compress_image_returns file max_width quality want strip_metadata img0 :
  no_fault B ->
  valid_options max_width quality ->
  decode B file = inr img0 ->
  fits_float img0 ->
  exists log data,
    compress_image B file max_width quality want strip_metadata =
    (log, inr (data,
               content_type_of (fst (selected (oriented img0) want)),
               snd (selected (oriented img0) want))).
Proof.
  intros NF Hv Hd Hfit.
  pose proof (compress_image_expected file max_width quality want
                strip_metadata img0 Hv Hd) as [_ Hr].
  rewrite (compress_image_valid _ _ _ _ _ Hv), Hd in Hr |- *.
  destruct (transcode_returns img0 max_width quality want strip_metadata NF
              (proj2 Hv) Hfit [CallOpen file])
    as [log [[[data ct] ext] [E _]]].
  rewrite E in Hr |- *. cbn in Hr. destruct Hr as [-> ->].
  exists log, data. reflexivity.
Qed.

(** The three ways a call can go: rejected options, rejected bytes, or a
    decoded image entering the pipeline. *)
Lemma compress_image_cases file max_width quality want strip_metadata :
  (~ valid_options max_width quality /\
   exists msg, compress_image B file max_width quality want strip_metadata =
               ([], inl (ValueError msg))) \/
  (valid_options max_width quality /\
   exists d, decode B file = inl d /\
             compress_image B file max_width quality want strip_metadata =
             ([CallOpen file],
              inl (IOError ("Cannot open image file: " ++ d)))) \/
  (valid_options max_width quality /\
   exists img0, decode B file = inr img0).
Proof.
  destruct ((quality <? 1) || (quality >? 100))%Z eqn:Eq1.
  - left. split; [intros [Hq _]; lia|].
    unfold compress_image. rewrite Eq1. eexists. reflexivity.
  - destruct (match max_width with
              | Some mw => (mw <? 1)%Z
              | None => false
              end) eqn:Eq2.
    + left. split.
      * intros [_ Hw]. destruct max_width; [lia|discriminate].
      * unfold compress_image. rewrite Eq1, Eq2. eexists. reflexivity.
    + assert (Hv : valid_options max_width quality).
      { split; [lia|]. destruct max_width; [lia|exact I]. }
      right. destruct (decode B file) as [d|img0] eqn:Hd.
      * left. split; [exact Hv|]. exists d. split; [reflexivity|].
        rewrite (compress_image_valid _ _ _ _ _ Hv), Hd. reflexivity.
      * right. split; [exact Hv|]. exists img0. reflexivity.
Qed.

End Runs.

(** ** Properties of the format selector and of the validation *)

Section Claims.
Import PIL Spec image_utils.
Local Open Scope Z_scope.
Local Open Scope string_scope.

Lemma str_in_cases3 x a b c :
  Py.str_in x [a; b; c] = true -> x = a \/ x = b \/ x = c.
Proof.
  unfold Py.str_in. cbn. intros H.
  repeat (apply orb_prop in H; destruct H as [H|H]);
    try (apply String.eqb_eq in H; auto); discriminate.
Qed.

Lemma oriented_mode img : mode (oriented img) = mode img.
Proof.
  unfold oriented. destruct (orientation img) as [o|]; [|reflexivity].
  destruct (transpose_method o); reflexivity.
Qed.

(** C7. The format selector [_choose_output_format] is total and
    deterministic: on every pair of inputs it returns one of the two
    supported pairs; a requested format that is not one of the supported
    names (compared after upper-casing, as the code does) yields the WEBP
    default with extension ".webp"; and equal inputs give equal outputs. *)
Theorem choose_output_format_total_deterministic :
  forall src_mode want,
    (_choose_output_format src_mode want = ("WEBP", ".webp") \/
     _choose_output_format src_mode want = ("JPEG", ".jpg")) /\
    (Py.str_in (Py.upper want) SUPPORTED_OUTPUTS = false ->
     _choose_output_format src_mode want = ("WEBP", ".webp")) /\
    (forall src_mode' want',
       src_mode' = src_mode -> want' = want ->
       _choose_output_format src_mode' want' =
       _choose_output_format src_mode want).
Proof.
  intros src_mode want. split; [apply choose_cases|]. split.
  - intros Hno. unfold _choose_output_format. rewrite Hno.
    destruct ((Py.upper want =? "JPEG")
              && Py.str_in src_mode ["RGBA"; "LA"; "P"]); reflexivity.
  - intros ? ? -> ->. reflexivity.
Qed.

(** The selector on the finite domain of the specification:
    {RGB, RGBA, LA, P, L} x {WEBP, JPEG, other}. *)
Example choose_output_format_table :
  map (fun m => map (fun w => fst (_choose_output_format m w))
                 ["WEBP"; "JPEG"; "PNG"])
      ["RGB"; "RGBA"; "LA"; "P"; "L"]
  = [ ["WEBP"; "JPEG"; "WEBP"];
      ["WEBP"; "WEBP"; "WEBP"];
      ["WEBP"; "WEBP"; "WEBP"];
      ["WEBP"; "WEBP"; "WEBP"];
      ["WEBP"; "JPEG"; "WEBP"] ].
Proof. reflexivity. Qed.

(** C3. A call of [compress_image] with [quality] outside [1,100], or with
    a [max_width] that is present and below 1, raises the validation error
    ([ValueError]) with an empty call log: the source bytes are never
    opened. This holds whatever the other arguments and the library are. *)
Theorem invalid_options_rejected_before_decoding :
  forall (B : backend) file max_width quality want strip_metadata,
    (quality < 1 \/ 100 < quality \/
     exists mw, max_width = Some mw /\ mw < 1) ->
    exists msg,
      compress_image B file max_width quality want strip_metadata =
      ([], inl (ValueError msg)).
Proof.
  intros B file max_width quality want strip_metadata H.
  destruct (compress_image_cases B file max_width quality want strip_metadata)
    as [[_ Hr] | [[[Hq Hw] _] | [[Hq Hw] _]]]; [exact Hr | exfalso ..];
    (destruct H as [H | [H | [mw [-> H]]]]; [lia | lia | cbn in Hw; lia]).
Qed.

Lemma invalid_options_rejected_witness :
  (exists msg,
     compress_image Samples.sample_backend
       (Samples.upload "PNG rgba 2000x1000") None 0 "WEBP" true =
     ([], inl (ValueError msg))) /\
  (exists msg,
     compress_image Samples.sample_backend
       (Samples.upload "PNG rgba 2000x1000") None 101 "WEBP" true =
     ([], inl (ValueError msg))) /\
  (exists msg,
     compress_image Samples.sample_backend
       (Samples.upload "PNG rgba 2000x1000") (Some 0) 75 "WEBP" true =
     ([], inl (ValueError msg))).
Proof.
  split; [|split]; apply invalid_options_rejected_before_decoding.
  - left. lia.
  - right. left. lia.
  - right. right. exists 0. split; [reflexivity | lia].
Defined.

(** C8. When the bytes are not a readable image, [compress_image] never
    returns a result. With valid options it raises [IOError], the decode
    error of the package, whose message ends with the diagnostic of the
    codec; and nothing is handed to the encoder. *)
Theorem undecodable_bytes_raise_decode_error :
  forall (B : backend) file max_width quality want strip_metadata diagnostic,
    undecodable B file diagnostic ->
    (forall r,
       snd (compress_image B file max_width quality want strip_metadata)
       <> inr r) /\
    (valid_options max_width quality ->
     exists prefix,
       snd (compress_image B file max_width quality want strip_metadata) =
       inl (IOError (prefix ++ diagnostic))) /\
    (forall im fmt kw,
       ~ In (CallSave im fmt kw)
           (fst (compress_image B file max_width quality want
                   strip_metadata))).
Proof.
  intros B file max_width quality want strip_metadata d Hu.
  destruct (compress_image_cases B file max_width quality want strip_metadata)
    as [[Hnv [msg E]] | [[Hv [d' [Hd E]]] | [Hv [img0 Hd]]]].
  - rewrite E. cbn. repeat split; [discriminate | tauto | tauto].
  - rewrite E. cbn. split; [discriminate|]. split.
    + intros _. exists "Cannot open image file: ".
      assert (d' = d) as -> by (destruct Hu as [Hu | [img [Hu _]]]; congruence).
      reflexivity.
    + intros im fmt kw [H|[]]. discriminate.
  - destruct Hu as [Hu | [img [Hi Hf]]]; [congruence|].
    assert (img = img0) by congruence. subst img.
    rewrite (compress_image_valid _ _ _ _ _ _ Hv), Hd.
    unfold transcode, exif_transpose, bind, invoke. rewrite Hf. cbn.
    split; [discriminate|]. split.
    + intros _. exists "Image compression failed: ". reflexivity.
    + intros im fmt kw [H|[H|[]]]; discriminate.
Qed.

Lemma undecodable_bytes_witness :
  (exists prefix,
     snd (compress_image Samples.strict_backend
            (Samples.upload "not an image") (Some 800) 75 "JPEG" true) =
     inl (IOError (prefix ++ "cannot identify image file"))) /\
  (exists prefix,
     snd (compress_image Samples.strict_backend
            (Samples.upload "JPEG rgb 400x300 truncated") (Some 800) 75
            "JPEG" true) =
     inl (IOError (prefix
                   ++ "image file is truncated (0 bytes not processed)"))).
Proof.
  split.
  - apply (undecodable_bytes_raise_decode_error Samples.strict_backend
             (Samples.upload "not an image") (Some 800) 75 "JPEG" true).
    + left. reflexivity.
    + split; cbn; lia.
  - apply (undecodable_bytes_raise_decode_error Samples.strict_backend
             (Samples.upload "JPEG rgb 400x300 truncated") (Some 800) 75
             "JPEG" true).
    + right. eexists. split; reflexivity.
    + split; cbn; lia.
Defined.

Lemma expected_not_composite src max_width quality want c :
  expected_call src max_width quality want c -> composite_call c = false.
Proof. destruct c; cbn; intros H; solve [exact H | reflexivity]. Qed.

(** C10. The white-background compositing branch of [compress_image] is
    unreachable: the selector returns JPEG only for a mode other than
    RGBA and LA, and no call of [compress_image], with any library and any
    arguments, makes one of the compositing calls ([Image.new],
    [split], [paste]). *)
Theorem compositing_branch_unreachable :
  forall (B : backend) file max_width quality want strip_metadata,
    (forall src_mode,
       fst (_choose_output_format src_mode want) = "JPEG" ->
       src_mode <> "RGBA" /\ src_mode <> "LA") /\
    existsb composite_call
      (fst (compress_image B file max_width quality want strip_metadata))
    = false.
Proof.
  intros B file max_width quality want strip_metadata. split.
  - intros m Hj. apply jpeg_never_alpha in Hj.
    split; intros ->; discriminate.
  - destruct (compress_image_cases B file max_width quality want
                strip_metadata)
      as [[_ [msg E]] | [[_ [d [_ E]]] | [Hv [img0 Hd]]]];
      try (rewrite E; reflexivity).
    destruct (compress_image_expected B file max_width quality want
                strip_metadata img0 Hv Hd) as [Hl _].
    destruct (existsb composite_call _) eqn:Ex; [|reflexivity].
    apply existsb_exists in Ex. destruct Ex as [c [Hin Hc]].
    rewrite Forall_forall in Hl.
    apply Hl, expected_not_composite in Hin. congruence.
Qed.

(** C4. Whenever [compress_image] returns, the extension and the content
    type are one of the two matching pairs: ".webp" with "image/webp", or
    ".jpg" with "image/jpeg". *)
Theorem returned_extension_matches_content_type :
  forall (B : backend) file max_width quality want strip_metadata
         log data content_type ext,
    compress_image B file max_width quality want strip_metadata =
    (log, inr (data, content_type, ext)) ->
    (ext = ".webp" /\ content_type = "image/webp") \/
    (ext = ".jpg" /\ content_type = "image/jpeg").
Proof.
  intros B file max_width quality want strip_metadata log data ct ext E.
  destruct (compress_image_cases B file max_width quality want strip_metadata)
    as [[_ [msg E']] | [[_ [d [_ E']]] | [Hv [img0 Hd]]]];
    try (rewrite E' in E; discriminate).
  destruct (compress_image_expected B file max_width quality want
              strip_metadata img0 Hv Hd) as [_ Hr].
  rewrite E in Hr. cbn in Hr. destruct Hr as [-> ->].
  unfold selected.
  destruct (choose_cases (depalettized (mode (oriented img0))) want) as [H|H];
    rewrite H; [left | right]; split; reflexivity.
Qed.

Lemma returned_extension_witness :
  exists log,
    compress_image Samples.sample_backend
      (Samples.upload "JPEG rgb 400x300") (Some 800) 75 "JPEG" true
    = (log, inr ("JPEG 400x300", "image/jpeg", ".jpg")) /\
    ((".jpg" = ".webp" /\ "image/jpeg" = "image/webp") \/
     (".jpg" = ".jpg" /\ "image/jpeg" = "image/jpeg")).
Proof.
  eexists. split.
  - vm_compute. reflexivity.
  - eapply (returned_extension_matches_content_type Samples.sample_backend
              (Samples.upload "JPEG rgb 400x300") (Some 800) 75 "JPEG" true).
    vm_compute. reflexivity.
Defined.

Lemma selected_alpha_jpeg img0 want :
  Py.str_in (mode img0) ["RGBA"; "LA"; "P"] = true ->
  Py.upper want = "JPEG" ->
  selected (oriented img0) want = ("WEBP", ".webp").
Proof.
  intros Ha Hw. unfold selected. rewrite oriented_mode.
  apply choose_alpha_jpeg; [|exact Hw].
  destruct (str_in_cases3 _ _ _ _ Ha) as [-> | [-> | ->]]; reflexivity.
Qed.

(** C2. For a source whose colour mode may carry transparency (RGBA, LA or
    palette) and a request for JPEG, the selector answers WEBP; a call of
    [compress_image] on such a source hands the encoder the format WEBP
    only, returns content type "image/webp" with extension ".webp"
    whenever it returns, and does return when the library raises nowhere
    (dimensions below 2^53, which binary64 represents exactly). *)
Theorem alpha_source_requested_as_jpeg_yields_webp :
  forall (B : backend) file max_width quality want strip_metadata img0,
    valid_options max_width quality ->
    decode B file = inr img0 ->
    Py.str_in (mode img0) ["RGBA"; "LA"; "P"] = true ->
    Py.upper want = "JPEG" ->
    _choose_output_format (mode img0) want = ("WEBP", ".webp") /\
    (forall im fmt kw,
       In (CallSave im fmt kw)
          (fst (compress_image B file max_width quality want strip_metadata))
       -> fmt = "WEBP") /\
    (forall data content_type ext,
       snd (compress_image B file max_width quality want strip_metadata) =
       inr (data, content_type, ext) ->
       content_type = "image/webp" /\ ext = ".webp") /\
    (no_fault B -> fits_float img0 ->
     exists data,
       snd (compress_image B file max_width quality want strip_metadata) =
       inr (data, "image/webp", ".webp")).
Proof.
  intros B file max_width quality want strip_metadata img0 Hv Hd Ha Hw.
  pose proof (selected_alpha_jpeg img0 want Ha Hw) as Hsel.
  destruct (compress_image_expected B file max_width quality want
              strip_metadata img0 Hv Hd) as [Hl Hr].
  split; [apply choose_alpha_jpeg; assumption|]. split; [|split].
  - intros im fmt kw Hin. rewrite Forall_forall in Hl.
    apply Hl in Hin. cbn in Hin. destruct Hin as [-> _].
    rewrite Hsel. reflexivity.
  - intros data ct ext E. rewrite E in Hr. destruct Hr as [-> ->].
    rewrite Hsel. split; reflexivity.
  - intros NF Hfit.
    destruct (compress_image_returns B file max_width quality want
                strip_metadata img0 NF Hv Hd Hfit) as [log [data E]].
    exists data. rewrite E, Hsel. reflexivity.
Qed.

(** End-to-end scenario A of the specification: a 2000x1000 RGBA source,
    [max_width = 800], [quality = 75], JPEG requested. *)
Lemma alpha_source_witness :
  exists data,
    snd (compress_image Samples.sample_backend
           (Samples.upload "PNG rgba 2000x1000") (Some 800) 75 "JPEG" true) =
    inr (data, "image/webp", ".webp").
Proof.
  apply (alpha_source_requested_as_jpeg_yields_webp Samples.sample_backend
           (Samples.upload "PNG rgba 2000x1000") (Some 800) 75 "JPEG" true
           (Samples.picture "RGBA" 2000 1000 None "PNG rgba 2000x1000")).
  - split; cbn; lia.
  - reflexivity.
  - reflexivity.
  - reflexivity.
  - intros c. reflexivity.
  - split; cbn; lia.
Defined.

Lemma band_count_pos m : band_count m = S (band_count m - 1).
Proof.
  unfold band_count.
  destruct (Py.str_in m ["RGBA"; "CMYK"; "RGBX"; "RGBa"]); [reflexivity|].
  destruct (Py.str_in m ["RGB"; "YCbCr"; "LAB"; "HSV"]); [reflexivity|].
  destruct (Py.str_in m ["LA"; "La"; "PA"]); reflexivity.
Qed.

Lemma last_item_bands (Q : pil_call -> Prop) img :
  triple Q (last_item (bands img))
    (fun mask => pixels mask = Band (band_count (mode img) - 1) (pixels img)).
Proof.
  unfold last_item, bands. rewrite (band_count_pos (mode img)) at 1.
  rewrite seq_S, map_app, rev_app_distr. cbn [map rev app Nat.add].
  apply triple_ret. reflexivity.
Qed.

(** C5. Whenever the selected format is JPEG, the buffer given to the
    encoder has mode RGB, which has no alpha band. The step before the
    encoder returns, for the format JPEG, a buffer of mode RGB and
    unchanged size whose pixels are those the specification asks for:
    an RGBA or LA buffer pasted onto a new white (255,255,255) RGB image
    with its last band as the mask, any other non-RGB buffer converted
    to RGB. And in every call of [compress_image], an image saved as
    JPEG has mode RGB. *)
Theorem jpeg_buffer_has_no_alpha :
  forall (B : backend),
    (forall img,
       triple (fun _ => True) (flatten_for_jpeg B "JPEG" img)
         (fun img' => mode img' = "RGB" /\ size img' = size img /\
                      pixels img' = flattened_pixels img)) /\
    (forall file max_width quality want strip_metadata im fmt kw,
       In (CallSave im fmt kw)
          (fst (compress_image B file max_width quality want strip_metadata))
       -> fmt = "JPEG" -> mode im = "RGB").
Proof.
  intros B. split.
  - intros img. unfold flatten_for_jpeg, flattened_pixels.
    change ("JPEG" =? "JPEG") with true. cbn [andb].
    destruct (Py.str_in (mode img) ["RGBA"; "LA"]).
    + eapply triple_bind with
        (P1 := fun bg => mode bg = "RGB" /\ size bg = size img /\
                         pixels bg = Solid "RGB" (size img) (255, 255, 255)).
      { apply triple_invoke; [exact I|]. repeat split. }
      intros bg [Hm [Hs Hp]].
      eapply triple_bind with (P1 := fun channels => channels = bands img).
      { apply triple_invoke; [exact I | reflexivity]. }
      intros channels ->.
      eapply triple_bind; [apply last_item_bands|].
      intros mask Hmask.
      apply triple_invoke; [exact I|]. cbn.
      rewrite Hp, Hmask. repeat split; [exact Hm | exact Hs].
    + destruct (mode img =? "RGB") eqn:E; cbn [negb].
      * apply triple_ret. apply String.eqb_eq in E. auto.
      * apply triple_invoke; [exact I|]. repeat split.
  - intros file max_width quality want strip_metadata im fmt kw Hin Hj.
    destruct (compress_image_cases B file max_width quality want
                strip_metadata)
      as [[_ [msg E]] | [[_ [d [_ E]]] | [Hv [img0 Hd]]]].
    + rewrite E in Hin. destruct Hin.
    + rewrite E in Hin. destruct Hin as [H|[]]. discriminate.
    + destruct (compress_image_expected B file max_width quality want
                  strip_metadata img0 Hv Hd) as [Hl _].
      rewrite Forall_forall in Hl. apply Hl in Hin. cbn in Hin.
      destruct Hin as [Hf [_ [Hm _]]].
      rewrite Hm. unfold output_mode. rewrite <- Hf, Hj. reflexivity.
Qed.

(** The compositing step on an RGBA buffer, and scenario B of the
    specification saved as JPEG. *)
Example flatten_rgba_over_white :
  snd (flatten_for_jpeg Samples.sample_backend "JPEG"
         (Samples.picture "RGBA" 2 2 None "px") [])
  = inr {| mode := "RGB"; width := 2; height := 2; orientation := None;
           info := [];
           pixels := Pasted (Solid "RGB" (2, 2) (255, 255, 255))
                       (Decoded "px") (Band 3 (Decoded "px")) |}.
Proof. reflexivity. Qed.

Lemma jpeg_buffer_witness :
  exists im kw,
    In (CallSave im "JPEG" kw)
       (fst (compress_image Samples.sample_backend
               (Samples.upload "PNG l 640x480") None 75 "jpeg" true)) /\
    mode im = "RGB".
Proof.
  pose proof (proj2 (jpeg_buffer_has_no_alpha Samples.sample_backend)
                (Samples.upload "PNG l 640x480") None 75 "jpeg" true) as H.
  assert (Hin : exists im kw,
             In (CallSave im "JPEG" kw)
                (fst (compress_image Samples.sample_backend
                        (Samples.upload "PNG l 640x480") None 75 "jpeg"
                        true))).
  { do 2 eexists. vm_compute. do 3 right. left. reflexivity. }
  destruct Hin as [im [kw Hin]].
  exists im, kw. split; [exact Hin | exact (H im "JPEG" kw Hin eq_refl)].
Defined.

(** ** Properties of the resize step *)

(** The binary64 computation against round-to-nearest on the rationals,
    on the heights of a few resizes (height, max_width, width). *)
Example resized_height_matches_rounding :
  map (fun t => resized_height (fst (fst t)) (snd (fst t)) (snd t))
    [(7, 2, 8); (49, 1, 49); (1000, 800, 2000); (400, 350, 300);
     (3024, 1024, 4032); (1080, 800, 1920); (3, 1, 3); (2999, 1000, 3000)]
  = map (fun t =>
           Qfloor (Rounding.RN
                     (inject_Z (fst (fst t))
                      * Rounding.RN (inject_Z (snd (fst t)) / inject_Z (snd t)))))
    [(7, 2, 8); (49, 1, 49); (1000, 800, 2000); (400, 350, 300);
     (3024, 1024, 4032); (1080, 800, 1920); (3, 1, 3); (2999, 1000, 3000)].
Proof. vm_compute. reflexivity. Qed.

Example resized_height_samples :
  map (fun t => resized_height (fst (fst t)) (snd (fst t)) (snd t))
    [(7, 2, 8); (49, 1, 49); (1000, 800, 2000); (2999, 1000, 3000)]
  = [1; 0; 400; 999].
Proof. vm_compute. reflexivity. Qed.

Lemma resizes_false_cases max_width img :
  max_width = None \/ (exists mw, max_width = Some mw /\ width img <= mw) ->
  resizes max_width img = false.
Proof.
  intros [-> | [mw [-> Hle]]]; [reflexivity|].
  unfold resizes. apply andb_false_iff. right. lia.
Qed.

Lemma output_size_unchanged max_width img :
  resizes max_width img = false -> output_size max_width img = size img.
Proof.
  unfold resizes, output_size. destruct max_width as [mw|]; [|reflexivity].
  intros ->. reflexivity.
Qed.

Lemma output_size_resized mw img :
  1 <= mw -> mw < width img ->
  output_size (Some mw) img
  = (mw, resized_height (height img) mw (width img)).
Proof.
  intros H1 H2. unfold output_size.
  assert (E : Py.truthy_int (Some mw) && (width img >? mw) = true).
  { apply andb_true_iff. split; [cbn|]; lia. }
  rewrite E. reflexivity.
Qed.

Lemma resize_if_needed_unchanged B max_width img log :
  resizes max_width img = false ->
  resize_if_needed B max_width img log = (log, inr img).
Proof.
  unfold resizes, resize_if_needed. destruct max_width as [mw|]; [|reflexivity].
  intros ->. reflexivity.
Qed.


Lemma oriented_fits_inv img : fits_float (oriented img) -> fits_float img.
Proof.
  unfold oriented.
  destruct (orientation img) as [o|]; [|auto].
  destruct (transpose_method o) as [m|]; [|auto].
  unfold fits_float, transposed. cbn [width height].
  destruct (swaps_axes m); intros [H1 H2]; split; assumption.
Qed.

Lemma saved_size B file max_width quality want strip_metadata img0 im fmt kw :
  valid_options max_width quality ->
  decode B file = inr img0 ->
  In (CallSave im fmt kw)
     (fst (compress_image B file max_width quality want strip_metadata)) ->
  size im = output_size max_width (oriented img0).
Proof.
  intros Hv Hd Hin.
  destruct (compress_image_expected B file max_width quality want
              strip_metadata img0 Hv Hd) as [Hl _].
  rewrite Forall_forall in Hl. apply Hl in Hin. cbn in Hin. tauto.
Qed.

Lemma bind_inr {A C} (m : Lib A) (k : A -> Lib C) log log' c :
  bind m k log = (log', inr c) ->
  exists log1 a, m log = (log1, inr a) /\ k a log1 = (log', inr c).
Proof.
  unfold bind. destruct (m log) as [log1 [e|a]]; [discriminate|].
  intros H. exists log1, a. auto.
Qed.

(** A run of the pipeline that returns has called [save]. *)
Lemma transcode_saves B img0 max_width quality want strip_metadata log log' r :
  transcode B img0 max_width quality want strip_metadata log = (log', inr r) ->
  exists im fmt kw, In (CallSave im fmt kw) log'.
Proof.
  unfold transcode. intros H.
  apply bind_inr in H. destruct H as [l1 [img [_ H]]].
  apply bind_inr in H. destruct H as [l2 [img1 [_ H]]].
  apply bind_inr in H. destruct H as [l3 [img2 [_ H]]].
  destruct (_choose_output_format (mode img2) want) as [fmt ext].
  apply bind_inr in H. destruct H as [l4 [img3 [_ H]]].
  cbv zeta in H.
  apply bind_inr in H. destruct H as [l5 [data [Hs H]]].
  unfold ret in H. injection H as <- _.
  unfold save, invoke in Hs. injection Hs as <- _.
  do 3 eexists. apply in_or_app. right. left. reflexivity.
Qed.

Lemma compress_image_saves B file max_width quality want strip_metadata log r :
  compress_image B file max_width quality want strip_metadata = (log, inr r) ->
  exists im fmt kw, In (CallSave im fmt kw) log.
Proof.
  intros E.
  destruct (compress_image_cases B file max_width quality want strip_metadata)
    as [[_ [msg E']] | [[_ [d [_ E']]] | [Hv [img0 Hd]]]];
    try (rewrite E' in E; discriminate).
  rewrite (compress_image_valid _ _ _ _ _ _ Hv), Hd in E.
  destruct (transcode B img0 max_width quality want strip_metadata
              [CallOpen file]) as [l [e|r']] eqn:Et; [discriminate|].
  injection E as <- <-. eapply transcode_saves. exact Et.
Qed.

(** C6. When [max_width] is unset, or the width of the buffer entering
    the resize step (the image after EXIF orientation) is at most
    [max_width], the step returns the very same buffer without calling the
    library, and the image [compress_image] saves has the dimensions of
    the oriented image - those of the decoded image when it carries no
    orientation tag. The step never increases a dimension (images of at
    most 2^51 pixels). *)
Theorem no_resize_when_within_max_width :
  forall (B : backend),
    (forall max_width img log,
       max_width = None \/
       (exists mw, max_width = Some mw /\ width img <= mw) ->
       resize_if_needed B max_width img log = (log, inr img)) /\
    (forall max_width img log log' img',
       match max_width with Some mw => 1 <= mw | None => True end ->
       0 <= height img ->
       width img * height img <= 2 ^ 51 ->
       resize_if_needed B max_width img log = (log', inr img') ->
       width img' <= width img /\ height img' <= height img) /\
    (forall file max_width quality want strip_metadata img0 im fmt kw,
       valid_options max_width quality ->
       decode B file = inr img0 ->
       max_width = None \/
       (exists mw, max_width = Some mw /\ width (oriented img0) <= mw) ->
       In (CallSave im fmt kw)
          (fst (compress_image B file max_width quality want strip_metadata))
       -> size im = size (oriented img0) /\
          (orientation img0 = None -> size im = size img0)).
Proof.
  intros B. split; [|split].
  - intros max_width img log H.
    apply resize_if_needed_unchanged, resizes_false_cases, H.
  - intros max_width img log log' img' Hmw Hh Hpx E.
    assert (Hs : size img' = output_size max_width img).
    { assert (HT : Forall (fun _ : pil_call => True) log)
        by (apply Forall_forall; auto).
      destruct (resize_if_needed_triple B (fun _ => True) (fun _ _ _ => I)
                  max_width img log HT) as [_ Hp].
      rewrite E in Hp. destruct (Hp img' eq_refl) as [_ [Hs _]]. exact Hs. }
    destruct (resizes max_width img) eqn:Er.
    + destruct max_width as [mw|]; [|discriminate].
      unfold resizes in Er. apply andb_true_iff in Er. destruct Er as [_ Er].
      rewrite output_size_resized in Hs by lia.
      unfold size in Hs. injection Hs as Hw' Hh'. rewrite Hw', Hh'.
      split; [lia|].
      destruct (Z.eq_dec (height img) 0) as [E0|E0].
      * rewrite E0, resized_height_zero. lia.
      * pose proof (resized_height_bounds (height img) mw (width img)
                      ltac:(lia) ltac:(lia) ltac:(nia) ltac:(nia)) as Hb.
        nia.
    + rewrite output_size_unchanged in Hs by exact Er.
      unfold size in Hs. injection Hs as -> ->. lia.
  - intros file max_width quality want strip_metadata img0 im fmt kw
           Hv Hd Hw Hin.
    pose proof (saved_size B file max_width quality want strip_metadata
                  img0 im fmt kw Hv Hd Hin) as Hs.
    rewrite output_size_unchanged in Hs by (apply resizes_false_cases, Hw).
    split; [exact Hs|].
    intros Ho. rewrite Hs. unfold oriented. rewrite Ho. reflexivity.
Qed.

(** Scenario B of the specification: 400x300 within a limit of 800. *)
Lemma no_resize_witness :
  exists im fmt kw,
    In (CallSave im fmt kw)
       (fst (compress_image Samples.sample_backend
               (Samples.upload "JPEG rgb 400x300") (Some 800) 75 "JPEG"
               true)) /\
    size im = (400, 300).
Proof.
  pose proof (proj2 (proj2 (no_resize_when_within_max_width
                              Samples.sample_backend))
                (Samples.upload "JPEG rgb 400x300") (Some 800) 75 "JPEG" true
                (Samples.picture "RGB" 400 300 None "JPEG rgb 400x300")) as H.
  assert (Hin : exists im fmt kw,
             In (CallSave im fmt kw)
                (fst (compress_image Samples.sample_backend
                        (Samples.upload "JPEG rgb 400x300") (Some 800) 75
                        "JPEG" true))).
  { do 3 eexists. vm_compute. do 2 right. left. reflexivity. }
  destruct Hin as [im [fmt [kw Hin]]].
  exists im, fmt, kw. split; [exact Hin|].
  assert (Hv : valid_options (Some 800) 75) by (split; cbn; lia).
  assert (Hw : Some 800 = None \/
               (exists mw, Some 800 = Some mw /\
                           width (oriented (Samples.picture "RGB" 400 300 None
                                              "JPEG rgb 400x300")) <= mw))
    by (right; exists 800; split; [reflexivity | cbn; lia]).
  exact (proj1 (H im fmt kw Hv eq_refl Hw Hin)).
Defined.











(** End-to-end scenarios A, B and C of the specification, and a rotated
    source, on the sample codec. *)
Example scenario_A :
  snd (compress_image Samples.sample_backend
         (Samples.upload "PNG rgba 2000x1000") (Some 800) 75 "JPEG" true)
  = inr ("WEBP 800x400", "image/webp", ".webp").
Proof. vm_compute. reflexivity. Qed.

Example scenario_B :
  snd (compress_image Samples.sample_backend
         (Samples.upload "JPEG rgb 400x300") (Some 800) 75 "JPEG" true)
  = inr ("JPEG 400x300", "image/jpeg", ".jpg").
Proof. vm_compute. reflexivity. Qed.

Example scenario_C :
  compress_image Samples.sample_backend
    (Samples.upload "not an image") (Some 800) 75 "JPEG" true
  = ([CallOpen (Samples.upload "not an image")],
     inl (IOError "Cannot open image file: cannot identify image file")).
Proof. vm_compute. reflexivity. Qed.

Example scenario_rotated :
  snd (compress_image Samples.sample_backend
         (Samples.upload "JPEG rgb 300x400 rotated") (Some 350) 75 "JPEG" true)
  = inr ("JPEG 350x262", "image/jpeg", ".jpg").
Proof. vm_compute. reflexivity. Qed.

(** An 8x7 image limited to width 1: the height 0.875 is truncated to 0,
    and Pillow refuses the size. *)
Example scenario_empty_height :
  snd (compress_image Samples.strict_backend
         (Samples.upload "JPEG rgb 8x7") (Some 1) 75 "JPEG" true)
  = inl (IOError "Image compression failed: height and width must be > 0").
Proof. vm_compute. reflexivity. Qed.

End Claims.

(** ** Cache purge *)

Section Purge.
Import bunny.
Local Open Scope Z_scope.
Local Open Scope string_scope.
Variable net : Type.
Variable post : string -> string -> string -> net -> post_result * net.

Lemma purge_loop_attempts api key urls :
  forall succ fail w,
    fst (purge_loop net post api key urls succ fail w) =
    {| success :=
         succ ++ map fst (filter snd (purge_attempts net post api key urls w));
       failed :=
         fail ++ map fst (filter (fun a => negb (snd a))
                            (purge_attempts net post api key urls w)) |}.
Proof.
  induction urls as [|url rest IH]; intros succ fail w;
    cbn [purge_loop purge_attempts].
  - rewrite !app_nil_r. reflexivity.
  - destruct (negb (Py.truthy_str url)); [apply IH|].
    destruct (purge_one net post api key url w) as [[|] w'];
      rewrite IH; cbn [filter snd fst map negb];
      rewrite <- app_assoc; reflexivity.
Qed.

Lemma purge_attempts_urls api key urls :
  forall w,
    map fst (purge_attempts net post api key urls w)
    = filter Py.truthy_str urls.
Proof.
  induction urls as [|url rest IH]; intros w; cbn [purge_attempts filter].
  - reflexivity.
  - destruct (Py.truthy_str url); cbn [negb]; [|apply IH].
    destruct (purge_one net post api key url w) as [ok w'].
    cbn [map fst]. rewrite IH. reflexivity.
Qed.

Lemma split_by_verdict (l : list (string * bool)) :
  Permutation
    (map fst (filter snd l) ++ map fst (filter (fun a => negb (snd a)) l))
    (map fst l).
Proof.
  induction l as [|[url ok] l IH]; [constructor|].
  cbn [filter snd fst map negb]. destruct ok; cbn [negb map fst app].
  - constructor. exact IH.
  - apply Permutation_sym, Permutation_cons_app, Permutation_sym, IH.
Qed.

Lemma purge_one_verdict api key url w :
  fst (purge_one net post api key url w) = true <->
  exists code, fst (post api key url w) = Response code /\
               (code < 400 \/ 600 <= code).
Proof.
  unfold purge_one, raise_for_status.
  destruct (post api key url w) as [[code|msg|msg] w']; cbn [fst].
  - destruct ((400 <=? code) && (code <? 600))%Z eqn:E; cbn [fst]; split.
    + discriminate.
    + intros [c [Hc Hr]]. injection Hc as <-. lia.
    + intros _. exists code. split; [reflexivity | lia].
    + reflexivity.
  - split; [discriminate|]. intros [c [Hc _]]. discriminate.
  - split; [discriminate|]. intros [c [Hc _]]. discriminate.
Qed.

(** C9. For every list of URLs [purge_cache] returns the two lists. With
    the pull zone and the API key configured, one request is made per
    non-empty URL, in order; [success] holds exactly the URLs whose own
    request was answered without an error status, [failed] the others,
    whether the request raised or was answered with a 4xx or 5xx code, so
    that the two lists together are the non-empty URLs. A failed or
    raising request only moves its own URL to [failed]. Without
    configuration every URL is reported as failed. *)
Theorem purge_cache_reports_each_url :
  forall (s : settings) (urls : list string) (w : net),
    (forall api key url w0,
       fst (purge_one net post api key url w0) = true <->
       exists code, fst (post api key url w0) = Response code /\
                    (code < 400 \/ 600 <= code)) /\
    if configured s then
      map fst (purge_attempts net post (api_url s) (access_key s) urls w)
      = filter Py.truthy_str urls /\
      success (fst (purge_cache net post s urls w))
      = map fst (filter snd
                   (purge_attempts net post (api_url s) (access_key s) urls w))
      /\
      failed (fst (purge_cache net post s urls w))
      = map fst (filter (fun a => negb (snd a))
                   (purge_attempts net post (api_url s) (access_key s) urls w))
      /\
      Permutation
        (success (fst (purge_cache net post s urls w))
         ++ failed (fst (purge_cache net post s urls w)))
        (filter Py.truthy_str urls)
    else
      success (fst (purge_cache net post s urls w)) = [] /\
      failed (fst (purge_cache net post s urls w)) = urls.
Proof.
  intros s urls w. split; [apply purge_one_verdict|].
  unfold configured, purge_cache.
  destruct urls as [|u rest].
  - destruct (Py.truthy_opt_str (BUNNY_PULL_ZONE_ID s)
              && Py.truthy_opt_str (BUNNY_API_KEY s));
      cbn; repeat split; constructor.
  - destruct (Py.truthy_opt_str (BUNNY_PULL_ZONE_ID s)); cbn [negb andb];
      [|split; reflexivity].
    destruct (Py.truthy_opt_str (BUNNY_API_KEY s)); cbn [negb];
      [|split; reflexivity].
    cbv zeta. rewrite purge_loop_attempts. cbn [success failed app].
    split; [apply purge_attempts_urls|].
    split; [reflexivity|]. split; [reflexivity|].
    rewrite <- (purge_attempts_urls (api_url s) (access_key s) (u :: rest) w).
    apply split_by_verdict.
Qed.

End Purge.

(** Partial success on the sample network: two URLs purged, one refused,
    the empty entry skipped. *)
Example purge_cache_partial_success :
  fst (bunny.purge_cache nat Samples.sample_post Samples.sample_settings
         ["https://cdn.example/a.webp"; ""; "bad url";
          "https://cdn.example/b.webp"]%string 0%nat)
  = {| bunny.success := ["https://cdn.example/a.webp";
                         "https://cdn.example/b.webp"]%string;
       bunny.failed := ["bad url"%string] |}.
Proof. vm_compute. reflexivity. Qed.

(** ** Stripping slashes *)

Section Stripping.
Import PyStr Wire.
Local Open Scope string_scope.

Lemma append_nil_r (s : string) : s ++ "" = s.
Proof. induction s as [|a s IH]; cbn; [reflexivity | rewrite IH; reflexivity]. Qed.

Lemma append_assoc (a b c : string) : (a ++ b) ++ c = a ++ b ++ c.
Proof. induction a as [|x a IH]; cbn; [reflexivity | rewrite IH; reflexivity]. Qed.

Lemma append_length (a b : string) :
  String.length (a ++ b) = (String.length a + String.length b)%nat.
Proof. induction a as [|x a IH]; cbn; [reflexivity | rewrite IH; reflexivity]. Qed.

Lemma append_inv_head (a b c : string) : a ++ b = a ++ c -> b = c.
Proof.
  induction a as [|x a IH]; cbn; intros H; [exact H|].
  injection H as H. exact (IH H).
Qed.

Lemma lstrip_slashes c n s :
  c = "/"%char -> lstrip c (slashes n ++ s) = lstrip c s.
Proof.
  intros ->. induction n as [|n IH]; cbn [slashes append lstrip];
    [reflexivity|].
  rewrite Ascii.eqb_refl. exact IH.
Qed.

Lemma rstrip_cons c a s :
  rstrip c (String a s) =
  match rstrip c s with
  | EmptyString => if Ascii.eqb a c then EmptyString else String a EmptyString
  | kept => String a kept
  end.
Proof. reflexivity. Qed.

Lemma rstrip_snoc c s : rstrip c (s ++ String c "") = rstrip c s.
Proof.
  induction s as [|a s IH].
  - cbn. rewrite Ascii.eqb_refl. reflexivity.
  - change (String a s ++ String c "") with (String a (s ++ String c "")).
    rewrite !rstrip_cons, IH. reflexivity.
Qed.

Lemma rstrip_slashes c s n :
  c = "/"%char -> rstrip c (s ++ slashes n) = rstrip c s.
Proof.
  intros ->. revert s. induction n as [|n IH]; intros s; cbn [slashes].
  - rewrite append_nil_r. reflexivity.
  - change (String "/" (slashes n)) with (String "/" "" ++ slashes n).
    rewrite <- append_assoc, IH. apply rstrip_snoc.
Qed.

Lemma lstrip_rstrip_cons c s :
  lstrip c (rstrip c (String c s)) = lstrip c (rstrip c s).
Proof.
  rewrite rstrip_cons. destruct (rstrip c s) as [|b k].
  - rewrite Ascii.eqb_refl. reflexivity.
  - cbn [lstrip]. rewrite Ascii.eqb_refl. reflexivity.
Qed.

Lemma strip_slashes m s k :
  strip "/" (slashes m ++ s ++ slashes k) = strip "/" s.
Proof.
  unfold strip. rewrite <- append_assoc, rstrip_slashes by reflexivity.
  induction m as [|m IH]; cbn [slashes append]; [reflexivity|].
  rewrite lstrip_rstrip_cons. exact IH.
Qed.

Lemma lstrip_head c s :
  lstrip c s = "" \/
  exists a r, lstrip c s = String a r /\ Ascii.eqb a c = false.
Proof.
  induction s as [|a s IH]; cbn [lstrip]; [left; reflexivity|].
  destruct (Ascii.eqb a c) eqn:E; [exact IH|].
  right. exists a, s. split; [reflexivity | exact E].
Qed.

Lemma lstrip_fixed c a r :
  Ascii.eqb a c = false -> lstrip c (String a r) = String a r.
Proof. intros E. cbn [lstrip]. rewrite E. reflexivity. Qed.

Lemma lstrip_length c s : (String.length (lstrip c s) <= String.length s)%nat.
Proof.
  induction s as [|a s IH]; cbn [lstrip]; [apply le_n|].
  destruct (Ascii.eqb a c); cbn [String.length]; lia.
Qed.

(** A path that begins with a stripped, non-empty folder is left alone by
    [lstrip]; one that begins with a slash is shortened. *)
Lemma lstrip_after_strip folder rest :
  strip "/" folder <> "" ->
  lstrip "/" (strip "/" folder ++ rest) = strip "/" folder ++ rest.
Proof.
  intros Hne. unfold strip in *.
  destruct (lstrip_head "/" (rstrip "/" folder)) as [E | [a [r [E Ha]]]];
    [contradiction|].
  rewrite E. cbn [append]. apply lstrip_fixed, Ha.
Qed.

Lemma lstrip_shortens rest :
  lstrip "/" ("/" ++ rest) <> "/" ++ rest.
Proof.
  intros H. apply (f_equal String.length) in H.
  cbn [append lstrip] in H. rewrite Ascii.eqb_refl in H.
  cbn [String.length] in H.
  pose proof (lstrip_length "/" rest). lia.
Qed.

End Stripping.

(** ** The Storage API *)

Section Storage.
Import PyStr bunny_storage Wire.
Local Open Scope string_scope.
Variable net : Type.
Variable requests_put :
  string -> string -> string -> option string -> net -> put_result * net.
Variable requests_delete : string -> string -> net -> bunny.post_result * net.
Variable urljoin : string -> string -> string.
Variable splitext : string -> string * string.
Variable guess_extension : string -> option string.

Lemma or_else_not_empty a b : b <> "" -> or_else a b <> "".
Proof.
  intros Hb. unfold or_else, Py.truthy_str.
  destruct (a =? "") eqn:E; cbn [negb]; [exact Hb|].
  intros ->. discriminate.
Qed.

Lemma ext_from_not_empty file ext :
  _ext_from splitext guess_extension file = inr ext -> ext <> "".
Proof.
  unfold _ext_from. intros H.
  destruct (name file); try discriminate;
    injection H as <-; apply or_else_not_empty; discriminate.
Qed.

(** The one request [upload_bytes] makes on a recording network, and what
    it returns when the request succeeds. *)
Lemma upload_bytes_recorded s data folder base_name ctype ext (w : net) log r st :
  upload_bytes (recorded net) (recording_put net requests_put) urljoin s data
    folder base_name ctype ext (w, log) = (inr r, st) ->
  path r = strip "/" folder ++ "/" ++ base_name ++ ext /\
  url r = cdn_url_for urljoin s (path r) /\
  snd st = (log ++ [PUT (STORAGE_BASE s ++ path r) data
                      (BUNNY_STORAGE_PASSWORD s) (Some ctype)])%list /\
  exists code,
    requests_put (STORAGE_BASE s ++ path r) data (BUNNY_STORAGE_PASSWORD s)
      (Some ctype) w = (PutResponse code, fst st) /\
    bunny.raise_for_status code = None.
Proof.
  unfold upload_bytes, put, recording_put. cbn [fst snd].
  destruct (requests_put _ data (BUNNY_STORAGE_PASSWORD s) (Some ctype) w)
    as [[code|e] w'] eqn:E; [|discriminate].
  destruct (bunny.raise_for_status code) eqn:R; [discriminate|].
  intros H. injection H as <- <-. cbn [path url fst snd].
  repeat split. exists code. split; [exact E | exact R].
Qed.

Lemma delete_recorded s p (w : net) log :
  p <> "" ->
  snd (snd (delete (recorded net) (recording_delete net requests_delete) s p
              (w, log)))
  = (log ++ [DELETE (STORAGE_BASE s ++ lstrip "/" p)
               (BUNNY_STORAGE_PASSWORD s)])%list.
Proof.
  intros Hp. unfold delete, Py.truthy_str.
  destruct (p =? "") eqn:E; [apply String.eqb_eq in E; contradiction|].
  cbn [negb]. unfold recording_delete. cbn [fst snd].
  destruct (requests_delete _ (BUNNY_STORAGE_PASSWORD s) w) as [[code|m|m] w'];
    [destruct (bunny.raise_for_status code)| |]; reflexivity.
Qed.

(** X1. The base URL of the Storage API does not depend on how the
    settings are written: trailing slashes of the endpoint and slashes
    around the zone name, however many, are dropped, and one slash is put
    between and after them. *)
Theorem storage_base_ignores_extra_slashes :
  forall endpoint zone password cdn defaults (n m k : nat),
    STORAGE_BASE {| BUNNY_STORAGE_ENDPOINT := endpoint ++ slashes n;
                    BUNNY_STORAGE_ZONE := slashes m ++ zone ++ slashes k;
                    BUNNY_STORAGE_PASSWORD := password;
                    BUNNY_CDN_BASE_URL := cdn;
                    BUNNY_OPTIMIZER_DEFAULTS := defaults |}
    = STORAGE_BASE {| BUNNY_STORAGE_ENDPOINT := endpoint;
                      BUNNY_STORAGE_ZONE := zone;
                      BUNNY_STORAGE_PASSWORD := password;
                      BUNNY_CDN_BASE_URL := cdn;
                      BUNNY_OPTIMIZER_DEFAULTS := defaults |}.
Proof.
  intros. unfold STORAGE_BASE.
  cbn [BUNNY_STORAGE_ENDPOINT BUNNY_STORAGE_ZONE].
  rewrite rstrip_slashes by reflexivity. rewrite strip_slashes. reflexivity.
Qed.

(** X2. Slashes before and after the folder make no difference to an
    upload: [upload_bytes] and [upload] send the same request and return
    the same path and URL. *)
Theorem upload_ignores_folder_slashes :
  forall s data file folder base_name ctype ext (w : net) (m k : nat),
    upload_bytes net requests_put urljoin s data
      (slashes m ++ folder ++ slashes k) base_name ctype ext w
    = upload_bytes net requests_put urljoin s data folder base_name ctype ext w
    /\
    upload net requests_put urljoin splitext guess_extension s file
      (slashes m ++ folder ++ slashes k) base_name w
    = upload net requests_put urljoin splitext guess_extension s file
        folder base_name w.
Proof.
  intros. unfold upload_bytes, upload, _path_for.
  rewrite strip_slashes. split; reflexivity.
Qed.

(** X3. Upload, then delete. When the folder holds something besides
    slashes, deleting the path [upload_bytes] returned sends the DELETE
    request to the very URL the PUT request went to, with the same access
    key. *)
Theorem uploaded_object_is_deleted_at_its_url :
  forall s data folder base_name ctype ext (w : net) log r st,
    strip "/" folder <> "" ->
    upload_bytes (recorded net) (recording_put net requests_put) urljoin s
      data folder base_name ctype ext (w, log) = (inr r, st) ->
    snd st = (log ++ [PUT (STORAGE_BASE s ++ path r) data
                        (BUNNY_STORAGE_PASSWORD s) (Some ctype)])%list /\
    snd (snd (delete (recorded net) (recording_delete net requests_delete) s
                (path r) st))
    = (snd st ++ [DELETE (STORAGE_BASE s ++ path r)
                    (BUNNY_STORAGE_PASSWORD s)])%list.
Proof.
  intros s data folder base_name ctype ext w log r st Hne Hup.
  destruct (upload_bytes_recorded _ _ _ _ _ _ _ _ _ _ Hup)
    as [Hp [_ [Hlog _]]].
  split; [exact Hlog|].
  destruct st as [w' log']. rewrite delete_recorded.
  - cbn [snd]. rewrite Hp at 1. rewrite lstrip_after_strip by exact Hne.
    rewrite <- Hp. reflexivity.
  - rewrite Hp. destruct (strip "/" folder); [contradiction | discriminate].
Qed.

(** X4. Upload without a folder, then delete. When the folder is empty or
    made of slashes only, the returned path begins with a slash, which
    [delete] strips: the PUT request went to the base URL followed by a
    slash and the file name, the DELETE request goes to another URL. *)
Theorem upload_without_folder_is_deleted_elsewhere :
  forall s data folder base_name ctype ext (w : net) log r st,
    strip "/" folder = "" ->
    upload_bytes (recorded net) (recording_put net requests_put) urljoin s
      data folder base_name ctype ext (w, log) = (inr r, st) ->
    exists put_url del_url,
      put_url = STORAGE_BASE s ++ "/" ++ base_name ++ ext /\
      del_url = STORAGE_BASE s ++ lstrip "/" (base_name ++ ext) /\
      put_url <> del_url /\
      snd st = (log ++ [PUT put_url data (BUNNY_STORAGE_PASSWORD s)
                          (Some ctype)])%list /\
      snd (snd (delete (recorded net) (recording_delete net requests_delete)
                  s (path r) st))
      = (snd st ++ [DELETE del_url (BUNNY_STORAGE_PASSWORD s)])%list.
Proof.
  intros s data folder base_name ctype ext w log r st He Hup.
  destruct (upload_bytes_recorded _ _ _ _ _ _ _ _ _ _ Hup)
    as [Hp [_ [Hlog _]]].
  rewrite He in Hp. cbn [append] in Hp.
  exists (STORAGE_BASE s ++ "/" ++ base_name ++ ext),
         (STORAGE_BASE s ++ lstrip "/" (base_name ++ ext)).
  split; [reflexivity|]. split; [reflexivity|]. split; [|split].
  - intros H. apply append_inv_head in H. symmetry in H.
    exact (lstrip_shortens (base_name ++ ext) H).
  - rewrite Hlog, Hp. reflexivity.
  - destruct st as [w' log']. rewrite delete_recorded.
    + rewrite Hp. cbn [lstrip snd]. rewrite Ascii.eqb_refl. reflexivity.
    + rewrite Hp. discriminate.
Qed.

(** X5. [delete] answers [True] exactly when the path is not empty and
    the DELETE request for it, sent to the base URL followed by the path
    without its leading slashes, was answered with a status outside
    400-599; a request that raises gives [False]. An empty path gives
    [False] without any request; any other path costs one request. *)
Theorem delete_reports_the_storage_answer :
  forall s p (w : net),
    (fst (delete net requests_delete s p w) = true <->
     p <> "" /\
     exists code,
       fst (requests_delete (STORAGE_BASE s ++ lstrip "/" p)
              (BUNNY_STORAGE_PASSWORD s) w) = bunny.Response code /\
       (code < 400 \/ 600 <= code)%Z) /\
    (p = "" -> delete net requests_delete s p w = (false, w)) /\
    (forall log,
       p <> "" ->
       snd (snd (delete (recorded net) (recording_delete net requests_delete)
                   s p (w, log)))
       = (log ++ [DELETE (STORAGE_BASE s ++ lstrip "/" p)
                    (BUNNY_STORAGE_PASSWORD s)])%list).
Proof.
  intros s p w. split; [|split].
  - unfold delete, Py.truthy_str, bunny.raise_for_status.
    destruct (p =? "") eqn:E; cbn [negb fst].
    + apply String.eqb_eq in E. split; [discriminate|].
      intros [Hp _]. contradiction.
    + apply String.eqb_neq in E.
      destruct (requests_delete _ (BUNNY_STORAGE_PASSWORD s) w)
        as [[code|m|m] w']; cbn [fst].
      * destruct ((400 <=? code)%Z && (code <? 600)%Z) eqn:R; cbn [fst]; split.
        -- discriminate.
        -- intros [_ [c [Hc Hr]]]. injection Hc as <-. lia.
        -- intros _. split; [exact E|]. exists code.
           split; [reflexivity | lia].
        -- reflexivity.
      * split; [discriminate|]. intros [_ [c [Hc _]]]. discriminate.
      * split; [discriminate|]. intros [_ [c [Hc _]]]. discriminate.
  - intros ->. reflexivity.
  - intros log Hp. apply delete_recorded, Hp.
Qed.

(** X6. [upload] is [upload_bytes] applied to what the file gives: the
    bytes it reads, the extension [_ext_from] finds, which is never empty,
    and its content type, [application/octet-stream] when it has none. *)
Theorem upload_is_upload_bytes_of_the_file :
  forall s file folder base_name ext ctype (w : net),
    _ext_from splitext guess_extension file = inr ext ->
    content_type file = Value ctype \/
    content_type file = Absent /\ ctype = "application/octet-stream" ->
    ext <> "" /\
    upload net requests_put urljoin splitext guess_extension s file folder
      base_name w
    = upload_bytes net requests_put urljoin s (read file) folder base_name
        ctype ext w.
Proof.
  intros s file folder base_name ext ctype w Hext Hct.
  split; [exact (ext_from_not_empty _ _ Hext)|].
  unfold upload, upload_bytes, _path_for. rewrite Hext.
  destruct Hct as [-> | [-> ->]]; reflexivity.
Qed.

End Storage.

Lemma uploaded_object_is_deleted_witness :
  exists r st,
    PyStr.strip "/" "/avatars/" <> ""%string /\
    bunny_storage.upload_bytes (Wire.recorded nat)
      (Wire.recording_put nat SampleStorage.sample_put)
      SampleStorage.sample_urljoin SampleStorage.sample_storage
      "WEBP 400x300" "/avatars/" "7" "image/webp" ".webp" (0%nat, [])
    = (inr r, st) /\
    snd (snd (bunny_storage.delete (Wire.recorded nat)
                (Wire.recording_delete nat SampleStorage.sample_delete)
                SampleStorage.sample_storage (bunny_storage.path r) st))
    = [Wire.PUT "https://storage.bunnycdn.com/media/avatars/7.webp"
         "WEBP 400x300" "storage-key" (Some "image/webp"%string);
       Wire.DELETE "https://storage.bunnycdn.com/media/avatars/7.webp"
         "storage-key"]%string.
Proof.
  eexists. eexists.
  assert (Hne : PyStr.strip "/" "/avatars/" <> ""%string)
    by (vm_compute; discriminate).
  assert (Hup :
    bunny_storage.upload_bytes (Wire.recorded nat)
      (Wire.recording_put nat SampleStorage.sample_put)
      SampleStorage.sample_urljoin SampleStorage.sample_storage
      "WEBP 400x300" "/avatars/" "7" "image/webp" ".webp" (0%nat, [])
    = (inr {| bunny_storage.path := "avatars/7.webp";
              bunny_storage.url :=
                "https://cdn.example/avatars/7.webp?width=800" |},
       (1%nat,
        [Wire.PUT "https://storage.bunnycdn.com/media/avatars/7.webp"
           "WEBP 400x300" "storage-key" (Some "image/webp"%string)])))
    by (vm_compute; reflexivity).
  pose proof (uploaded_object_is_deleted_at_its_url nat
                SampleStorage.sample_put SampleStorage.sample_delete
                SampleStorage.sample_urljoin SampleStorage.sample_storage
                _ _ _ _ _ _ _ _ _ Hne Hup) as [_ H].
  split; [exact Hne|]. split; [exact Hup|].
  rewrite H. vm_compute. reflexivity.
Defined.

Lemma upload_without_folder_witness :
  exists r st put_url del_url,
    PyStr.strip "/" "//" = ""%string /\
    bunny_storage.upload_bytes (Wire.recorded nat)
      (Wire.recording_put nat SampleStorage.sample_put)
      SampleStorage.sample_urljoin SampleStorage.sample_storage
      "WEBP 400x300" "//" "7" "image/webp" ".webp" (0%nat, [])
    = (inr r, st) /\
    put_url = "https://storage.bunnycdn.com/media//7.webp"%string /\
    del_url = "https://storage.bunnycdn.com/media/7.webp"%string /\
    put_url <> del_url /\
    snd (snd (bunny_storage.delete (Wire.recorded nat)
                (Wire.recording_delete nat SampleStorage.sample_delete)
                SampleStorage.sample_storage (bunny_storage.path r) st))
    = (snd st ++ [Wire.DELETE del_url "storage-key"])%list.
Proof.
  assert (He : PyStr.strip "/" "//" = ""%string) by reflexivity.
  assert (Hup :
    bunny_storage.upload_bytes (Wire.recorded nat)
      (Wire.recording_put nat SampleStorage.sample_put)
      SampleStorage.sample_urljoin SampleStorage.sample_storage
      "WEBP 400x300" "//" "7" "image/webp" ".webp" (0%nat, [])
    = (inr {| bunny_storage.path := "/7.webp";
              bunny_storage.url := "https://cdn.example/7.webp?width=800" |},
       (1%nat,
        [Wire.PUT "https://storage.bunnycdn.com/media//7.webp"
           "WEBP 400x300" "storage-key" (Some "image/webp"%string)])))
    by (vm_compute; reflexivity).
  destruct (upload_without_folder_is_deleted_elsewhere nat
              SampleStorage.sample_put SampleStorage.sample_delete
              SampleStorage.sample_urljoin SampleStorage.sample_storage
              _ _ _ _ _ _ _ _ _ He Hup)
    as [pu [du [Hpu [Hdu [Hd [_ Hdel]]]]]].
  eexists. eexists. exists pu, du.
  split; [exact He|]. split; [exact Hup|].
  split; [rewrite Hpu; vm_compute; reflexivity|].
  split; [rewrite Hdu; vm_compute; reflexivity|].
  split; [exact Hd | exact Hdel].
Defined.

Lemma upload_is_upload_bytes_witness :
  bunny_storage._ext_from SampleStorage.sample_splitext
    SampleStorage.sample_guess_extension
    {| bunny_storage.name := PyStr.Value "photo.png"%string;
       bunny_storage.content_type := PyStr.Value "image/png"%string;
       bunny_storage.read := "PNG rgba 2000x1000" |}
  = inr ".png"%string /\
  ".png"%string <> ""%string /\
  bunny_storage.upload nat SampleStorage.sample_put
    SampleStorage.sample_urljoin SampleStorage.sample_splitext
    SampleStorage.sample_guess_extension SampleStorage.sample_storage
    {| bunny_storage.name := PyStr.Value "photo.png"%string;
       bunny_storage.content_type := PyStr.Value "image/png"%string;
       bunny_storage.read := "PNG rgba 2000x1000" |}
    "avatars" "7" 0%nat
  = bunny_storage.upload_bytes nat SampleStorage.sample_put
      SampleStorage.sample_urljoin SampleStorage.sample_storage
      "PNG rgba 2000x1000" "avatars" "7" "image/png" ".png" 0%nat.
Proof.
  assert (Hext :
    bunny_storage._ext_from SampleStorage.sample_splitext
      SampleStorage.sample_guess_extension
      {| bunny_storage.name := PyStr.Value "photo.png"%string;
         bunny_storage.content_type := PyStr.Value "image/png"%string;
         bunny_storage.read := "PNG rgba 2000x1000" |}
    = inr ".png"%string) by reflexivity.
  split; [exact Hext|].
  exact (upload_is_upload_bytes_of_the_file nat SampleStorage.sample_put
           SampleStorage.sample_urljoin SampleStorage.sample_splitext
           SampleStorage.sample_guess_extension SampleStorage.sample_storage
           _ "avatars"%string "7"%string _ "image/png"%string 0%nat Hext
           (or_introl eq_refl)).
Defined.

(** ** What [save] is handed *)

Section Metadata.
Import PIL Spec image_utils Saving.
Local Open Scope Z_scope.
Local Open Scope string_scope.
Variable B : backend.

Lemma oriented_info img : info (oriented img) = info img.
Proof.
  unfold oriented. destruct (orientation img) as [o|]; [|reflexivity].
  destruct (transpose_method o); reflexivity.
Qed.

Lemma strip_info_ext b img img' :
  info img = info img' -> info (strip b img) = info (strip b img').
Proof.
  intros E. destruct b; cbn [strip info_pop info]; rewrite E; reflexivity.
Qed.

Lemma info_pop_has_key key im : has_key key (info_pop key im) = false.
Proof.
  unfold has_key, info_pop. cbn [info].
  induction (info im) as [|[k v] l IH]; cbn [filter fst existsb];
    [reflexivity|].
  destruct (k =? key) eqn:E; cbn [negb existsb fst]; [exact IH|].
  rewrite E. exact IH.
Qed.

Lemma info_pop_keeps_absent key other im :
  has_key key im = false -> has_key key (info_pop other im) = false.
Proof.
  unfold has_key, info_pop. cbn [info].
  induction (info im) as [|[k v] l IH]; cbn [filter fst existsb];
    [reflexivity|].
  intros H. apply orb_false_iff in H. destruct H as [Hk Hl].
  destruct (negb (k =? other)); cbn [existsb fst]; [rewrite Hk|]; auto.
Qed.

Lemma strip_has_no_metadata img :
  has_key "exif" (strip true img) = false /\
  has_key "icc_profile" (strip true img) = false.
Proof.
  cbn [strip]. split.
  - apply info_pop_keeps_absent, info_pop_has_key.
  - apply info_pop_has_key.
Qed.

Lemma has_key_ext key a b : info a = info b -> has_key key a = has_key key b.
Proof. unfold has_key. intros ->. reflexivity. Qed.

Section InfoStages.
Variable Q : pil_call -> Prop.
Hypothesis Qplain :
  forall c, composite_call c = false ->
            match c with CallSave _ _ _ => False | _ => True end -> Q c.

Lemma convert_palette_info img :
  triple Q (convert_palette B img) (fun img' => info img' = info img).
Proof.
  unfold convert_palette. destruct (mode img =? "P").
  - apply triple_invoke; [apply Qplain; [reflexivity | exact I] | reflexivity].
  - apply triple_ret. reflexivity.
Qed.

Lemma resize_if_needed_info max_width img :
  triple Q (resize_if_needed B max_width img) (fun img' => info img' = info img).
Proof.
  unfold resize_if_needed.
  destruct max_width as [mw|]; [|apply triple_ret; reflexivity].
  destruct (Py.truthy_int (Some mw) && (width img >? mw)).
  - eapply triple_bind; [apply new_size_triple; exact Qplain|].
    intros sz _.
    apply triple_invoke; [apply Qplain; [reflexivity | exact I] | reflexivity].
  - apply triple_ret. reflexivity.
Qed.

Lemma flatten_for_jpeg_info fmt img :
  (fmt =? "JPEG")%string && Py.str_in (mode img) ["RGBA"; "LA"] = false ->
  triple Q (flatten_for_jpeg B fmt img) (fun img' => info img' = info img).
Proof.
  intros Hno. unfold flatten_for_jpeg. rewrite Hno.
  destruct ((fmt =? "JPEG")%string && negb (mode img =? "RGB")%string).
  - apply triple_invoke; [apply Qplain; [reflexivity | exact I] | reflexivity].
  - apply triple_ret. reflexivity.
Qed.

End InfoStages.

Lemma saves_info_plain b src c :
  composite_call c = false ->
  match c with CallSave _ _ _ => False | _ => True end ->
  saves_info_of b src c.
Proof. destruct c; cbn; intros H1 H2; solve [exact I | contradiction]. Qed.

Lemma plain_call_plain c :
  composite_call c = false ->
  match c with CallSave _ _ _ => False | _ => True end ->
  plain_call c.
Proof. destruct c; cbn; intros H1 H2; solve [exact H1 | contradiction]. Qed.

(** Every run of the second [try] block hands [save] the metadata of the
    oriented image, stripped or not as asked. *)
Lemma transcode_saves_info img0 max_width quality want strip_metadata :
  triple (saves_info_of strip_metadata (oriented img0))
    (transcode B img0 max_width quality want strip_metadata)
    (fun _ => True).
Proof.
  set (src := oriented img0).
  pose proof (saves_info_plain strip_metadata src) as Qp.
  unfold transcode.
  eapply triple_bind; [apply exif_transpose_triple; exact Qp|].
  intros img ->. fold src.
  eapply triple_bind; [apply convert_palette_info; exact Qp|].
  intros img1 H1.
  eapply triple_bind; [apply resize_if_needed_info; exact Qp|].
  intros img2 H2.
  destruct (_choose_output_format (mode img2) want) as [fmt ext] eqn:Hch.
  eapply triple_bind;
    [apply flatten_for_jpeg_info;
     [exact Qp | eapply selected_not_composited; exact Hch]|].
  intros img3 H3. cbv zeta.
  eapply triple_bind with (P1 := fun _ => True).
  - apply triple_invoke; [|exact I]. cbn.
    apply strip_info_ext. rewrite H3, H2, H1. reflexivity.
  - intros data _. apply triple_ret. exact I.
Qed.

Lemma compress_image_saves_info file max_width quality want strip_metadata img0 :
  decode B file = inr img0 ->
  Forall (saves_info_of strip_metadata (oriented img0))
    (fst (compress_image B file max_width quality want strip_metadata)).
Proof.
  intros Hd.
  destruct (compress_image_cases B file max_width quality want strip_metadata)
    as [[_ [msg E]] | [[_ [d [Hd' _]]] | [Hv _]]].
  - rewrite E. constructor.
  - rewrite Hd in Hd'. discriminate.
  - rewrite (compress_image_valid _ _ _ _ _ _ Hv), Hd.
    assert (H0 : Forall (saves_info_of strip_metadata (oriented img0))
                   [CallOpen file]) by (constructor; [exact I | constructor]).
    destruct (transcode_saves_info img0 max_width quality want strip_metadata
                _ H0) as [Hl _].
    destruct (transcode B img0 max_width quality want strip_metadata
                [CallOpen file]) as [log' [e|r]]; exact Hl.
Qed.

(** A complete run of the second [try] block: the log it leaves is made
    of plain calls followed by the one [save], whose output it returns. *)
Lemma transcode_success img0 max_width quality want strip_metadata log log'
  data ct ext :
  Forall plain_call log ->
  transcode B img0 max_width quality want strip_metadata log
  = (log', inr (data, ct, ext)) ->
  exists before im fmt,
    log' = (before ++ [CallSave im fmt (save_options fmt quality)])%list /\
    Forall plain_call before /\
    data = encode B im fmt (save_options fmt quality) /\
    ct = content_type_of fmt /\
    ((fmt = "WEBP" /\ ext = ".webp") \/ (fmt = "JPEG" /\ ext = ".jpg")).
Proof.
  intros H0 H. pose proof plain_call_plain as Qp. unfold transcode in H.
  apply bind_inr in H as (log1 & img1 & E1 & H).
  apply bind_inr in H as (log2 & img2 & E2 & H).
  apply bind_inr in H as (log3 & img3 & E3 & H).
  destruct (_choose_output_format (mode img3) want) as [fmt ext'] eqn:Hch.
  apply bind_inr in H as (log4 & img4 & E4 & H).
  cbv zeta in H. apply bind_inr in H as (log5 & d & E5 & H).
  unfold ret in H. injection H as <- <- <- <-.
  pose proof (exif_transpose_triple B plain_call Qp img0 log H0) as [F1 _].
  rewrite E1 in F1. cbn [fst] in F1.
  pose proof (convert_palette_info plain_call Qp img1 log1 F1) as [F2 _].
  rewrite E2 in F2. cbn [fst] in F2.
  pose proof (resize_if_needed_info plain_call Qp max_width img2 log2 F2)
    as [F3 _].
  rewrite E3 in F3. cbn [fst] in F3.
  pose proof (flatten_for_jpeg_info plain_call Qp fmt img3
                (selected_not_composited _ _ _ _ Hch) log3 F3) as [F4 _].
  rewrite E4 in F4. cbn [fst] in F4.
  unfold save, invoke in E5.
  destruct (fault B (CallSave (strip strip_metadata img4) fmt
                       (save_options fmt quality))); [discriminate|].
  injection E5 as <- <-.
  exists log4, (strip strip_metadata img4), fmt.
  repeat split; try assumption.
  destruct (choose_cases (mode img3) want) as [E | E];
    rewrite Hch in E; injection E as -> ->; [left | right]; split; reflexivity.
Qed.

Lemma compress_image_success file max_width quality want strip_metadata log
  data ct ext :
  compress_image B file max_width quality want strip_metadata
  = (log, inr (data, ct, ext)) ->
  exists before im fmt,
    log = (before ++ [CallSave im fmt (save_options fmt quality)])%list /\
    Forall plain_call before /\
    data = encode B im fmt (save_options fmt quality) /\
    ct = content_type_of fmt /\
    ((fmt = "WEBP" /\ ext = ".webp") \/ (fmt = "JPEG" /\ ext = ".jpg")).
Proof.
  intros H.
  destruct (compress_image_cases B file max_width quality want strip_metadata)
    as [[_ [msg E]] | [[_ [d [_ E]]] | [Hv [img0 Hd]]]];
    try (rewrite E in H; discriminate).
  rewrite (compress_image_valid _ _ _ _ _ _ Hv), Hd in H.
  destruct (transcode B img0 max_width quality want strip_metadata
              [CallOpen file]) as [log' [e|r]] eqn:E; [discriminate|].
  injection H as <- ->.
  assert (H0 : Forall plain_call [CallOpen file])
    by (constructor; [reflexivity | constructor]).
  exact (transcode_success _ _ _ _ _ _ _ _ _ _ H0 E).
Qed.

End Metadata.

(** X7. Metadata. Whatever [compress_image] hands to [save], in a run
    that completes or in one that [save] interrupts, carries the metadata
    of the image as [exif_transpose] returned it, less the entries [exif]
    and [icc_profile] when [strip_metadata] is set: with the flag set
    neither key is left, without it nothing is removed. *)
Theorem save_receives_the_metadata_asked_for :
  forall (B : PIL.backend) file max_width quality want strip_metadata img0
         im fmt kw,
    PIL.decode B file = inr img0 ->
    In (PIL.CallSave im fmt kw)
       (fst (image_utils.compress_image B file max_width quality want
               strip_metadata)) ->
    PIL.info im
    = PIL.info (image_utils.strip strip_metadata (PIL.oriented img0)) /\
    (strip_metadata = true ->
     Saving.has_key "exif" im = false /\
     Saving.has_key "icc_profile" im = false) /\
    (strip_metadata = false -> PIL.info im = PIL.info (PIL.oriented img0)).
Proof.
  intros B file max_width quality want strip_metadata img0 im fmt kw Hd Hin.
  pose proof (compress_image_saves_info B file max_width quality want
                strip_metadata img0 Hd) as HF.
  rewrite Forall_forall in HF. specialize (HF _ Hin). cbn in HF.
  split; [exact HF|]. split.
  - intros ->.
    destruct (strip_has_no_metadata (PIL.oriented img0)) as [H1 H2].
    rewrite <- (has_key_ext "exif" _ _ HF) in H1.
    rewrite <- (has_key_ext "icc_profile" _ _ HF) in H2.
    split; assumption.
  - intros ->. exact HF.
Qed.

Lemma save_receives_metadata_witness :
  exists im fmt kw,
    In (PIL.CallSave im fmt kw)
       (fst (image_utils.compress_image Samples.sample_backend
               (Samples.upload "JPEG rgb 400x300") (Some 800%Z) 75%Z "JPEG"
               true)) /\
    PIL.info im = [("dpi", "72")]%string /\
    Saving.has_key "exif" im = false.
Proof.
  pose proof (save_receives_the_metadata_asked_for Samples.sample_backend
                (Samples.upload "JPEG rgb 400x300") (Some 800%Z) 75%Z
                "JPEG"%string true
                (Samples.picture "RGB" 400 300 None "JPEG rgb 400x300")) as H.
  assert (Hin : exists im fmt kw,
             In (PIL.CallSave im fmt kw)
                (fst (image_utils.compress_image Samples.sample_backend
                        (Samples.upload "JPEG rgb 400x300") (Some 800%Z)
                        75%Z "JPEG" true))).
  { do 3 eexists. vm_compute. do 2 right. left. reflexivity. }
  destruct Hin as [im [fmt [kw Hin]]].
  exists im, fmt, kw. split; [exact Hin|].
  destruct (H im fmt kw eq_refl Hin) as [Hi [Hs _]].
  split; [rewrite Hi; reflexivity | exact (proj1 (Hs eq_refl))].
Defined.

(** X8. One encoding. When [compress_image] returns, the log of its
    library calls ends with the one [save] it made, with the options of
    the selected format and the requested quality; the bytes returned are
    what that call wrote, and the content type and extension returned are
    those of its format. No call before it is a [save]. *)
Theorem returned_bytes_are_the_saved_ones :
  forall (B : PIL.backend) file max_width quality want strip_metadata log
         data content_type ext,
    image_utils.compress_image B file max_width quality want strip_metadata
    = (log, inr (data, content_type, ext)) ->
    exists before im fmt,
      log = (before
             ++ [PIL.CallSave im fmt (image_utils.save_options fmt quality)])%list
      /\
      Forall Saving.plain_call before /\
      data = PIL.encode B im fmt (image_utils.save_options fmt quality) /\
      content_type = image_utils.content_type_of fmt /\
      ((fmt = "WEBP" /\ ext = ".webp") \/ (fmt = "JPEG" /\ ext = ".jpg"))%string.
Proof.
  intros B file max_width quality want strip_metadata log data content_type
    ext H.
  exact (compress_image_success B _ _ _ _ _ _ _ _ _ H).
Qed.

Lemma returned_bytes_witness :
  exists log before im fmt,
    image_utils.compress_image Samples.sample_backend
      (Samples.upload "PNG rgba 2000x1000") (Some 800%Z) 75%Z "JPEG" true
    = (log, inr ("WEBP 800x400", "image/webp", ".webp")%string) /\
    log = (before
           ++ [PIL.CallSave im fmt (image_utils.save_options fmt 75)])%list /\
    fmt = "WEBP"%string /\
    "WEBP 800x400"%string
    = PIL.encode Samples.sample_backend im fmt
        (image_utils.save_options fmt 75).
Proof.
  assert (Hc : exists log,
             image_utils.compress_image Samples.sample_backend
               (Samples.upload "PNG rgba 2000x1000") (Some 800%Z) 75%Z "JPEG"
               true
             = (log, inr ("WEBP 800x400", "image/webp", ".webp")%string))
    by (eexists; vm_compute; reflexivity).
  destruct Hc as [log Hc].
  destruct (returned_bytes_are_the_saved_ones _ _ _ _ _ _ _ _ _ _ Hc)
    as (before & im & fmt & Hl & _ & Hd & _ & Hf).
  exists log, before, im, fmt.
  split; [exact Hc|]. split; [exact Hl|]. split; [|exact Hd].
  destruct Hf as [[Hf _] | [_ Hf]]; [exact Hf | discriminate].
Defined.

(** ** The requests of the helpers *)

Section Helpers.
Import PyStr Wire.
Local Open Scope string_scope.
Variable world : Type.
Variable requests_delete :
  string -> string -> world -> bunny.post_result * world.
Variable requests_post :
  string -> string -> string -> world -> bunny.post_result * world.

Local Abbreviation rec_delete := (recording_delete world requests_delete).
Local Abbreviation rec_post := (recording_post world requests_post).

Lemma purge_one_recorded api key u (w : world) log :
  exists b w',
    bunny.purge_one (recorded world) rec_post api key u (w, log)
    = (b, (w', (log ++ [POST api key u])%list)).
Proof.
  unfold bunny.purge_one, recording_post. cbn [fst snd].
  destruct (requests_post api key u w) as [[code|m|m] w'];
    [destruct (bunny.raise_for_status code)| |];
    eexists; eexists; reflexivity.
Qed.

Lemma purge_loop_recorded api key urls :
  forall succ fail (w : world) log,
    snd (snd (bunny.purge_loop (recorded world) rec_post api key urls succ
                fail (w, log)))
    = (log ++ map (POST api key) (filter Py.truthy_str urls))%list.
Proof.
  induction urls as [|u rest IH]; intros succ fail w log;
    cbn [bunny.purge_loop filter].
  - cbn [map snd]. rewrite app_nil_r. reflexivity.
  - destruct (Py.truthy_str u) eqn:T; cbn [negb]; [|apply IH].
    destruct (purge_one_recorded api key u w log) as (b & w' & E).
    rewrite E. destruct b; rewrite IH; cbn [map];
      rewrite <- app_assoc; reflexivity.
Qed.

Lemma purge_cache_recorded s urls (w : world) log :
  snd (snd (bunny.purge_cache (recorded world) rec_post s urls (w, log)))
  = (log ++ if bunny.configured s
            then map (POST_of s) (filter Py.truthy_str urls)
            else [])%list.
Proof.
  unfold bunny.purge_cache, bunny.configured.
  destruct urls as [|u rest].
  - cbn [snd filter map].
    destruct (Py.truthy_opt_str (bunny.BUNNY_PULL_ZONE_ID s)
              && Py.truthy_opt_str (bunny.BUNNY_API_KEY s));
      rewrite app_nil_r; reflexivity.
  - destruct (Py.truthy_opt_str (bunny.BUNNY_PULL_ZONE_ID s));
      cbn [negb andb snd]; [|rewrite app_nil_r; reflexivity].
    destruct (Py.truthy_opt_str (bunny.BUNNY_API_KEY s));
      cbn [negb snd]; [|rewrite app_nil_r; reflexivity].
    cbv zeta. apply purge_loop_recorded.
Qed.

Lemma purge_cache_unconfigured s urls (w : world) :
  bunny.configured s = false ->
  snd (bunny.purge_cache world requests_post s urls w) = w.
Proof.
  unfold bunny.purge_cache, bunny.configured. intros H.
  destruct urls as [|u rest]; [reflexivity|].
  destruct (Py.truthy_opt_str (bunny.BUNNY_PULL_ZONE_ID s));
    cbn [negb andb snd] in *; [|reflexivity].
  rewrite H. reflexivity.
Qed.

Lemma delete_recorded_state s p (w : world) log :
  Py.truthy_str p = true ->
  exists b w',
    bunny_storage.delete (recorded world) rec_delete s p (w, log)
    = (b, (w', (log ++ [DELETE_of s p])%list)).
Proof.
  intros T. unfold bunny_storage.delete, recording_delete, DELETE_of.
  rewrite T. cbn [negb fst snd].
  destruct (requests_delete _ (bunny_storage.BUNNY_STORAGE_PASSWORD s) w)
    as [[code|m|m] w']; [destruct (bunny.raise_for_status code)| |];
    eexists; eexists; reflexivity.
Qed.

(** Whether the purge call of the helpers raises, on any world. *)
Lemma helper_purge_raises (W : Type)
  (post : string -> string -> string -> W -> bunny.post_result * W)
  s u rest (w : W) :
  match fst (helpers.purge_cache W post s (u :: rest) w) with
  | inl _ => settings_missing s = true
  | inr _ => settings_missing s = false
  end.
Proof.
  unfold helpers.purge_cache, settings_missing.
  destruct (helpers.undefined (helpers.BUNNY_PULL_ZONE_ID s));
    [reflexivity|].
  destruct (Py.truthy_opt_str (helpers.value (helpers.BUNNY_PULL_ZONE_ID s))
            && helpers.undefined (helpers.BUNNY_API_KEY s));
    [reflexivity|].
  destruct (bunny.purge_cache W post (helpers.cache s) (u :: rest) w).
  reflexivity.
Qed.

Lemma settings_missing_unconfigured s :
  settings_missing s = true -> bunny.configured (helpers.cache s) = false.
Proof.
  unfold settings_missing, bunny.configured, helpers.cache.
  cbn [bunny.BUNNY_PULL_ZONE_ID bunny.BUNNY_API_KEY].
  destruct (helpers.BUNNY_PULL_ZONE_ID s) as [| |z]; cbn; try reflexivity;
    try discriminate.
  destruct (Py.truthy_str z); cbn; [|reflexivity].
  destruct (helpers.BUNNY_API_KEY s); cbn; try discriminate. reflexivity.
Qed.

Lemma helper_purge_recorded s urls (w : world) log :
  snd (snd (helpers.purge_cache (recorded world) rec_post s urls (w, log)))
  = (log ++ if bunny.configured (helpers.cache s)
            then map (POST_of (helpers.cache s)) (filter Py.truthy_str urls)
            else [])%list.
Proof.
  pose proof (purge_cache_recorded (helpers.cache s) urls w log) as Hp.
  unfold helpers.purge_cache.
  destruct urls as [|u rest].
  - destruct (bunny.purge_cache (recorded world) rec_post (helpers.cache s)
                [] (w, log)) as [res st]. exact Hp.
  - destruct (helpers.undefined (helpers.BUNNY_PULL_ZONE_ID s)) eqn:U1.
    + rewrite settings_missing_unconfigured
        by (unfold settings_missing; rewrite U1; reflexivity).
      cbn [snd]. rewrite app_nil_r. reflexivity.
    + destruct (Py.truthy_opt_str
                  (helpers.value (helpers.BUNNY_PULL_ZONE_ID s))
                && helpers.undefined (helpers.BUNNY_API_KEY s)) eqn:U2.
      * rewrite settings_missing_unconfigured
          by (unfold settings_missing; rewrite U1, U2; reflexivity).
        cbn [snd]. rewrite app_nil_r. reflexivity.
      * destruct (bunny.purge_cache (recorded world) rec_post
                    (helpers.cache s) (u :: rest) (w, log)) as [res st].
        exact Hp.
Qed.

Lemma delete_image_recorded s public_id url purge (w : world) log :
  exists b w',
    helpers.delete_image_from_bunny (recorded world) rec_delete rec_post s
      public_id url purge (w, log)
    = (b, (w', (log ++ deletion_requests s public_id url purge b)%list)).
Proof.
  unfold helpers.delete_image_from_bunny, deletion_requests.
  destruct public_id as [id|];
    [|exists false, w; rewrite app_nil_r; reflexivity].
  destruct (Py.truthy_str id) eqn:T; cbn [negb];
    [|exists false, w; rewrite app_nil_r; reflexivity].
  destruct (delete_recorded_state (helpers.storage s) id w log T)
    as (ok & w1 & E).
  rewrite E. unfold purge_requests, should_purge.
  destruct url as [u|]; [|exists ok, w1; reflexivity].
  destruct (ok && purge && Py.truthy_str u) eqn:C;
    [|exists ok, w1; rewrite C; reflexivity].
  assert (Tu : Py.truthy_str u = true)
    by (apply andb_true_iff in C; exact (proj2 C)).
  assert (Hpurge : exists b w2,
    match helpers.purge_cache (recorded world) rec_post s [u]
            (w1, (log ++ [DELETE_of (helpers.storage s) id])%list) with
    | (inr _, st) => (ok, st)
    | (inl _, st) => (false, st)
    end
    = (b, (w2, (log ++ DELETE_of (helpers.storage s) id
                       :: (if b && purge && Py.truthy_str u && true
                              && bunny.configured (helpers.cache s)
                           then [POST_of (helpers.cache s) u]
                           else []))%list))).
  { pose proof (helper_purge_recorded s [u] w1
                  (log ++ [DELETE_of (helpers.storage s) id])%list) as Hp.
    pose proof (helper_purge_raises (recorded world) rec_post s u [] 
                  (w1, (log ++ [DELETE_of (helpers.storage s) id])%list))
      as Hr.
    destruct (helpers.purge_cache (recorded world) rec_post s [u]
                (w1, (log ++ [DELETE_of (helpers.storage s) id])%list))
      as [[e|res] [w2 log2]]; cbn [fst snd] in Hp, Hr; subst log2.
    - exists false, w2.
      rewrite (settings_missing_unconfigured s Hr). cbn [andb].
      rewrite app_nil_r. reflexivity.
    - exists ok, w2. rewrite C. cbn [filter andb]. rewrite Tu.
      rewrite <- app_assoc. cbn [app map].
      destruct (bunny.configured (helpers.cache s)); reflexivity. }
  destruct (helpers.BUNNY_PURGE_ON_OVERWRITE s) as [[|]|].
  - exact Hpurge.
  - exists ok, w1. rewrite C. reflexivity.
  - exact Hpurge.
Qed.

Lemma purge_requests_posts s url wanted :
  filter is_DELETE (purge_requests s url wanted) = [] /\
  filter is_PUT (purge_requests s url wanted) = [] /\
  filter is_SAVE (purge_requests s url wanted) = [].
Proof.
  unfold purge_requests. destruct url as [u|]; [|repeat split].
  destruct (wanted && Py.truthy_str u && should_purge s
            && bunny.configured (helpers.cache s)); repeat split.
Qed.

Lemma deletion_requests_deletes s id url purge b :
  Py.truthy_str id = true ->
  filter is_DELETE (deletion_requests s (Some id) url purge b)
  = [DELETE_of (helpers.storage s) id].
Proof.
  intros T. unfold deletion_requests. rewrite T.
  cbn [filter is_DELETE DELETE_of].
  rewrite (proj1 (purge_requests_posts s url (b && purge))). reflexivity.
Qed.

Lemma bulk_loop_partition s media_pairs :
  forall succ fail (w : world),
    Permutation
      (bunny.success (fst (helpers.bulk_loop world requests_delete
                             requests_post s media_pairs succ fail w))
       ++ bunny.failed (fst (helpers.bulk_loop world requests_delete
                               requests_post s media_pairs succ fail w)))
      (succ ++ fail ++ present_ids media_pairs).
Proof.
  induction media_pairs as [|[public_id url] rest IH]; intros succ fail w;
    cbn [helpers.bulk_loop present_ids].
  - cbn [fst bunny.success bunny.failed]. rewrite app_nil_r. reflexivity.
  - destruct public_id as [id|]; [|apply IH].
    destruct (Py.truthy_str id) eqn:T; cbn [negb]; [|apply IH].
    destruct (helpers.delete_image_from_bunny world requests_delete
                requests_post s (Some id) url helpers.default_purge_cache w)
      as [[|] w'].
    + rewrite IH. rewrite <- app_assoc. apply Permutation_app_head.
      cbn [app]. apply Permutation_middle.
    + rewrite IH. rewrite <- app_assoc. reflexivity.
Qed.

Lemma bulk_loop_deletes s media_pairs :
  forall succ fail (w : world) log,
    filter is_DELETE
      (snd (snd (helpers.bulk_loop (recorded world) rec_delete rec_post s
                   media_pairs succ fail (w, log))))
    = (filter is_DELETE log
       ++ map (DELETE_of (helpers.storage s)) (present_ids media_pairs))%list.
Proof.
  induction media_pairs as [|[public_id url] rest IH]; intros succ fail w log;
    cbn [helpers.bulk_loop present_ids].
  - cbn [snd map]. rewrite app_nil_r. reflexivity.
  - destruct public_id as [id|]; [|apply IH].
    destruct (Py.truthy_str id) eqn:T; cbn [negb]; [|apply IH].
    destruct (delete_image_recorded s (Some id) url
                helpers.default_purge_cache w log) as (b & w' & E).
    rewrite E.
    destruct b; rewrite IH; rewrite filter_app;
      rewrite (deletion_requests_deletes _ _ _ _ _ T);
      rewrite <- app_assoc; reflexivity.
Qed.

(** X9. [purge_cache] sends one POST request per non-empty URL, in the
    order of the list, each to the [purgeCache] address of the pull zone
    with the API key; an empty list sends none. When the pull zone id or
    the API key is not set it sends nothing at all and leaves the network
    as it found it. *)
Theorem purge_cache_posts_once_per_url :
  forall s urls (w : world) log,
    snd (snd (bunny.purge_cache (recorded world) rec_post s urls (w, log)))
    = (log ++ if bunny.configured s
              then map (POST_of s) (filter Py.truthy_str urls)
              else [])%list /\
    (bunny.configured s = false ->
     snd (bunny.purge_cache world requests_post s urls w) = w).
Proof.
  intros s urls w log. split.
  - apply purge_cache_recorded.
  - apply purge_cache_unconfigured.
Qed.

(** X10. [delete_image_from_bunny] answers [False] for an absent or
    empty public id and otherwise what the storage answered for the
    DELETE request, with one exception: when the purge that follows
    raises, a setting of the purge API being undefined, the handler of
    lines 78-80 answers [False] although the object is deleted. A purge
    that is refused or fails otherwise never changes the answer. On the
    wire: nothing for an absent id; otherwise the DELETE request and
    then, only if the deletion succeeded, a purge was asked for, a URL
    was given, [BUNNY_PURGE_ON_OVERWRITE] is unset or true and the purge
    API is configured, one POST request for the URL. *)
Theorem delete_image_verdict_and_requests :
  forall s public_id url purge (w : world) log,
    fst (helpers.delete_image_from_bunny world requests_delete requests_post
           s public_id url purge w)
    = match public_id with
      | Some id =>
          fst (bunny_storage.delete world requests_delete (helpers.storage s)
                 id w)
          && negb (purge && Py.truthy_opt_str url && should_purge s
                   && settings_missing s)
      | None => false
      end /\
    snd (snd (helpers.delete_image_from_bunny (recorded world) rec_delete
                rec_post s public_id url purge (w, log)))
    = (log ++ deletion_requests s public_id url purge
                (fst (helpers.delete_image_from_bunny (recorded world)
                        rec_delete rec_post s public_id url purge (w, log))))%list.
Proof.
  intros s public_id url purge w log. split.
  - unfold helpers.delete_image_from_bunny, should_purge.
    destruct public_id as [id|]; [|reflexivity].
    destruct (Py.truthy_str id) eqn:T; cbn [negb].
    + destruct (bunny_storage.delete world requests_delete
                  (helpers.storage s) id w) as [ok w1].
      cbn [fst].
      destruct url as [u|]; cbn [Py.truthy_opt_str];
        [|rewrite andb_false_r; cbn [andb negb fst];
          rewrite andb_true_r; reflexivity].
      destruct ok; cbn [andb];
        [|destruct (purge && Py.truthy_str u); [|reflexivity];
          destruct (helpers.BUNNY_PURGE_ON_OVERWRITE s) as [[|]|];
          try reflexivity;
          destruct (helpers.purge_cache world requests_post s [u] w1)
            as [[e|res] w2]; reflexivity].
      destruct (purge && Py.truthy_str u); cbn [andb negb fst];
        [|reflexivity].
      destruct (helpers.BUNNY_PURGE_ON_OVERWRITE s) as [[|]|];
        cbn [andb negb fst]; try reflexivity;
        pose proof (helper_purge_raises world requests_post s u [] w1) as Hr;
        destruct (helpers.purge_cache world requests_post s [u] w1)
          as [[e|res] w2]; cbn [fst] in Hr |- *; rewrite Hr; reflexivity.
    + unfold bunny_storage.delete. rewrite T. reflexivity.
  - destruct (delete_image_recorded s public_id url purge w log)
      as (b & w' & E).
    rewrite E. reflexivity.
Qed.

(** X11. [bulk_delete_images_from_bunny] sorts the public ids that are
    neither [None] nor empty into [success] and [failed]: together the
    two lists hold each of them once, and nothing else. It sends one
    DELETE request per such id, in the order of the pairs, whatever the
    earlier ones were answered. *)
Theorem bulk_delete_sorts_every_public_id :
  forall s media_pairs (w : world) log,
    Permutation
      (bunny.success
         (fst (helpers.bulk_delete_images_from_bunny world requests_delete
                 requests_post s media_pairs w))
       ++ bunny.failed
            (fst (helpers.bulk_delete_images_from_bunny world requests_delete
                    requests_post s media_pairs w)))
      (present_ids media_pairs) /\
    filter is_DELETE
      (snd (snd (helpers.bulk_delete_images_from_bunny (recorded world)
                   rec_delete rec_post s media_pairs (w, log))))
    = (filter is_DELETE log
       ++ map (DELETE_of (helpers.storage s)) (present_ids media_pairs))%list.
Proof.
  intros s media_pairs w log. unfold helpers.bulk_delete_images_from_bunny.
  split.
  - apply (bulk_loop_partition s media_pairs [] [] w).
  - apply bulk_loop_deletes.
Qed.

End Helpers.

(** ** Uploading, updating and clearing an image *)

Section HelperUploads.
Import PIL PyStr Wire.
Local Open Scope string_scope.
Variable B : backend.
Variable world : Type.
Variable requests_put :
  string -> string -> string -> option string -> world
  -> bunny_storage.put_result * world.
Variable requests_delete :
  string -> string -> world -> bunny.post_result * world.
Variable requests_post :
  string -> string -> string -> world -> bunny.post_result * world.
Variable urljoin : string -> string -> string.
Variable instance_save :
  helpers.instance -> list string -> world -> option string * world.

Local Abbreviation rec_put := (recording_put world requests_put).
Local Abbreviation rec_delete := (recording_delete world requests_delete).
Local Abbreviation rec_post := (recording_post world requests_post).
Local Abbreviation rec_save := (recording_save world instance_save).

Lemma choose_webp m :
  image_utils._choose_output_format m "WEBP" = ("WEBP", ".webp").
Proof.
  unfold image_utils._choose_output_format.
  change (Py.upper "WEBP") with "WEBP". cbn.
  destruct (Py.str_in m ["RGBA"; "LA"; "P"]); reflexivity.
Qed.

Lemma compress_image_webp file max_width quality b log data ct ext :
  image_utils.compress_image B file max_width quality "WEBP" b
  = (log, inr (data, ct, ext)) ->
  ct = "image/webp" /\ ext = ".webp".
Proof.
  intros H.
  destruct (compress_image_cases B file max_width quality "WEBP" b)
    as [[_ [msg E]] | [[_ [d [_ E]]] | [Hv [img0 Hd]]]];
    try (rewrite E in H; discriminate).
  pose proof (compress_image_expected B file max_width quality "WEBP" b img0
                Hv Hd) as [_ Hr].
  rewrite H in Hr. cbn [snd] in Hr. unfold Spec.selected in Hr.
  rewrite choose_webp in Hr. exact Hr.
Qed.

Lemma upload_bytes_recorded_state s data folder base_name ctype ext
  (w : world) log :
  exists res w',
    bunny_storage.upload_bytes (recorded world) rec_put urljoin s data folder
      base_name ctype ext (w, log)
    = (res,
       (w', (log ++ [PUT (bunny_storage.STORAGE_BASE s ++ strip "/" folder
                          ++ "/" ++ base_name ++ ext)
                       data (bunny_storage.BUNNY_STORAGE_PASSWORD s)
                       (Some ctype)])%list)).
Proof.
  unfold bunny_storage.upload_bytes, bunny_storage.put, recording_put.
  cbn [fst snd].
  destruct (requests_put _ data (bunny_storage.BUNNY_STORAGE_PASSWORD s)
              (Some ctype) w) as [[code|e] w'];
    [destruct (bunny.raise_for_status code)|];
    eexists; eexists; reflexivity.
Qed.

Lemma or_else_same a : or_else a a = a.
Proof. unfold or_else. destruct (Py.truthy_str a); reflexivity. Qed.

(** The state in which [update_image_in_bunny] and
    [clear_image_from_bunny] go on after dealing with the old image. *)
Lemma old_image_deleted s (inst : helpers.instance) pf uf (w : world) log :
  exists verdict w',
    (if Py.truthy_opt_str (helpers.getattr inst pf)
     then snd (helpers.delete_image_from_bunny (recorded world) rec_delete
                 rec_post s (helpers.getattr inst pf)
                 (helpers.getattr inst uf) helpers.default_purge_cache
                 (w, log))
     else (w, log))
    = (w', (log ++ deletion_requests s (inst pf) (inst uf) true verdict)%list).
Proof.
  unfold helpers.getattr.
  destruct (Py.truthy_opt_str (inst pf)) eqn:T.
  - destruct (delete_image_recorded world requests_delete requests_post s
                (inst pf) (inst uf) helpers.default_purge_cache w log)
      as (b & w' & E).
    rewrite E. exists b, w'. reflexivity.
  - exists false, w. unfold deletion_requests.
    destruct (inst pf) as [id|]; cbn [Py.truthy_opt_str] in T;
      [rewrite T|]; rewrite app_nil_r; reflexivity.
Qed.

(** X12. When [compress_image] raises, [upload_image_to_bunny] raises a
    [ValidationError] and sends nothing: the network is left as it was.
    The detail is [str(e)] after "Failed to process image: " for the
    [IOError] of an undecodable or unencodable image, and after "Failed
    to upload image: " for the [ValueError] of a rejected quality or
    width, which only the second handler catches. *)
Theorem failed_compression_uploads_nothing :
  forall s file folder public_id max_width quality output_format (w : world) e,
    snd (image_utils.compress_image B file max_width quality output_format
           true) = inl e ->
    helpers.upload_image_to_bunny B world requests_put urljoin s file folder
      public_id max_width quality output_format w
    = (fst (image_utils.compress_image B file max_width quality output_format
              true),
       inl (helpers.ValidationError
              match e with
              | image_utils.IOError msg => "Failed to process image: " ++ msg
              | image_utils.ValueError msg => "Failed to upload image: " ++ msg
              end),
       w).
Proof.
  intros s file folder public_id max_width quality output_format w e H.
  unfold helpers.upload_image_to_bunny.
  change image_utils.default_strip_metadata with true.
  destruct (image_utils.compress_image B file max_width quality output_format
              true) as [log [e'|[[d c] x]]]; cbn [fst snd] in *;
    [|discriminate].
  injection H as ->. destruct e; reflexivity.
Qed.

(** X13. After a successful compression [upload_image_to_bunny] sends the
    bytes once and reports what came back. A response outside 400-599
    gives the path and URL; a 4xx or 5xx response, like any
    [RequestException] or other [IOError] of the request, gives a
    [ValidationError] that reads "Failed to process image: ", since
    [RequestException] is an [IOError] and the first handler catches it;
    any other exception gives "Failed to upload image: ". *)
Theorem upload_failure_is_a_validation_error :
  forall s file folder public_id max_width quality output_format (w : world)
         plog data ctype ext,
    image_utils.compress_image B file max_width quality output_format true
    = (plog, inr (data, ctype, ext)) ->
    let path := strip "/" folder ++ "/" ++ public_id ++ ext in
    let target := bunny_storage.STORAGE_BASE (helpers.storage s) ++ path in
    let key := bunny_storage.BUNNY_STORAGE_PASSWORD (helpers.storage s) in
    let run := helpers.upload_image_to_bunny B world requests_put urljoin s
                 file folder public_id max_width quality output_format w in
    fst (fst run) = plog /\
    snd run = snd (requests_put target data key (Some ctype) w) /\
    match fst (requests_put target data key (Some ctype) w) with
    | bunny_storage.PutResponse code =>
        if ((400 <=? code) && (code <? 600))%Z
        then exists msg,
            snd (fst run)
            = inl (helpers.ValidationError
                     ("Failed to process image: " ++ msg))
        else snd (fst run)
             = inr {| helpers.public_id := path;
                      helpers.secure_url :=
                        bunny_storage.cdn_url_for urljoin (helpers.storage s)
                          path;
                      helpers.url :=
                        bunny_storage.cdn_url_for urljoin (helpers.storage s)
                          path |}
    | bunny_storage.PutRaises (bunny_storage.RequestException msg)
    | bunny_storage.PutRaises (bunny_storage.OtherIOError msg) =>
        snd (fst run)
        = inl (helpers.ValidationError ("Failed to process image: " ++ msg))
    | bunny_storage.PutRaises (bunny_storage.OtherException msg) =>
        snd (fst run)
        = inl (helpers.ValidationError ("Failed to upload image: " ++ msg))
    end.
Proof.
  intros s file folder public_id max_width quality output_format w plog data
    ctype ext H. cbv zeta.
  unfold helpers.upload_image_to_bunny.
  change image_utils.default_strip_metadata with true. rewrite H.
  unfold bunny_storage.upload_bytes, bunny_storage.put,
    bunny.raise_for_status.
  destruct (requests_put _ data _ (Some ctype) w) as [[code|[m|m|m]] w'];
    cbn [fst snd].
  - destruct ((400 <=? code) && (code <? 600))%Z; cbn [fst snd];
      repeat split. eexists. reflexivity.
  - repeat split.
  - repeat split.
  - repeat split.
Qed.

(** X14. What [upload_image_to_bunny] returns is what it stored: the one
    request of a successful call is the PUT of the compressed bytes, with
    the content type [compress_image] returned, to the base URL followed
    by the returned [public_id]; that id is the folder without its outer
    slashes, a slash, the requested name and the extension that goes with
    the content type; [secure_url] and [url] are the same CDN URL of that
    path. *)
Theorem uploaded_image_is_the_compressed_one :
  forall s file folder public_id max_width quality output_format (w : world)
         log plog r st,
    helpers.upload_image_to_bunny B (recorded world) rec_put urljoin s file
      folder public_id max_width quality output_format (w, log)
    = (plog, inr r, st) ->
    exists data ctype ext,
      image_utils.compress_image B file max_width quality output_format true
      = (plog, inr (data, ctype, ext)) /\
      ((ext = ".webp" /\ ctype = "image/webp") \/
       (ext = ".jpg" /\ ctype = "image/jpeg")) /\
      helpers.public_id r = strip "/" folder ++ "/" ++ public_id ++ ext /\
      helpers.secure_url r = helpers.url r /\
      helpers.url r
      = bunny_storage.cdn_url_for urljoin (helpers.storage s)
          (helpers.public_id r) /\
      snd st
      = (log ++ [PUT (bunny_storage.STORAGE_BASE (helpers.storage s)
                      ++ helpers.public_id r)
                   data
                   (bunny_storage.BUNNY_STORAGE_PASSWORD (helpers.storage s))
                   (Some ctype)])%list.
Proof.
  intros s file folder public_id max_width quality output_format w log plog r
    st H.
  unfold helpers.upload_image_to_bunny in H.
  change image_utils.default_strip_metadata with true in H.
  destruct (image_utils.compress_image B file max_width quality output_format
              true) as [plog' [e|[[data ctype] ext]]] eqn:C; [discriminate|].
  destruct (bunny_storage.upload_bytes (recorded world) rec_put urljoin
              (helpers.storage s) data folder public_id ctype ext (w, log))
    as [[e|res] st'] eqn:U; [discriminate|].
  injection H as -> <- ->.
  destruct (upload_bytes_recorded world requests_put urljoin _ _ _ _ _ _ _ _
              _ _ U) as (Hp & Hu & Hl & _).
  exists data, ctype, ext. cbn [helpers.public_id helpers.secure_url
                                 helpers.url].
  split; [reflexivity|]. split; [|repeat split; assumption].
  destruct (compress_image_success B _ _ _ _ _ _ _ _ _ C)
    as (before & im & fmt & _ & _ & _ & Hct & [[-> ->] | [-> ->]]);
    subst ctype; [left | right]; split; reflexivity.
Qed.

(** X15. An upload that fails leaves the instance as it was and saves
    nothing, yet the old image is gone: when [update_image_in_bunny]
    raises the [ValidationError] of the upload, the instance is unchanged
    and no save was made, while the requests sent begin with those that
    delete the image the instance held. After them comes nothing, when
    the compression failed, or the one PUT request of the compressed
    WebP bytes, when the storage did not take them. *)
Theorem failed_update_keeps_the_instance :
  forall s (inst : helpers.instance) file public_id_field url_field folder
         base_name max_width quality (w : world) log plog detail inst' st,
    helpers.update_image_in_bunny B (recorded world) rec_put rec_delete
      rec_post urljoin rec_save s inst file public_id_field url_field folder
      base_name max_width quality (w, log)
    = (plog, inl (helpers.ValidationError detail), inst', st) ->
    inst' = inst /\
    exists verdict puts,
      snd st
      = (log
         ++ deletion_requests s (inst public_id_field) (inst url_field) true
              verdict
         ++ puts)%list /\
      forallb is_PUT puts = true /\
      (puts = [] \/
       exists data,
         image_utils.compress_image B file max_width quality "WEBP" true
         = (plog, inr (data, "image/webp", ".webp")) /\
         puts
         = [PUT (bunny_storage.STORAGE_BASE (helpers.storage s)
                 ++ strip "/" folder ++ "/" ++ base_name ++ ".webp")
              data
              (bunny_storage.BUNNY_STORAGE_PASSWORD (helpers.storage s))
              (Some "image/webp")]).
Proof.
  intros s inst file pf uf folder base_name max_width quality w log plog
    detail inst' st H.
  unfold helpers.update_image_in_bunny in H. cbv zeta in H.
  destruct (old_image_deleted s inst pf uf w log) as (verdict & w1 & E1).
  rewrite E1 in H.
  unfold helpers.upload_image_to_bunny in H.
  change helpers.default_output_format with "WEBP" in H.
  change image_utils.default_strip_metadata with true in H.
  destruct (image_utils.compress_image B file max_width quality "WEBP" true)
    as [plog' [e|[[data ctype] ext]]] eqn:C.
  - injection H as _ _ <- <-. split; [reflexivity|].
    exists verdict, []. cbn [snd forallb]. rewrite app_nil_r.
    split; [reflexivity|]. split; [reflexivity | left; reflexivity].
  - destruct (compress_image_webp _ _ _ _ _ _ _ _ C) as [-> ->].
    destruct (upload_bytes_recorded_state (helpers.storage s) data folder
                base_name "image/webp" ".webp" w1
                (log ++ deletion_requests s (inst pf) (inst uf) true verdict))
      as (res & w2 & E2).
    rewrite E2 in H. destruct res as [e|res].
    + injection H as <- _ <- <-. split; [reflexivity|].
      exists verdict. eexists. cbn [snd]. rewrite <- app_assoc.
      split; [reflexivity|]. split; [reflexivity|].
      right. exists data. split; reflexivity.
    + unfold recording_save in H. cbn [fst snd] in H.
      destruct (instance_save _ [pf; uf] w2) as [[e|] w3]; discriminate.
Qed.

(** X16. A successful [update_image_in_bunny] stores a WebP image and
    points the instance at it: the compressed bytes are sent with content
    type [image/webp] to the path made of the folder, the base name and
    [.webp]; the URL field holds the CDN URL of that path, the public id
    field the path (when the two fields are different ones), no other
    attribute changes; and the requests come in this order: those that
    delete the old image, the PUT request, the save of the two fields
    with their new values. *)
Theorem update_replaces_the_image :
  forall s (inst : helpers.instance) file public_id_field url_field folder
         base_name max_width quality (w : world) log plog inst' st,
    helpers.update_image_in_bunny B (recorded world) rec_put rec_delete
      rec_post urljoin rec_save s inst file public_id_field url_field folder
      base_name max_width quality (w, log)
    = (plog, inr tt, inst', st) ->
    let path := strip "/" folder ++ "/" ++ base_name ++ ".webp" in
    exists data verdict,
      image_utils.compress_image B file max_width quality "WEBP" true
      = (plog, inr (data, "image/webp", ".webp")) /\
      inst' url_field
      = Some (bunny_storage.cdn_url_for urljoin (helpers.storage s) path) /\
      (public_id_field <> url_field -> inst' public_id_field = Some path) /\
      (forall f, f <> public_id_field -> f <> url_field -> inst' f = inst f) /\
      snd st
      = (log
         ++ deletion_requests s (inst public_id_field) (inst url_field) true
              verdict
         ++ [PUT (bunny_storage.STORAGE_BASE (helpers.storage s) ++ path)
               data
               (bunny_storage.BUNNY_STORAGE_PASSWORD (helpers.storage s))
               (Some "image/webp");
             SAVE [(public_id_field, inst' public_id_field);
                   (url_field, inst' url_field)]])%list.
Proof.
  intros s inst file pf uf folder base_name max_width quality w log plog
    inst' st H. cbv zeta.
  unfold helpers.update_image_in_bunny in H. cbv zeta in H.
  destruct (old_image_deleted s inst pf uf w log) as (verdict & w1 & E1).
  rewrite E1 in H.
  unfold helpers.upload_image_to_bunny in H.
  change helpers.default_output_format with "WEBP" in H.
  change image_utils.default_strip_metadata with true in H.
  destruct (image_utils.compress_image B file max_width quality "WEBP" true)
    as [plog' [e|[[data ctype] ext]]] eqn:C; [discriminate|].
  destruct (compress_image_webp _ _ _ _ _ _ _ _ C) as [-> ->].
  destruct (upload_bytes_recorded_state (helpers.storage s) data folder
              base_name "image/webp" ".webp" w1
              (log ++ deletion_requests s (inst pf) (inst uf) true verdict))
    as (res & w2 & E2).
  pose proof E2 as E2'. rewrite E2 in H. destruct res as [e|res];
    [discriminate|].
  destruct (upload_bytes_recorded world requests_put urljoin _ _ _ _ _ _ _ _
              _ _ E2') as (Hp & Hu & _ & _).
  cbn [helpers.public_id helpers.secure_url helpers.url] in H.
  rewrite or_else_same in H.
  unfold recording_save in H. cbn [fst snd] in H.
  destruct (instance_save _ [pf; uf] w2) as [[e|] w3]; [discriminate|].
  injection H as <- <- <-.
  exists data, verdict. split; [reflexivity|].
  unfold helpers.setattr. cbn [snd map].
  rewrite !String.eqb_refl. rewrite Hu, Hp.
  split; [reflexivity|]. split; [|split].
  - intros Hne. apply String.eqb_neq in Hne. rewrite Hne. reflexivity.
  - intros f Hf1 Hf2. apply String.eqb_neq in Hf1, Hf2.
    rewrite Hf1, Hf2. reflexivity.
  - rewrite <- !app_assoc. reflexivity.
Qed.

(** X17. [clear_image_from_bunny] always clears: whatever the storage
    and the purge API answer, both fields end as [None], no other
    attribute changes, and the save of the two fields, with [None] in
    each, comes last, after the requests that delete the image the
    instance held. *)
Theorem clear_image_always_clears :
  forall s (inst : helpers.instance) public_id_field url_field (w : world) log,
    let run := helpers.clear_image_from_bunny (recorded world) rec_delete
                 rec_post rec_save s inst public_id_field url_field (w, log) in
    let inst' := snd (fst run) in
    inst' public_id_field = None /\
    inst' url_field = None /\
    (forall f, f <> public_id_field -> f <> url_field -> inst' f = inst f) /\
    exists verdict,
      snd (snd run)
      = (log
         ++ deletion_requests s (inst public_id_field) (inst url_field) true
              verdict
         ++ [SAVE [(public_id_field, None); (url_field, None)]])%list.
Proof.
  intros s inst pf uf w log. cbv zeta.
  unfold helpers.clear_image_from_bunny. cbv zeta.
  destruct (old_image_deleted s inst pf uf w log) as (verdict & w1 & E1).
  rewrite E1. unfold recording_save. cbn [fst snd].
  destruct (instance_save _ [pf; uf] w1) as [[e|] w2]; cbn [fst snd map];
    unfold helpers.setattr; rewrite !String.eqb_refl;
    (split; [destruct (pf =? uf); reflexivity|]);
    (split; [reflexivity|]);
    (split; [intros f Hf1 Hf2; apply String.eqb_neq in Hf1, Hf2;
             rewrite Hf1, Hf2; reflexivity|]);
    exists verdict; destruct (pf =? uf); rewrite <- app_assoc; reflexivity.
Qed.

End HelperUploads.

Section SampleRuns.
Local Open Scope string_scope.

Lemma failed_compression_witness :
  helpers.upload_image_to_bunny Samples.sample_backend nat
    SampleStorage.sample_put SampleStorage.sample_urljoin
    SampleStorage.sample_settings (Samples.upload "not an image") "avatars"
    "7" (Some 800%Z) 75%Z "WEBP" 0%nat
  = ([PIL.CallOpen (Samples.upload "not an image")],
     inl (helpers.ValidationError
            "Failed to process image: Cannot open image file: cannot identify image file"),
     0%nat) /\
  helpers.upload_image_to_bunny Samples.sample_backend nat
    SampleStorage.sample_put SampleStorage.sample_urljoin
    SampleStorage.sample_settings (Samples.upload "JPEG rgb 400x300")
    "avatars" "7" (Some 800%Z) 0%Z "WEBP" 0%nat
  = ([],
     inl (helpers.ValidationError
            "Failed to upload image: Quality must be between 1 and 100, got 0"),
     0%nat).
Proof.
  assert (H1 :
    snd (image_utils.compress_image Samples.sample_backend
           (Samples.upload "not an image") (Some 800%Z) 75%Z "WEBP" true)
    = inl (image_utils.IOError
             "Cannot open image file: cannot identify image file"))
    by (vm_compute; reflexivity).
  assert (H2 :
    snd (image_utils.compress_image Samples.sample_backend
           (Samples.upload "JPEG rgb 400x300") (Some 800%Z) 0%Z "WEBP" true)
    = inl (image_utils.ValueError
             "Quality must be between 1 and 100, got 0"))
    by (vm_compute; reflexivity).
  split.
  - rewrite (failed_compression_uploads_nothing Samples.sample_backend nat
               SampleStorage.sample_put SampleStorage.sample_urljoin
               SampleStorage.sample_settings _ "avatars"%string "7"%string
               _ _ _ 0%nat _ H1).
    vm_compute. reflexivity.
  - rewrite (failed_compression_uploads_nothing Samples.sample_backend nat
               SampleStorage.sample_put SampleStorage.sample_urljoin
               SampleStorage.sample_settings _ "avatars"%string "7"%string
               _ _ _ 0%nat _ H2).
    vm_compute. reflexivity.
Defined.

Lemma upload_failure_witness :
  exists plog,
    image_utils.compress_image Samples.sample_backend
      (Samples.upload "PNG rgba 2000x1000") (Some 800%Z) 75%Z "WEBP" true
    = (plog, inr ("WEBP 800x400", "image/webp", ".webp")%string) /\
    exists msg,
      snd (fst (helpers.upload_image_to_bunny Samples.sample_backend nat
                  SampleStorage.sample_put SampleStorage.sample_urljoin
                  SampleStorage.sample_settings
                  (Samples.upload "PNG rgba 2000x1000") "bad folder" "7"
                  (Some 800%Z) 75%Z "WEBP" 0%nat))
      = inl (helpers.ValidationError ("Failed to process image: " ++ msg)).
Proof.
  assert (Hc : exists plog,
    image_utils.compress_image Samples.sample_backend
      (Samples.upload "PNG rgba 2000x1000") (Some 800%Z) 75%Z "WEBP" true
    = (plog, inr ("WEBP 800x400", "image/webp", ".webp")%string))
    by (eexists; vm_compute; reflexivity).
  destruct Hc as [plog Hc]. exists plog. split; [exact Hc|].
  pose proof (upload_failure_is_a_validation_error Samples.sample_backend nat
                SampleStorage.sample_put SampleStorage.sample_urljoin
                SampleStorage.sample_settings _ "bad folder"%string
                "7"%string _ _ _ 0%nat _ _ _ _ Hc) as H.
  cbv zeta in H. destruct H as (_ & _ & H).
  match type of H with
  | match ?x with _ => _ end =>
      assert (Hput : x = bunny_storage.PutResponse 400)
        by (vm_compute; reflexivity);
      rewrite Hput in H
  end.
  exact H.
Defined.

Lemma uploaded_image_witness :
  exists plog data ctype ext,
    helpers.upload_image_to_bunny Samples.sample_backend (Wire.recorded nat)
      (Wire.recording_put nat SampleStorage.sample_put)
      SampleStorage.sample_urljoin SampleStorage.sample_settings
      (Samples.upload "PNG rgba 2000x1000") "/avatars/" "7" (Some 800%Z) 75%Z
      "JPEG" (0%nat, [])
    = (plog,
       inr {| helpers.public_id := "avatars/7.webp";
              helpers.secure_url :=
                "https://cdn.example/avatars/7.webp?width=800";
              helpers.url := "https://cdn.example/avatars/7.webp?width=800" |},
       (1%nat,
        [Wire.PUT "https://storage.bunnycdn.com/media/avatars/7.webp"
           "WEBP 800x400" "storage-key" (Some "image/webp"%string)])) /\
    image_utils.compress_image Samples.sample_backend
      (Samples.upload "PNG rgba 2000x1000") (Some 800%Z) 75%Z "JPEG" true
    = (plog, inr (data, ctype, ext)) /\
    ((ext = ".webp" /\ ctype = "image/webp") \/
     (ext = ".jpg" /\ ctype = "image/jpeg"))%string.
Proof.
  assert (Hrun : exists plog,
    helpers.upload_image_to_bunny Samples.sample_backend (Wire.recorded nat)
      (Wire.recording_put nat SampleStorage.sample_put)
      SampleStorage.sample_urljoin SampleStorage.sample_settings
      (Samples.upload "PNG rgba 2000x1000") "/avatars/" "7" (Some 800%Z) 75%Z
      "JPEG" (0%nat, [])
    = (plog,
       inr {| helpers.public_id := "avatars/7.webp";
              helpers.secure_url :=
                "https://cdn.example/avatars/7.webp?width=800";
              helpers.url := "https://cdn.example/avatars/7.webp?width=800" |},
       (1%nat,
        [Wire.PUT "https://storage.bunnycdn.com/media/avatars/7.webp"
           "WEBP 800x400" "storage-key" (Some "image/webp"%string)])))
    by (eexists; vm_compute; reflexivity).
  destruct Hrun as [plog Hrun].
  destruct (uploaded_image_is_the_compressed_one Samples.sample_backend nat
              SampleStorage.sample_put SampleStorage.sample_urljoin
              _ _ _ _ _ _ _ _ _ _ _ _ Hrun)
    as (data & ctype & ext & Hc & Hk & _).
  exists plog, data, ctype, ext.
  split; [exact Hrun|]. split; [exact Hc | exact Hk].
Defined.

Lemma failed_update_witness :
  exists st verdict puts,
    helpers.update_image_in_bunny Samples.sample_backend (Wire.recorded nat)
      (Wire.recording_put nat SampleStorage.sample_put)
      (Wire.recording_delete nat SampleStorage.sample_delete)
      (Wire.recording_post nat Samples.sample_post)
      SampleStorage.sample_urljoin
      (Wire.recording_save nat SampleStorage.sample_save)
      SampleStorage.sample_settings SampleStorage.with_image
      (Samples.upload "not an image") "image_public_id" "image_url" "avatars"
      "8" (Some 800%Z) 75%Z (0%nat, [])
    = ([PIL.CallOpen (Samples.upload "not an image")],
       inl (helpers.ValidationError
              "Failed to process image: Cannot open image file: cannot identify image file"),
       SampleStorage.with_image, st) /\
    snd st
    = ([] ++ Wire.deletion_requests SampleStorage.sample_settings
               (SampleStorage.with_image "image_public_id")
               (SampleStorage.with_image "image_url") true verdict
       ++ puts)%list /\
    forallb Wire.is_PUT puts = true /\
    snd st
    = [Wire.DELETE "https://storage.bunnycdn.com/media/avatars/7.webp"
         "storage-key";
       Wire.POST "https://api.bunny.net/pullzone/12345/purgeCache" "secret"
         "https://cdn.example/avatars/7.webp?width=800"]%string.
Proof.
  assert (Hrun :
    helpers.update_image_in_bunny Samples.sample_backend (Wire.recorded nat)
      (Wire.recording_put nat SampleStorage.sample_put)
      (Wire.recording_delete nat SampleStorage.sample_delete)
      (Wire.recording_post nat Samples.sample_post)
      SampleStorage.sample_urljoin
      (Wire.recording_save nat SampleStorage.sample_save)
      SampleStorage.sample_settings SampleStorage.with_image
      (Samples.upload "not an image") "image_public_id" "image_url" "avatars"
      "8" (Some 800%Z) 75%Z (0%nat, [])
    = ([PIL.CallOpen (Samples.upload "not an image")],
       inl (helpers.ValidationError
              "Failed to process image: Cannot open image file: cannot identify image file"),
       SampleStorage.with_image,
       (2%nat,
        [Wire.DELETE "https://storage.bunnycdn.com/media/avatars/7.webp"
           "storage-key";
         Wire.POST "https://api.bunny.net/pullzone/12345/purgeCache" "secret"
           "https://cdn.example/avatars/7.webp?width=800"]%string)))
    by (vm_compute; reflexivity).
  destruct (failed_update_keeps_the_instance Samples.sample_backend nat
              SampleStorage.sample_put SampleStorage.sample_delete
              Samples.sample_post SampleStorage.sample_urljoin
              SampleStorage.sample_save _ _ _ _ _ _ _ _ _ _ _ _ _ _ _ Hrun)
    as (_ & verdict & puts & Hl & Hp & _).
  eexists. exists verdict, puts.
  split; [exact Hrun|]. split; [exact Hl|]. split; [exact Hp | reflexivity].
Defined.

Lemma update_replaces_witness :
  exists plog inst' st,
    helpers.update_image_in_bunny Samples.sample_backend (Wire.recorded nat)
      (Wire.recording_put nat SampleStorage.sample_put)
      (Wire.recording_delete nat SampleStorage.sample_delete)
      (Wire.recording_post nat Samples.sample_post)
      SampleStorage.sample_urljoin
      (Wire.recording_save nat SampleStorage.sample_save)
      SampleStorage.sample_settings SampleStorage.with_image
      (Samples.upload "JPEG rgb 400x300") "image_public_id" "image_url"
      "avatars" "8" (Some 800%Z) 75%Z (0%nat, [])
    = (plog, inr tt, inst', st) /\
    inst' "image_public_id"%string = Some "avatars/8.webp"%string /\
    inst' "image_url"%string
    = Some "https://cdn.example/avatars/8.webp?width=800"%string /\
    snd st
    = [Wire.DELETE "https://storage.bunnycdn.com/media/avatars/7.webp"
         "storage-key";
       Wire.POST "https://api.bunny.net/pullzone/12345/purgeCache" "secret"
         "https://cdn.example/avatars/7.webp?width=800";
       Wire.PUT "https://storage.bunnycdn.com/media/avatars/8.webp"
         "WEBP 400x300" "storage-key" (Some "image/webp");
       Wire.SAVE [("image_public_id", Some "avatars/8.webp");
                  ("image_url",
                   Some "https://cdn.example/avatars/8.webp?width=800")]]%string.
Proof.
  assert (Hrun : exists plog inst',
    helpers.update_image_in_bunny Samples.sample_backend (Wire.recorded nat)
      (Wire.recording_put nat SampleStorage.sample_put)
      (Wire.recording_delete nat SampleStorage.sample_delete)
      (Wire.recording_post nat Samples.sample_post)
      SampleStorage.sample_urljoin
      (Wire.recording_save nat SampleStorage.sample_save)
      SampleStorage.sample_settings SampleStorage.with_image
      (Samples.upload "JPEG rgb 400x300") "image_public_id" "image_url"
      "avatars" "8" (Some 800%Z) 75%Z (0%nat, [])
    = (plog, inr tt, inst',
       (4%nat,
        [Wire.DELETE "https://storage.bunnycdn.com/media/avatars/7.webp"
           "storage-key";
         Wire.POST "https://api.bunny.net/pullzone/12345/purgeCache" "secret"
           "https://cdn.example/avatars/7.webp?width=800";
         Wire.PUT "https://storage.bunnycdn.com/media/avatars/8.webp"
           "WEBP 400x300" "storage-key" (Some "image/webp");
         Wire.SAVE [("image_public_id", Some "avatars/8.webp");
                    ("image_url",
                     Some "https://cdn.example/avatars/8.webp?width=800")]]%string)))
    by (do 2 eexists; vm_compute; reflexivity).
  destruct Hrun as (plog & inst' & Hrun).
  pose proof (update_replaces_the_image Samples.sample_backend nat
                SampleStorage.sample_put SampleStorage.sample_delete
                Samples.sample_post SampleStorage.sample_urljoin
                SampleStorage.sample_save _ _ _ _ _ _ _ _ _ _ _ _ _ _ Hrun)
    as H.
  cbv zeta in H. destruct H as (data & verdict & _ & Hu & Hp & _).
  exists plog, inst'. eexists.
  split; [exact Hrun|]. split; [|split].
  - rewrite Hp by discriminate. vm_compute. reflexivity.
  - rewrite Hu. vm_compute. reflexivity.
  - reflexivity.
Defined.

(** Clearing on the sample network, request by request: the image is
    deleted and purged, then the instance saved with both fields empty. *)
Example clear_on_the_sample_network :
  snd (snd (helpers.clear_image_from_bunny (Wire.recorded nat)
              (Wire.recording_delete nat SampleStorage.sample_delete)
              (Wire.recording_post nat Samples.sample_post)
              (Wire.recording_save nat SampleStorage.sample_save)
              SampleStorage.sample_settings SampleStorage.with_image
              "image_public_id" "image_url" (0%nat, [])))
  = [Wire.DELETE "https://storage.bunnycdn.com/media/avatars/7.webp"
       "storage-key";
     Wire.POST "https://api.bunny.net/pullzone/12345/purgeCache" "secret"
       "https://cdn.example/avatars/7.webp?width=800";
     Wire.SAVE [("image_public_id", None); ("image_url", None)]]%string.
Proof. vm_compute. reflexivity. Qed.

(** A deletion in a project without the settings of the purge API: the
    object is deleted, the purge raises before any request, and the
    helper answers [False]. *)
Example delete_image_without_purge_settings :
  helpers.delete_image_from_bunny (Wire.recorded nat)
    (Wire.recording_delete nat SampleStorage.sample_delete)
    (Wire.recording_post nat Samples.sample_post)
    SampleStorage.settings_without_purge (Some "avatars/7.webp")
    (Some "https://cdn.example/avatars/7.webp") true (0%nat, [])
  = (false,
     (1%nat,
      [Wire.DELETE "https://storage.bunnycdn.com/media/avatars/7.webp"
         "storage-key"])).
Proof. vm_compute. reflexivity. Qed.

(** Three pairs on the sample network: one deleted, one refused, one
    skipped. *)
Example bulk_delete_on_the_sample_network :
  fst (helpers.bulk_delete_images_from_bunny nat SampleStorage.sample_delete
         Samples.sample_post SampleStorage.sample_settings
         [(Some "avatars/7.webp", Some "https://cdn.example/avatars/7.webp");
          (Some "bad id.webp", None);
          (None, Some "https://cdn.example/avatars/9.webp")]%string 0%nat)
  = {| bunny.success := ["avatars/7.webp"%string];
       bunny.failed := ["bad id.webp"%string] |}.
Proof. vm_compute. reflexivity. Qed.

End SampleRuns.

(** ** The CDN URL *)

Section CdnUrl.
Import PyStr bunny_storage Wire.
Local Open Scope string_scope.
Variable urljoin : string -> string -> string.

Lemma contains_append c a b :
  contains c (a ++ b) = contains c a || contains c b.
Proof.
  induction a as [|x a IH]; cbn [append contains]; [reflexivity|].
  rewrite IH. apply orb_assoc.
Qed.

(** X18. The URL returned for a stored path. With optimizer defaults
    set, they end the URL and sit in its query string: after a [?] when
    the joined URL has none, after an [&] otherwise. Unset or empty
    defaults leave the joined URL as it is. Trailing slashes of
    [BUNNY_CDN_BASE_URL] change nothing. *)
Theorem cdn_url_carries_the_optimizer_defaults :
  forall endpoint zone password cdn defaults qs p (n : nat),
    defaults = Some qs ->
    qs <> "" ->
    let s := {| BUNNY_STORAGE_ENDPOINT := endpoint;
                BUNNY_STORAGE_ZONE := zone;
                BUNNY_STORAGE_PASSWORD := password;
                BUNNY_CDN_BASE_URL := cdn;
                BUNNY_OPTIMIZER_DEFAULTS := defaults |} in
    let joined := urljoin (rstrip "/" cdn ++ "/") p in
    (exists separator,
       cdn_url_for urljoin s p = joined ++ separator ++ qs /\
       (contains "?" joined = false -> separator = "?") /\
       (contains "?" joined = true -> separator = "&")) /\
    contains "?" (cdn_url_for urljoin s p) = true /\
    cdn_url_for urljoin
      {| BUNNY_STORAGE_ENDPOINT := endpoint;
         BUNNY_STORAGE_ZONE := zone;
         BUNNY_STORAGE_PASSWORD := password;
         BUNNY_CDN_BASE_URL := cdn ++ slashes n;
         BUNNY_OPTIMIZER_DEFAULTS := defaults |} p
    = cdn_url_for urljoin s p /\
    cdn_url_for urljoin
      {| BUNNY_STORAGE_ENDPOINT := endpoint;
         BUNNY_STORAGE_ZONE := zone;
         BUNNY_STORAGE_PASSWORD := password;
         BUNNY_CDN_BASE_URL := cdn;
         BUNNY_OPTIMIZER_DEFAULTS := None |} p
    = joined /\
    cdn_url_for urljoin
      {| BUNNY_STORAGE_ENDPOINT := endpoint;
         BUNNY_STORAGE_ZONE := zone;
         BUNNY_STORAGE_PASSWORD := password;
         BUNNY_CDN_BASE_URL := cdn;
         BUNNY_OPTIMIZER_DEFAULTS := Some "" |} p
    = joined.
Proof.
  intros endpoint zone password cdn defaults qs p n -> Hqs. cbv zeta.
  unfold cdn_url_for. cbn [BUNNY_CDN_BASE_URL BUNNY_OPTIMIZER_DEFAULTS].
  rewrite rstrip_slashes by reflexivity.
  assert (T : Py.truthy_str qs = true).
  { unfold Py.truthy_str. destruct (qs =? "") eqn:E; [|reflexivity].
    apply String.eqb_eq in E. contradiction. }
  rewrite T. change (Py.truthy_str "") with false. cbv iota.
  split; [|split].
  - destruct (contains "?" (urljoin (rstrip "/" cdn ++ "/") p)) eqn:C.
    + exists "&". split; [reflexivity|]. split; [discriminate | reflexivity].
    + exists "?". split; [reflexivity|]. split; [reflexivity | discriminate].
  - rewrite contains_append.
    destruct (contains "?" (urljoin (rstrip "/" cdn ++ "/") p));
      reflexivity.
  - repeat split.
Qed.

End CdnUrl.

Lemma cdn_url_witness :
  bunny_storage.cdn_url_for SampleStorage.sample_urljoin
    SampleStorage.sample_storage "avatars/7.webp"
  = "https://cdn.example/avatars/7.webp?width=800"%string /\
  PyStr.contains "?"
    (bunny_storage.cdn_url_for SampleStorage.sample_urljoin
       SampleStorage.sample_storage "avatars/7.webp") = true /\
  bunny_storage.cdn_url_for SampleStorage.sample_urljoin
    SampleStorage.sample_storage "avatars/7.webp?v=2"
  = "https://cdn.example/avatars/7.webp?v=2&width=800"%string.
Proof.
  assert (Hq : "width=800"%string <> ""%string) by discriminate.
  pose proof (cdn_url_carries_the_optimizer_defaults
                SampleStorage.sample_urljoin
                "https://storage.bunnycdn.com/"%string "/media/"%string
                "storage-key"%string "https://cdn.example"%string
                (Some "width=800"%string) "width=800"%string
                "avatars/7.webp"%string 0%nat eq_refl Hq) as H.
  cbv zeta in H. destruct H as (_ & Hc & _).
  split; [reflexivity|]. split; [exact Hc | reflexivity].
Defined.

(** ** What reaches the storage *)

Section Stored.
Import PIL Spec image_utils Saving.
Local Open Scope Z_scope.

(** X19. The width limit is kept: with [max_width] set, no image wider
    than [max_width] is ever handed to [save], whether the source was
    resized or was small enough already. *)
Theorem saved_image_fits_max_width :
  forall (B : backend) file mw quality want strip_metadata im fmt kw,
    In (CallSave im fmt kw)
       (fst (compress_image B file (Some mw) quality want strip_metadata)) ->
    width im <= mw.
Proof.
  intros B file mw quality want strip_metadata im fmt kw Hin.
  destruct (compress_image_cases B file (Some mw) quality want strip_metadata)
    as [[_ [msg E]] | [[_ [d [_ E]]] | [Hv [img0 Hd]]]].
  - rewrite E in Hin. destruct Hin.
  - rewrite E in Hin. destruct Hin as [Hin | []]. discriminate.
  - pose proof (saved_size B file (Some mw) quality want strip_metadata img0
                  im fmt kw Hv Hd Hin) as Hs.
    unfold size, output_size in Hs.
    destruct Hv as [_ Hw]. unfold Py.truthy_int in Hs.
    assert (Hnz : negb (mw =? 0) = true) by (apply negb_true_iff; lia).
    rewrite Hnz in Hs. cbn [andb] in Hs.
    destruct (width (oriented img0) >? mw) eqn:C.
    + injection Hs as -> _. lia.
    + injection Hs as -> _. lia.
Qed.

Lemma saved_image_fits_witness :
  exists im fmt kw,
    In (CallSave im fmt kw)
       (fst (compress_image Samples.sample_backend
               (Samples.upload "PNG rgba 2000x1000") (Some 800) 75
               "WEBP"%string true)) /\
    width im <= 800.
Proof.
  assert (Hin : exists im fmt kw,
             In (CallSave im fmt kw)
                (fst (compress_image Samples.sample_backend
                        (Samples.upload "PNG rgba 2000x1000") (Some 800) 75
                        "WEBP"%string true))).
  { do 3 eexists. vm_compute. do 3 right. left. reflexivity. }
  destruct Hin as [im [fmt [kw Hin]]].
  exists im, fmt, kw. split; [exact Hin|].
  exact (saved_image_fits_max_width _ _ _ _ _ _ _ _ _ Hin).
Defined.

End Stored.

Section StoredMetadata.
Import PIL PyStr Wire Saving.
Local Open Scope string_scope.
Variable B : backend.
Variable world : Type.
Variable requests_put :
  string -> string -> string -> option string -> world
  -> bunny_storage.put_result * world.
Variable urljoin : string -> string -> string.

(** X20. No metadata reaches the storage: the bytes a successful
    [upload_image_to_bunny] sent are what the encoder wrote for an image
    whose [info] holds neither [exif] nor [icc_profile], the helper
    leaving [strip_metadata] at its default. *)
Theorem uploaded_bytes_carry_no_metadata :
  forall s file folder public_id max_width quality output_format (w : world)
         log plog r st,
    helpers.upload_image_to_bunny B (recorded world)
      (recording_put world requests_put) urljoin s file folder public_id
      max_width quality output_format (w, log)
    = (plog, inr r, st) ->
    exists before im fmt data ctype,
      plog = (before
              ++ [CallSave im fmt (image_utils.save_options fmt quality)])%list
      /\
      has_key "exif" im = false /\
      has_key "icc_profile" im = false /\
      data = encode B im fmt (image_utils.save_options fmt quality) /\
      snd st
      = (log ++ [PUT (bunny_storage.STORAGE_BASE (helpers.storage s)
                      ++ helpers.public_id r)
                   data
                   (bunny_storage.BUNNY_STORAGE_PASSWORD (helpers.storage s))
                   (Some ctype)])%list.
Proof.
  intros s file folder public_id max_width quality output_format w log plog r
    st H.
  unfold helpers.upload_image_to_bunny in H.
  change image_utils.default_strip_metadata with true in H.
  destruct (image_utils.compress_image B file max_width quality output_format
              true) as [plog' [e|[[data ctype] ext]]] eqn:C; [discriminate|].
  destruct (bunny_storage.upload_bytes (recorded world)
              (recording_put world requests_put) urljoin (helpers.storage s)
              data folder public_id ctype ext (w, log))
    as [[e|res] st'] eqn:U; [discriminate|].
  injection H as -> <- ->.
  destruct (upload_bytes_recorded world requests_put urljoin _ _ _ _ _ _ _ _
              _ _ U) as (_ & _ & Hl & _).
  destruct (compress_image_success B _ _ _ _ _ _ _ _ _ C)
    as (before & im & fmt & Hlog & _ & Hdata & _).
  exists before, im, fmt, data, ctype.
  split; [exact Hlog|].
  assert (Hinfo : exists img0,
             info im = info (image_utils.strip true (oriented img0))).
  { destruct (compress_image_cases B file max_width quality output_format true)
      as [[_ [msg E]] | [[_ [d [_ E]]] | [_ [img0 Hd]]]];
      try (rewrite E in C; discriminate).
    exists img0.
    pose proof (compress_image_saves_info B file max_width quality
                  output_format true img0 Hd) as HF.
    rewrite C in HF. cbn [fst] in HF. rewrite Forall_forall in HF.
    apply (HF (CallSave im fmt (image_utils.save_options fmt quality))).
    rewrite Hlog. apply in_or_app. right. left. reflexivity. }
  destruct Hinfo as [img0 Hinfo].
  destruct (strip_has_no_metadata (oriented img0)) as [H1 H2].
  rewrite <- (has_key_ext "exif" _ _ Hinfo) in H1.
  rewrite <- (has_key_ext "icc_profile" _ _ Hinfo) in H2.
  cbn [helpers.public_id].
  repeat split; assumption.
Qed.

End StoredMetadata.

Lemma uploaded_bytes_witness :
  exists plog r st before im fmt,
    helpers.upload_image_to_bunny Samples.sample_backend (Wire.recorded nat)
      (Wire.recording_put nat SampleStorage.sample_put)
      SampleStorage.sample_urljoin SampleStorage.sample_settings
      (Samples.upload "JPEG rgb 400x300") "avatars" "7" (Some 800%Z) 75%Z
      "JPEG" (0%nat, [])
    = (plog, inr r, st) /\
    plog = (before
            ++ [PIL.CallSave im fmt (image_utils.save_options fmt 75)])%list /\
    Saving.has_key "exif" im = false /\
    Saving.has_key "icc_profile" im = false.
Proof.
  assert (Hrun : exists plog r st,
    helpers.upload_image_to_bunny Samples.sample_backend (Wire.recorded nat)
      (Wire.recording_put nat SampleStorage.sample_put)
      SampleStorage.sample_urljoin SampleStorage.sample_settings
      (Samples.upload "JPEG rgb 400x300") "avatars" "7" (Some 800%Z) 75%Z
      "JPEG" (0%nat, [])
    = (plog, inr r, st))
    by (do 3 eexists; vm_compute; reflexivity).
  destruct Hrun as (plog & r & st & Hrun).
  destruct (uploaded_bytes_carry_no_metadata Samples.sample_backend nat
              SampleStorage.sample_put SampleStorage.sample_urljoin
              _ _ _ _ _ _ _ _ _ _ _ _ Hrun)
    as (before & im & fmt & data & ctype & Hl & H1 & H2 & _).
  exists plog, r, st, before, im, fmt.
  split; [exact Hrun|]. split; [exact Hl|]. split; assumption.
Defined.
